(** * FunctionVisualizer computation engine: result envelopes and classifiers

    A shallow embedding of the Python engine under [backend/app/core]
    ([utils.py], [algebra.py], [geometry.py], [calculus.py], [matrices.py]).

    - Python [float] is IEEE binary64: it is embedded as Rocq's primitive
      [float], so comparisons, tolerances and concrete examples evaluate
      bit for bit.
    - A Python call either returns or raises: it is embedded in the
      [outcome] monad; [try ... except Exception] becomes [try_except].
    - NumPy, SymPy and Python's text formatting are outside the repository:
      they are collected in the record [Library] and every embedded function
      is parametric in it. *)

From Stdlib Require Import ZArith Floats List Bool Ascii String Lia.
From stdpp Require Import base strings gmap list pretty.

Set Default Proof Using "Type".
Set Warnings "-inexact-float".

(** ** Exceptions and outcomes *)

(** The exception classes the engine meets. All of them derive from
    Python's [Exception], so [except Exception] catches each one. *)
Inductive exn_class : Type :=
  | ValueError
  | TypeError
  | ZeroDivisionError
  | OverflowError
  | SympifyError
  | LinAlgError
  | RuntimeError.

Record exn : Type := Exn { exn_kind : exn_class; exn_message : string }.

(** [str(e)] *)
Definition str_exn (e : exn) : string := exn_message e.

Inductive outcome (A : Type) : Type :=
  | Return (a : A)
  | Raise (e : exn).
Arguments Return {A} a.
Arguments Raise {A} e.

#[global] Instance outcome_ret : MRet outcome := fun _ a => Return a.
#[global] Instance outcome_bind : MBind outcome := fun _ _ f m =>
  match m with
  | Return a => f a
  | Raise e => Raise e
  end.

(** [try: body  except Exception as e: handler(e)] where both return. *)
Definition try_except {A : Type} (body : outcome A) (handler : exn -> A) : A :=
  match body with
  | Return a => a
  | Raise e => handler e
  end.

(** [try: body  except Exception: pass], for a body run for its value. *)
Definition try_pass {A : Type} (body : outcome A) (fallback : A) : A :=
  try_except body (fun _ => fallback).

(** The line feed of ["\n"]. *)
Definition newline : string := String "010"%char EmptyString.

Definition is_sympify_error (e : exn) : bool :=
  match exn_kind e with SympifyError => true | _ => false end.

(** ** Python float arithmetic *)

Module PyFloat.
Local Open Scope float_scope.

(** [x > y], [x >= y], [x != y] on floats. *)
Definition gtb (x y : float) : bool := y <? x.
Definition geb (x y : float) : bool := y <=? x.
Definition neb (x y : float) : bool := negb (x =? y).

(** [x ** 2] on a float. CPython's [float_pow] settles the special
    values itself ([nan], the infinities, the zeros, 1 and -1) and hands
    the absolute value of every other base to C [pow], here the
    parameter [pow]: libm's result is not always the correctly rounded
    square. An infinite result of [pow] raises [OverflowError]; an
    underflow to zero does not raise. *)
Definition pow2 (pow : float -> float -> float) (x : float) : outcome float :=
  if is_nan x then Return x
  else if is_infinity x then Return infinity
  else if x =? 0 then Return 0
  else
    let iv := abs x in
    if iv =? 1 then Return 1
    else
      let r := pow iv 2 in
      if is_infinity r
      then Raise (Exn OverflowError "(34, 'Numerical result out of range')")
      else Return r.

(** [x / y] raises on a zero divisor. *)
Definition div (x y : float) : outcome float :=
  if y =? 0 then Raise (Exn ZeroDivisionError "float division by zero")
  else Return (x / y).

(** [math.sqrt(x)] *)
Definition math_sqrt (x : float) : outcome float :=
  if x <? 0 then Raise (Exn ValueError "math domain error")
  else Return (sqrt x).

(** [max(lo, x)] and [min(x, y)] keep their first argument on ties and
    on incomparable (NaN) arguments. *)
Definition max2 (x y : float) : float := if x <? y then y else x.
Definition min2 (x y : float) : float := if y <? x then y else x.

(** [int(x)]: truncation toward zero. *)
Definition to_int (x : float) : outcome Z :=
  match Prim2SF x with
  | S754_zero _ => Return 0%Z
  | S754_finite s m e =>
      Return (cond_Zopp s (if (0 <=? e)%Z then Z.pos m * 2 ^ e
                           else Z.pos m / 2 ^ (- e)))%Z
  | S754_infinity _ =>
      Raise (Exn OverflowError "cannot convert float infinity to integer")
  | S754_nan =>
      Raise (Exn ValueError "cannot convert float NaN to integer")
  end.

(** [x == int(x)] for a finite [x]: the comparison of a float with an
    integer is exact, so it holds when [x] has no fractional part. *)
Definition is_integral (x : float) : bool :=
  match Prim2SF x with
  | S754_zero _ => true
  | S754_finite _ m e =>
      if (0 <=? e)%Z then true else (Z.pos m mod 2 ^ (- e) =? 0)%Z
  | _ => false
  end.

(** [float(n)] for a Python [int]: nearest float, [OverflowError] when
    it is out of range. *)
Definition of_int (n : Z) : outcome float :=
  let r := SF2Prim (binary_normalize prec emax n 0 false) in
  if is_infinity r
  then Raise (Exn OverflowError "int too large to convert to float")
  else Return r.
End PyFloat.

(** ** Python text and integers *)

Module PyStr.
(** [s.count(c)] and [s.split(c)] for a separator [c] of one
    character: a text with n separators has n + 1 parts. *)
Fixpoint count (c : ascii) (s : string) : nat :=
  match s with
  | EmptyString => 0
  | String a rest => (if Ascii.eqb a c then 1 else 0) + count c rest
  end.

(** [c in s] *)
Fixpoint contains (c : ascii) (s : string) : bool :=
  match s with
  | EmptyString => false
  | String a rest => Ascii.eqb a c || contains c rest
  end.

Fixpoint split (c : ascii) (s : string) : list string :=
  match s with
  | EmptyString => [EmptyString]
  | String a rest =>
      if Ascii.eqb a c then EmptyString :: split c rest
      else match split c rest with
           | part :: parts => String a part :: parts
           | [] => [String a EmptyString]
           end
  end.

(** [s.replace(old, new)] for an [old] of two characters [c1 c2]:
    occurrences are replaced from the left and do not overlap. *)
Fixpoint replace2 (c1 c2 : ascii) (new s : string) : string :=
  match s with
  | EmptyString => s
  | String a tl =>
      match tl with
      | EmptyString => s
      | String b rest =>
          if Ascii.eqb a c1 && Ascii.eqb b c2 then new +:+ replace2 c1 c2 new rest
          else String a (replace2 c1 c2 new tl)
      end
  end.

(** [sep.join(parts)] *)
Fixpoint join (sep : string) (parts : list string) : string :=
  match parts with
  | [] => ""
  | [p] => p
  | p :: rest => p +:+ sep +:+ join sep rest
  end.
End PyStr.

Module PyInt.
(** [n / 2] for a Python [int]: the quotient, correctly rounded;
    [OverflowError] when it is out of range. *)
Definition half (n : Z) : outcome float :=
  let r := SF2Prim (binary_normalize prec emax n (-1) false) in
  if is_infinity r
  then Raise (Exn OverflowError "integer division result too large for a float")
  else Return r.

(** [range(n)] *)
Definition range (n : Z) : list Z := Z.of_nat <$> seq 0 (Z.to_nat n).
End PyInt.

(** ** Values exchanged with callers *)

(** JSON-like Python values: what a payload holds and what a caller may
    pass where a scalar is expected. A Python [dict] keeps insertion
    order, hence the association list. Tuples are listed as [PList]. *)
#[local] Unset Elimination Schemes.
Inductive pyval : Type :=
  | PNone
  | PBool (b : bool)
  | PInt (n : Z)
  | PFloat (x : float)
  | PStr (s : string)
  | PList (l : list pyval)
  | PDict (d : list (string * pyval)).
#[local] Set Elimination Schemes.

(** Numbers SymPy hands back for float input: a real [Float] (the IEEE
    infinities stand for [oo] and [-oo]), a value with an imaginary part,
    complex infinity [zoo], and [nan]. A [Float] made from a Python float
    carries 53 bits and an exponent without bounds, rounded to nearest:
    the model follows SymPy's arithmetic as long as no finite result
    leaves the normal range of binary64, where the two roundings agree. *)
Inductive sym_val : Type :=
  | SFloat (x : float)
  | SCplx (re im : float)
  | SZoo
  | SNaN.

(** A solution set returned by [solveset]. It has no [__iter__] (an
    interval, a [ConditionSet]), or iterating it yields finitely many
    elements, after which the iteration may raise, or it is an infinite
    iterable (an [ImageSet] over the integers, a union of such sets, as
    for the zeros of a periodic function), given by its n-th element. *)
Inductive solution_set (E : Type) : Type :=
  | NotIterable
  | Iterable (elements : list E) (failure : option exn)
  | Endless (element : nat -> E).
Arguments NotIterable {E}.
Arguments Iterable {E} elements failure.
Arguments Endless {E} element.

(** One call of [next] on the iterator of a solution set, [i] elements
    having been taken. *)
Inductive next_item (E : Type) : Type :=
  | Yield (x : E)
  | StopIteration
  | Fails (e : exn).
Arguments Yield {E} x.
Arguments StopIteration {E}.
Arguments Fails {E} e.

Definition next {E : Type} (s : solution_set E) (i : nat) : next_item E :=
  match s with
  | NotIterable => StopIteration
  | Iterable elements failure =>
      match elements !! i with
      | Some x => Yield x
      | None => match failure with Some e => Fails e | None => StopIteration end
      end
  | Endless element => Yield (element i)
  end.

Definition matrix : Type := list (list float).

(** ** The libraries the engine calls *)

Record Library : Type := {
  (** C [pow] of the platform's libm *)
  libm_pow : float -> float -> float;
  (** Python text *)
  float_str : float -> string;                 (* str(x), f"{x}"          *)
  float_fmt : string -> float -> string;       (* format(x, spec)          *)
  float_of_str : string -> option float;       (* float(s); None: ValueError *)
  (** NumPy *)
  np_linspace : float -> float -> nat -> list float;
  np_linalg_det : matrix -> outcome float;
  np_linalg_inv : matrix -> outcome matrix;
  (** The Unicode database: [c.isdigit()] for a character that is
      not ASCII, given by its code point *)
  unicode_isdigit : N -> bool;
  (** SymPy numbers *)
  sympy_sqrt_im : float -> float;              (* im(Float(D)**0.5), D < 0 *)
  sympy_float_str : float -> string;           (* str(Float(x))            *)
  sympy_float_latex : float -> string;
  sympy_cplx_str : float -> float -> string;
  sympy_cplx_latex : float -> float -> string;
  Matrix_det : matrix -> outcome sym_val;      (* Matrix(rows).det()       *)
  conic_latex : float -> float -> float -> float -> float -> float -> string;
  (** SymPy expressions in the variable x *)
  Expr : Type;
  sympify : string -> outcome Expr;
  sympy_str : Expr -> string;
  sympy_latex : Expr -> string;
  diff_x : Expr -> outcome Expr;               (* diff(e, x)               *)
  lambdify_x : Expr -> outcome unit;           (* lambdify(x, e, ...)      *)
  limit_x : Expr -> float -> string -> outcome Expr;
  solveset_x_reals : Expr -> outcome (solution_set Expr);
  solveset_x : Expr -> outcome (solution_set Expr);
  is_real : Expr -> option bool;               (* e.is_real: True/False/None *)
  float_evalf : Expr -> outcome float;         (* float(e.evalf())         *)
  subs_float_evalf : Expr -> Expr -> outcome float  (* float(f.subs(x, e).evalf()) *)
}.

(** ** utils.py *)

Record PlotElement : Type := {
  pe_type : string;
  pe_data : list (string * pyval);
  pe_style : list (string * pyval)
}.

Record ComputationResult : Type := {
  status : string;
  operation : string;
  payload : list (string * pyval);
  steps : list string;
  plot_elements : list PlotElement;
  latex : list (string * string)
}.

Definition create_error_result (op message : string) : ComputationResult :=
  {| status := "error";
     operation := op;
     payload := [("error", PStr message)];
     steps := ["Error: " +:+ message];
     plot_elements := [];
     latex := [] |}.

Section Utils.
Context (L : Library).

(** [format_latex_number(num)] with the default precision 4. *)
Definition format_latex_number (num : float) : outcome string :=
  n ← PyFloat.to_int num;
  if PyFloat.is_integral num then mret (pretty n)
  else mret (float_fmt L ".4g" num).
End Utils.

(** [PlotElement.to_dict] and [ComputationResult.to_dict] *)
Definition PlotElement_to_dict (el : PlotElement) : pyval :=
  PDict [("type", PStr (pe_type el)); ("data", PDict (pe_data el));
         ("style", PDict (pe_style el))].

Definition to_dict (r : ComputationResult) : pyval :=
  PDict [("status", PStr (status r));
         ("operation", PStr (operation r));
         ("payload", PDict (payload r));
         ("steps", PList (PStr <$> steps r));
         ("plot_elements", PList (PlotElement_to_dict <$> plot_elements r));
         ("latex", PDict ((λ '(k, v), (k, PStr v)) <$> latex r))].

(** ** SymPy numbers *)

Section SymNumbers.
Context (L : Library).
Local Open Scope float_scope.

(** [str(v)] and [latex(v)] of a SymPy number. *)
Definition sym_str (v : sym_val) : string :=
  match v with
  | SFloat x => sympy_float_str L x
  | SCplx re im => sympy_cplx_str L re im
  | SZoo => "zoo"
  | SNaN => "nan"
  end.

Definition sym_latex (v : sym_val) : string :=
  match v with
  | SFloat x => sympy_float_latex L x
  | SCplx re im => sympy_cplx_latex L re im
  | SZoo => "\tilde{\infty}"
  | SNaN => "\text{NaN}"
  end.

Definition sym_of_float (x : float) : sym_val :=
  if is_nan x then SNaN else SFloat x.

(** [simplify(D)**0.5] for a Python float [D]: the real square root,
    correctly rounded, or an imaginary number when [D] is negative.
    mpmath takes the root of [-D] on 63 bits and rounds it again, so the
    imaginary part is left to the library. *)
Definition sym_sqrt (D : float) : sym_val :=
  if is_nan D then SNaN
  else if D <? 0 then SCplx 0 (sympy_sqrt_im L D)
  else SFloat (sqrt D).

(** [x + v] and [x - v] for a Python float [x] on the left. *)
Definition sym_radd (x : float) (v : sym_val) : sym_val :=
  if is_nan x then SNaN
  else
    match v with
    | SFloat y => sym_of_float (x + y)
    | SCplx re im => SCplx (x + re) im
    | SZoo => if is_infinity x then SNaN else SZoo
    | SNaN => SNaN
    end.

Definition sym_rsub (x : float) (v : sym_val) : sym_val :=
  if is_nan x then SNaN
  else
    match v with
    | SFloat y => sym_of_float (x - y)
    | SCplx re im => SCplx (x - re) (- im)
    | SZoo => if is_infinity x then SNaN else SZoo
    | SNaN => SNaN
    end.

Definition sym_is_zero (v : sym_val) : bool :=
  match v with
  | SFloat x => x =? 0
  | SCplx re im => (re =? 0) && (im =? 0)
  | _ => false
  end.

(** [v / y] for a Python float [y]. SymPy does not raise on a zero
    divisor: a finite number over [0.0] is [zoo] ([0/0.0] is [nan]),
    and [oo] and [-oo] over [0.0] stay what they are. A real [Float]
    is divided; a number with an imaginary part is multiplied, part by
    part, by the rounded reciprocal of [y]. *)
Definition sym_div (v : sym_val) (y : float) : sym_val :=
  if is_nan y then SNaN
  else if y =? 0 then
    match v with
    | SNaN => SNaN
    | SFloat x => if x =? 0 then SNaN else if is_infinity x then SFloat x else SZoo
    | _ => if sym_is_zero v then SNaN else SZoo
    end
  else if is_infinity y then
    match v with
    | SFloat x => sym_of_float (x / y)
    | SCplx _ _ => SFloat 0
    | SZoo => SNaN
    | SNaN => SNaN
    end
  else
    match v with
    | SFloat x => sym_of_float (x / y)
    | SCplx re im => let inv := 1 / y in SCplx (re * inv) (im * inv)
    | SZoo => SZoo
    | SNaN => SNaN
    end.

(** [float(re(v))] *)
Definition float_re (v : sym_val) : float :=
  match v with
  | SFloat x => x
  | SCplx re _ => re
  | SZoo => nan
  | SNaN => nan
  end.
End SymNumbers.

(** ** algebra.py *)

Module Algebra.
Section Algebra.
Context (L : Library).
Local Open Scope float_scope.

(** *** _solve_quadratic *)

Definition discriminant (a b c : float) : outcome float :=
  b2 ← PyFloat.pow2 (libm_pow L) b;
  mret (b2 - 4 * a * c).

Definition root1 (a b D : float) : sym_val :=
  sym_div (sym_radd (- b) (sym_sqrt L D)) (2 * a).
Definition root2 (a b D : float) : sym_val :=
  sym_div (sym_rsub (- b) (sym_sqrt L D)) (2 * a).

Definition point_element (x : float) (label : string) : PlotElement :=
  {| pe_type := "point";
     pe_data := [("coords", PList [PFloat x; PInt 0]); ("label", PStr label)];
     pe_style := [("color", PStr "#ef4444"); ("size", PInt 10)] |}.

(** The plotting block of [_solve_quadratic]. The list is built by
    successive [append]s inside [try ... except Exception: pass]; here
    the first statement, [vx = -b / (2*a)], is the only one that can
    raise, so the block yields all its elements or none. *)
Definition quadratic_plot (a b c D : float) (x1 x2 : sym_val)
  : outcome (list PlotElement) :=
  vx ← PyFloat.div (- b) (2 * a);
  let domain :=
    if PyFloat.geb D 0 then
      let r1 := float_re x1 in
      let r2 := float_re x2 in
      let min_x := PyFloat.min2 r1 r2 in
      let max_x := PyFloat.max2 r1 r2 in
      let padding := PyFloat.max2 2 (max_x - min_x) in
      (min_x - padding, max_x + padding)
    else (vx - 5, vx + 5) in
  let xs := np_linspace L domain.1 domain.2 200 in
  let pts := (λ x, PList [PFloat x; PFloat (a * (x * x) + b * x + c)]) <$> xs in
  let curve :=
    {| pe_type := "curve";
       pe_data := [("points", PList pts); ("label", PStr "f(x)")];
       pe_style := [("color", PStr "#3b82f6"); ("width", PInt 2)] |} in
  mret (curve ::
        (if PyFloat.geb D 0 then
           point_element (float_re x1) "x1" ::
           (if PyFloat.gtb D 0 then [point_element (float_re x2) "x2"] else [])
         else [])).

Definition quadratic_parts : Type :=
  list (string * pyval) * list string * list (string * string) * list PlotElement.

Definition _solve_quadratic (a b c : float) : outcome quadratic_parts :=
  D ← discriminant a b c;
  let x1 := root1 a b D in
  let x2 := root2 a b D in
  let fs := float_str L in
  let steps0 :=
    [ "Equation: " +:+ fs a +:+ "x^2 + " +:+ fs b +:+ "x + " +:+ fs c +:+ " = 0";
      "Discriminant (D) = b^2 - 4ac = (" +:+ fs b +:+ ")^2 - 4(" +:+ fs a
        +:+ ")(" +:+ fs c +:+ ") = " +:+ fs D ] in
  let '(step, payload_sol) :=
    if PyFloat.gtb D 0 then
      ("D > 0, so there are two distinct real roots.",
       [("roots", PList [PStr (sym_str L x1); PStr (sym_str L x2)]);
        ("type", PStr "real_distinct")])
    else if D =? 0 then
      ("D = 0, so there is one repeated real root.",
       [("roots", PList [PStr (sym_str L x1)]); ("type", PStr "real_repeated")])
    else
      ("D < 0, so there are two complex conjugate roots.",
       [("roots", PList [PStr (sym_str L x1); PStr (sym_str L x2)]);
        ("type", PStr "complex")]) in
  let steps :=
    steps0 ++ [step; "Root 1: x = " +:+ sym_latex L x1;
               "Root 2: x = " +:+ sym_latex L x2] in
  let latex_res :=
    [("roots", "x_1 = " +:+ sym_latex L x1 +:+ ", \quad x_2 = " +:+ sym_latex L x2)] in
  let plot_elements := try_pass (quadratic_plot a b c D x1 x2) [] in
  mret (payload_sol, steps, latex_res, plot_elements).

(** *** QuadraticSolver.solve *)

Definition QuadraticSolver_solve (a b c : float) : ComputationResult :=
  try_except
    (parts ← _solve_quadratic a b c;
     let '(payload, steps, latex_res, plot_elements) := parts in
     mret {| status := "ok";
             operation := "quadratic_solve";
             payload := payload;
             steps := steps;
             plot_elements := plot_elements;
             latex := latex_res |})
    (λ e, create_error_result "quadratic_solve" (str_exn e)).

(** *** MatrixCalculator.compute_properties *)

(** A Python [str] by its code points. *)
Definition text : Type := list N.

(** The code points of a text written in ASCII. *)
Definition ascii_text (s : string) : text :=
  N_of_ascii <$> String.list_ascii_of_string s.

(** A matrix cell as the request schema admits it. *)
Inductive cell : Type :=
  | CInt (n : Z)
  | CFloat (x : float)
  | CStr (s : text).

(** [c.isdigit()] for one character: among the ASCII characters the
    ten digits; beyond ASCII what the Unicode database says (it holds
    of superscript digits and of the digits of other scripts). *)
Definition is_digit (c : N) : bool :=
  if (c <? 128)%N then (48 <=? c)%N && (c <=? 57)%N else unicode_isdigit L c.

(** [s.isdigit()]: every character is a digit and there is at least
    one. *)
Definition isdigit (s : text) : bool :=
  match s with
  | [] => false
  | _ => forallb is_digit s
  end.

(** [s.replace('.', '', 1)]: the first dot, if any, is removed. *)
Fixpoint replace_first_dot (s : text) : text :=
  match s with
  | [] => []
  | c :: rest => if (c =? 46)%N then rest else c :: replace_first_dot rest
  end.

Definition cell_is_numeric (x : cell) : bool :=
  match x with
  | CInt _ | CFloat _ => true
  | CStr s => isdigit (replace_first_dot s)
  end.

(** The two nested loops with [break]: [is_numeric] stays [True] until
    a cell fails the test. *)
Definition is_numeric (matrix_data : list (list cell)) : bool :=
  forallb (forallb cell_is_numeric) matrix_data.

Definition properties_parts : Type :=
  list (string * pyval) * list string * list (string * string).

(** The bodies of the two branches (the NumPy computation of lines
    48-116 and the SymPy computation of lines 119-156) are parameters:
    each returns the payload, steps and latex it built, or raises. *)
Context (numeric_branch symbolic_branch : list (list cell) -> outcome properties_parts).

Definition MatrixCalculator_compute_properties (matrix_data : list (list cell))
  : ComputationResult :=
  try_except
    (parts ← (if is_numeric matrix_data then numeric_branch matrix_data
              else symbolic_branch matrix_data);
     let '(payload, steps, latex_res) := parts in
     mret {| status := "ok";
             operation := "matrix_properties";
             payload := payload;
             steps := steps;
             plot_elements := [];
             latex := latex_res |})
    (λ e, create_error_result "matrix_properties" ("Matrix Error: " +:+ str_exn e)).
End Algebra.

(** *** safe_sympify and LinearSystemSolver.solve_system *)

Section LinearSystems.
Context (L : Library).
(** What [solve] returns is a [dict], a [list] or something else. *)
Inductive solve_result : Type :=
  | SolveDict (items : list (Expr L * Expr L))
  | SolveList (strs : list string) (list_latex : string)
  | SolveOther.
(** [lhs - rhs] and [expr.free_symbols] on expressions;
    [solve(eqs, symbols)], given the free symbols of each equation,
    with the symbols sorted by name. *)
Context (Symbols : Type).
Context (sympy_sub : Expr L → Expr L → outcome (Expr L)).
Context (free_symbols : Expr L → outcome Symbols).
Context (sympy_solve : list (Expr L) → list Symbols → outcome solve_result).
(** The text of the [ValueError] raised on unpacking [got] values into
    [expected] names. *)
Context (unpack_error : nat → nat → string).

Definition safe_sympify (expression : string) : outcome (Expr L) :=
  match sympify L expression with
  | Return e => Return e
  | Raise e =>
      Raise (Exn ValueError
               ("Invalid expression: " +:+ expression +:+ " (" +:+ str_exn e +:+ ")"))
  end.

(** One turn of the loop over the equations. *)
Definition parse_equation (eq_str : string) : outcome (Expr L * Symbols) :=
  expr ←
    (if PyStr.contains "=" eq_str then
       match PyStr.split "=" eq_str with
       | [lhs; rhs] =>
           l ← safe_sympify lhs;
           r ← safe_sympify rhs;
           sympy_sub l r
       | parts => Raise (Exn ValueError (unpack_error 2 (length parts)))
       end
     else safe_sympify eq_str);
  symbols ← free_symbols expr;
  mret (expr, symbols).

Definition solve_system_body (equations : list string) : outcome ComputationResult :=
  parsed ← mapM parse_equation equations;
  let eqs_sympy := fst <$> parsed in
  solution ← sympy_solve eqs_sympy (snd <$> parsed);
  let lx := sympy_latex L in
  let steps0 := "System of Equations:" :: ((λ eq, "  " +:+ lx eq +:+ " = 0") <$> eqs_sympy) in
  let '(more, payload_sol, latex_res) :=
    match solution with
    | SolveDict items =>
        ("Solution found:"
           :: ((λ '(sym, val), "  " +:+ lx sym +:+ " = " +:+ lx val) <$> items),
         (λ '(sym, val), (sympy_str L sym, PStr (sympy_str L val))) <$> items,
         [("solution",
           PyStr.join ", " ((λ '(sym, val), lx sym +:+ " = " +:+ lx val) <$> items))])
    | SolveList strs list_latex =>
        (["Solutions found:"],
         [("solutions", PList (PStr <$> strs))],
         [("solution", list_latex)])
    | SolveOther =>
        (["No unique solution found or system is inconsistent."],
         [],
         [("solution", "\text{No unique solution}")])
    end in
  mret {| status := "ok";
          operation := "solve_system";
          payload := [("equations", PList (PStr <$> equations));
                      ("solution", PDict payload_sol)];
          steps := steps0 ++ more;
          plot_elements := [];
          latex := latex_res |}.

Definition solve_system (equations : list string) : ComputationResult :=
  try_except (solve_system_body equations)
    (λ e, create_error_result "solve_system" (str_exn e)).
End LinearSystems.

(** *** ProgressionSolver.arithmetic *)

Section Progressions.
Context (L : Library).
Local Open Scope float_scope.

(** [a + i*d] for an [int] i: the integer is converted first. *)
Definition term (a d : float) (i : Z) : outcome float :=
  k ← PyFloat.of_int i;
  mret (a + k * d).

Definition arithmetic_body (a d : float) (n : Z) : outcome ComputationResult :=
  an ← term a d (n - 1);
  half_n ← PyInt.half n;
  k ← PyFloat.of_int (n - 1);
  let Sn := half_n * (2 * a + k * d) in
  series_list ← mapM (term a d) (PyInt.range (Z.min n 10));
  let fs := float_str L in
  mret {| status := "ok";
          operation := "arithmetic_progression";
          payload := [("nth_term", PFloat an); ("sum", PFloat Sn);
                      ("series_preview", PList (PFloat <$> series_list))];
          steps :=
            [ "First term (a) = " +:+ fs a;
              "Common difference (d) = " +:+ fs d;
              "Number of terms (n) = " +:+ pretty n;
              "nth term formula: a_n = a + (n-1)d";
              "a_{" +:+ pretty n +:+ "} = " +:+ fs a +:+ " + (" +:+ pretty n +:+ "-1)("
                +:+ fs d +:+ ") = " +:+ fs an;
              "Sum formula: S_n = \frac{n}{2}(2a + (n-1)d)";
              "S_{" +:+ pretty n +:+ "} = " +:+ fs Sn ];
          plot_elements := [];
          latex := [("nth_term", "a_{" +:+ pretty n +:+ "} = " +:+ fs an);
                    ("sum", "S_{" +:+ pretty n +:+ "} = " +:+ fs Sn)] |}.

Definition ProgressionSolver_arithmetic (a d : float) (n : Z) : ComputationResult :=
  try_except (arithmetic_body a d n)
    (λ e, create_error_result "arithmetic_progression" (str_exn e)).
End Progressions.
End Algebra.

(** ** geometry.py *)

Module Geometry.
(** A parameter dictionary, [Dict[str, Any]]. *)
Abbreviation params := (gmap string pyval) (only parsing).

Section Geometry.
Context (L : Library).
Local Open Scope float_scope.

(** [d.get(k)] and [d.get(k, 0)] *)
Definition get (d : params) (k : string) : pyval := default PNone (d !! k).
Definition get0 (d : params) (k : string) : pyval := default (PInt 0) (d !! k).
(** [k in d] *)
Definition contains (d : params) (k : string) : bool :=
  match d !! k with Some _ => true | None => false end.

(** [float(val)] *)
Definition float_of (val : pyval) : outcome float :=
  match val with
  | PBool b => Return (if b then 1 else 0)
  | PInt n => PyFloat.of_int n
  | PFloat x => Return x
  | PStr s =>
      match float_of_str L s with
      | Some x => Return x
      | None => Raise (Exn ValueError ("could not convert string to float: " +:+ s))
      end
  | PNone | PList _ | PDict _ =>
      Raise (Exn TypeError "float() argument must be a string or a real number")
  end.

(** [_safe_float]: [None], the empty string, and whatever makes
    [float] raise [ValueError] or [TypeError] become [0.0]. *)
Definition _safe_float (val : pyval) : outcome float :=
  match val with
  | PNone => Return 0
  | PStr EmptyString => Return 0
  | _ =>
      match float_of val with
      | Return x => Return x
      | Raise e =>
          match exn_kind e with
          | ValueError | TypeError => Return 0
          | _ => Raise e
          end
      end
  end.

(** [s.title()] on ASCII text: the first letter of each run of letters
    in upper case, the others in lower case. *)
Definition is_lower (c : ascii) : bool :=
  let n := nat_of_ascii c in (97 <=? n)%nat && (n <=? 122)%nat.
Definition is_upper (c : ascii) : bool :=
  let n := nat_of_ascii c in (65 <=? n)%nat && (n <=? 90)%nat.
Definition to_upper (c : ascii) : ascii :=
  if is_lower c then ascii_of_nat (nat_of_ascii c - 32) else c.
Definition to_lower (c : ascii) : ascii :=
  if is_upper c then ascii_of_nat (nat_of_ascii c + 32) else c.

Fixpoint title_from (in_word : bool) (s : string) : string :=
  match s with
  | EmptyString => EmptyString
  | String c rest =>
      if is_lower c || is_upper c
      then String (if in_word then to_lower c else to_upper c) (title_from true rest)
      else String c (title_from false rest)
  end.
Definition title (s : string) : string := title_from false s.

(** [s.replace('_', ' ')] *)
Fixpoint underscores_to_spaces (s : string) : string :=
  match s with
  | EmptyString => EmptyString
  | String c rest =>
      String (if Ascii.eqb c "_" then " "%char else c) (underscores_to_spaces rest)
  end.

Definition point_dict (x y : float) : pyval :=
  PDict [("x", PFloat x); ("y", PFloat y)].

(** *** line_circle_intersection *)

Definition line_circle_body (line_params circle_params : params)
  : outcome ComputationResult :=
  a ← _safe_float (get line_params "a");
  b ← _safe_float (get line_params "b");
  c ← _safe_float (get line_params "c");
  h ← (if contains circle_params "h" then _safe_float (get circle_params "h")
       else _safe_float (get0 circle_params "x"));
  k ← (if contains circle_params "k" then _safe_float (get circle_params "k")
       else _safe_float (get0 circle_params "y"));
  r ← _safe_float (get circle_params "r");
  let numer := abs (a * h + b * k + c) in
  a2 ← PyFloat.pow2 (libm_pow L) a;
  b2 ← PyFloat.pow2 (libm_pow L) b;
  denom ← PyFloat.math_sqrt (a2 + b2);
  (* [numer / denom if denom != 0 else 0]: the [int] 0 of the second
     case compares, formats and squares as the float 0.0 does, and is
     returned as it is in the payload. *)
  let dist := if PyFloat.neb denom 0 then numer / denom else 0 in
  let dist_value := if PyFloat.neb denom 0 then PFloat (numer / denom) else PInt 0 in
  let fs := float_str L in
  let f4 := float_fmt L ".4f" in
  let steps0 :=
    [ "Line: " +:+ fs a +:+ "x + " +:+ fs b +:+ "y + " +:+ fs c +:+ " = 0";
      "Circle Center: (" +:+ fs h +:+ ", " +:+ fs k +:+ "), Radius: " +:+ fs r;
      "Perpendicular Distance d from Center to Line: " +:+ f4 dist ] in
  '(st, step, points) ←
    (if abs (dist - r) <? 1e-9 then
       x0 ← PyFloat.div (b * (b * h - a * k) - a * c) (a2 + b2);
       y0 ← PyFloat.div (a * (- b * h + a * k) - b * c) (a2 + b2);
       mret ("tangent",
             ["d ≈ r (" +:+ f4 dist +:+ " ≈ " +:+ fs r +:+ "), Line is Tangent"],
             [point_dict x0 y0])
     else if dist <? r then
       x0 ← PyFloat.div (b * (b * h - a * k) - a * c) (a2 + b2);
       y0 ← PyFloat.div (a * (- b * h + a * k) - b * c) (a2 + b2);
       r2 ← PyFloat.pow2 (libm_pow L) r;
       dist2 ← PyFloat.pow2 (libm_pow L) dist;
       d_chord ← PyFloat.math_sqrt (r2 - dist2);
       dx ← PyFloat.div (- b * d_chord) denom;
       dy ← PyFloat.div (a * d_chord) denom;
       mret ("secant",
             ["d < r (" +:+ f4 dist +:+ " < " +:+ fs r +:+ "), Line is Secant (2 points)"],
             [point_dict (x0 + dx) (y0 + dy); point_dict (x0 - dx) (y0 - dy)])
     else
       mret ("no_intersection",
             ["d > r (" +:+ f4 dist +:+ " > " +:+ fs r +:+ "), No Intersection"],
             []));
  dist_latex ← format_latex_number L dist;
  let latex_res :=
    [("Distance", "d = \frac{|" +:+ fs a +:+ "(" +:+ fs h +:+ ") + " +:+ fs b
                    +:+ "(" +:+ fs k +:+ ") + " +:+ fs c +:+ "|}{\sqrt{" +:+ fs a
                    +:+ "^2 + " +:+ fs b +:+ "^2}} = " +:+ dist_latex);
     ("Conclusion", "\text{" +:+ title st +:+ "}")] in
  mret {| status := "ok";
          operation := "line_circle_intersection";
          payload := [("status", PStr st); ("points", PList points);
                      ("distance", dist_value)];
          steps := steps0 ++ step;
          plot_elements := [];
          latex := latex_res |}.

Definition line_circle_intersection (line_params circle_params : params)
  : ComputationResult :=
  try_except (line_circle_body line_params circle_params)
    (λ e, create_error_result "line_circle_intersection" (str_exn e)).

(** *** circle_circle_intersection *)

Definition circle_circle_body (c1_params c2_params : params)
  : outcome ComputationResult :=
  h1 ← _safe_float (get0 c1_params "x");
  k1 ← _safe_float (get0 c1_params "y");
  r1 ← _safe_float (get c1_params "r");
  h2 ← _safe_float (get0 c2_params "x");
  k2 ← _safe_float (get0 c2_params "y");
  r2 ← _safe_float (get c2_params "r");
  dx2 ← PyFloat.pow2 (libm_pow L) (h2 - h1);
  dy2 ← PyFloat.pow2 (libm_pow L) (k2 - k1);
  let d_sq := dx2 + dy2 in
  d ← PyFloat.math_sqrt d_sq;
  let fs := float_str L in
  let steps0 :=
    [ "Circle 1: Center (" +:+ fs h1 +:+ ", " +:+ fs k1 +:+ "), Radius " +:+ fs r1;
      "Circle 2: Center (" +:+ fs h2 +:+ ", " +:+ fs k2 +:+ "), Radius " +:+ fs r2;
      "Distance between centers d = " +:+ float_fmt L ".4f" d ] in
  '(st, step, points) ←
    (if PyFloat.gtb d (r1 + r2) then
       mret ("disjoint_outside", "d > r1 + r2 (Separate circles)", [])
     else if d <? abs (r1 - r2) then
       mret ("disjoint_inside", "d < |r1 - r2| (One inside other)", [])
     else if (d =? 0) && (r1 =? r2) then
       mret ("coincident", "Identical circles", [])
     else
       r1sq ← PyFloat.pow2 (libm_pow L) r1;
       r2sq ← PyFloat.pow2 (libm_pow L) r2;
       dsq ← PyFloat.pow2 (libm_pow L) d;
       a ← PyFloat.div (r1sq - r2sq + dsq) (2 * d);
       asq ← PyFloat.pow2 (libm_pow L) a;
       h_val ← PyFloat.math_sqrt (PyFloat.max2 0 (r1sq - asq));
       ax ← PyFloat.div (a * (h2 - h1)) d;
       let x2 := h1 + ax in
       ay ← PyFloat.div (a * (k2 - k1)) d;
       let y2 := k1 + ay in
       hx ← PyFloat.div (h_val * (k2 - k1)) d;
       hy ← PyFloat.div (h_val * (h2 - h1)) d;
       let x3_1 := x2 + hx in
       let y3_1 := y2 - hy in
       let x3_2 := x2 - hx in
       let y3_2 := y2 + hy in
       if (abs (d - (r1 + r2)) <? 1e-9) || (abs (d - abs (r1 - r2)) <? 1e-9) then
         mret ("tangent", "Circles touch at one point", [point_dict x3_1 y3_1])
       else
         mret ("intersecting", "Circles intersect at two points",
               [point_dict x3_1 y3_1; point_dict x3_2 y3_2]));
  d_latex ← format_latex_number L d;
  mret {| status := "ok";
          operation := "circle_circle_intersection";
          payload := [("status", PStr st); ("points", PList points);
                      ("distance", PFloat d)];
          steps := steps0 ++ [step];
          plot_elements := [];
          latex := [("Distance", "d = " +:+ d_latex);
                    ("Status", "\text{" +:+ title (underscores_to_spaces st) +:+ "}")] |}.

Definition circle_circle_intersection (c1_params c2_params : params)
  : ComputationResult :=
  try_except (circle_circle_body c1_params c2_params)
    (λ e, create_error_result "circle_circle_intersection" (str_exn e)).

(** *** _analyze_conic_cached and ConicAnalyzer.analyze *)

Definition conic_parts : Type :=
  string * string * list (string * string) * list string.

Definition _analyze_conic_cached (A B C D E F : float) : outcome conic_parts :=
  let expr_latex := conic_latex L A B C D E F in
  let '(a, b, c_const) := (A, C, F) in
  let '(h, g, f_const) := (B / 2, D / 2, E / 2) in
  Delta ← Matrix_det L [[a; h; g]; [h; b; f_const]; [g; f_const; c_const]];
  h2 ← PyFloat.pow2 (libm_pow L) h;
  let Disc := h2 - a * b in
  let conic_type :=
    if sym_is_zero Delta then "Degenerate Conic (Pair of Lines, Point, etc.)"
    else if PyFloat.gtb Disc 0 then "Hyperbola"
    else if Disc =? 0 then "Parabola"
    else if (a =? b) && (h =? 0) then "Circle"
    else "Ellipse" in
  let steps :=
    [ "Equation: " +:+ expr_latex +:+ " = 0";
      "Determinant Δ = " +:+ sym_str L Delta;
      "Discriminant h²-ab = " +:+ float_str L Disc;
      "Classification: " +:+ conic_type ] in
  let latex_res :=
    [("Equation", expr_latex +:+ " = 0"); ("Type", "\text{" +:+ conic_type +:+ "}")] in
  mret (conic_type, expr_latex, latex_res, steps).

Definition ConicAnalyzer_analyze (coeffs : params) : ComputationResult :=
  try_except
    (A ← _safe_float (get coeffs "A");
     B ← _safe_float (get coeffs "B");
     C ← _safe_float (get coeffs "C");
     D ← _safe_float (get coeffs "D");
     E ← _safe_float (get coeffs "E");
     F ← _safe_float (get coeffs "F");
     parts ← _analyze_conic_cached A B C D E F;
     let '(conic_type, expr_latex, latex_res, steps) := parts in
     mret {| status := "ok";
             operation := "conic_analyze";
             payload := [("type", PStr conic_type); ("determinant", PStr "...");
                         ("discriminant", PStr "...")];
             steps := steps;
             plot_elements := [];
             latex := latex_res |})
    (λ e, create_error_result "conic_analyze" (str_exn e)).
End Geometry.

(** *** line_intersection, tangent_from_point *)

Section Lines.
Context (L : Library).
Local Open Scope float_scope.

(** [line_intersection]: Cramer's rule on [a1 x + b1 y + c1 = 0] and
    [a2 x + b2 y + c2 = 0]. *)
Definition line_intersection_body (l1_params l2_params : params)
  : outcome ComputationResult :=
  a1 ← _safe_float L (get l1_params "a");
  b1 ← _safe_float L (get l1_params "b");
  c1 ← _safe_float L (get l1_params "c");
  a2 ← _safe_float L (get l2_params "a");
  b2 ← _safe_float L (get l2_params "b");
  c2 ← _safe_float L (get l2_params "c");
  let det := a1 * b2 - a2 * b1 in
  let fs := float_str L in
  let f4 := float_fmt L ".4f" in
  let steps0 :=
    [ "Line 1: " +:+ fs a1 +:+ "x + " +:+ fs b1 +:+ "y + " +:+ fs c1 +:+ " = 0";
      "Line 2: " +:+ fs a2 +:+ "x + " +:+ fs b2 +:+ "y + " +:+ fs c2 +:+ " = 0";
      "Determinant D = a1*b2 - a2*b1 = (" +:+ fs a1 +:+ ")*(" +:+ fs b2 +:+ ") - ("
        +:+ fs a2 +:+ ")*(" +:+ fs b1 +:+ ") = " +:+ fs det ] in
  let eqn_latex :=
    "\begin{cases} " +:+ fs a1 +:+ "x + " +:+ fs b1 +:+ "y + " +:+ fs c1 +:+ " = 0 \\ "
      +:+ fs a2 +:+ "x + " +:+ fs b2 +:+ "y + " +:+ fs c2 +:+ " = 0 \end{cases}" in
  if abs det <? 1e-9 then
    a1sq ← PyFloat.pow2 (libm_pow L) a1;
    b1sq ← PyFloat.pow2 (libm_pow L) b1;
    dist ←
      (if PyFloat.gtb (a1sq + b1sq) 0 then
         root ← PyFloat.math_sqrt (a1sq + b1sq);
         PyFloat.div (abs (c2 - c1)) root
       else mret 0);
    let st := if dist <? 1e-9 then "coincident" else "parallel" in
    let step :=
      if dist <? 1e-9 then "Lines are Coincident (Infinite intersections)"
      else "Lines are Parallel (No intersection)" in
    mret {| status := "ok";
            operation := "line_intersection";
            payload := [("status", PStr st)];
            steps := steps0 ++ [step];
            plot_elements := [];
            latex := [("System", eqn_latex);
                      ("Result", "\text{" +:+ title st +:+ "}")] |}
  else
    x ← PyFloat.div (b1 * c2 - b2 * c1) det;
    y ← PyFloat.div (c1 * a2 - c2 * a1) det;
    x_latex ← format_latex_number L x;
    y_latex ← format_latex_number L y;
    mret {| status := "ok";
            operation := "line_intersection";
            payload := [("status", PStr "intersecting"); ("point", point_dict x y)];
            steps := steps0 ++
              [ "x = (b1*c2 - b2*c1)/D = " +:+ f4 x;
                "y = (c1*a2 - c2*a1)/D = " +:+ f4 y;
                "Intersection: (" +:+ f4 x +:+ ", " +:+ f4 y +:+ ")" ];
            plot_elements := [];
            latex := [("System", eqn_latex);
                      ("Solution", "(x, y) = \left(" +:+ x_latex +:+ ", " +:+ y_latex
                                     +:+ "\right)")] |}.

Definition line_intersection (l1_params l2_params : params) : ComputationResult :=
  try_except (line_intersection_body l1_params l2_params)
    (λ e, create_error_result "line_intersection" (str_exn e)).

(** [tangent_from_point]: the slopes [m] of the tangents through P solve
    [quad_a m² + quad_b m + quad_c = 0]. *)
Definition slopes (quad_a quad_b quad_c D_quad : float) : outcome (list float) :=
  if abs quad_a <? 1e-9 then
    if PyFloat.gtb (abs quad_b) 1e-9 then
      m ← PyFloat.div (- quad_c) quad_b;
      mret [m]
    else mret []
  else if PyFloat.geb D_quad 0 then
    root1 ← PyFloat.math_sqrt D_quad;
    m1 ← PyFloat.div (- quad_b + root1) (2 * quad_a);
    root2 ← PyFloat.math_sqrt D_quad;
    m2 ← PyFloat.div (- quad_b - root2) (2 * quad_a);
    mret [m1; m2]
  else mret [].

Definition vertical_tangent (px : float) : pyval :=
  PDict [("a", PInt 1); ("b", PInt 0); ("c", PFloat (- px)); ("desc", PStr "Vertical")].

Definition slope_tangent (px py m : float) : pyval :=
  PDict [("a", PFloat m); ("b", PInt (-1)); ("c", PFloat (py - m * px)); ("m", PFloat m)].

Definition slope_step (px py m : float) : string :=
  let f4 := float_fmt L ".4f" in
  "Slope m ≈ " +:+ f4 m +:+ ", Eq: y = " +:+ f4 m +:+ "x + " +:+ f4 (py - m * px).

Definition tangent_from_point_body (p_params c_params : params)
  : outcome ComputationResult :=
  px ← _safe_float L (get p_params "x");
  py ← _safe_float L (get p_params "y");
  h ← _safe_float L (get0 c_params "h");
  k ← _safe_float L (get0 c_params "k");
  r ← _safe_float L (get c_params "r");
  dxsq ← PyFloat.pow2 (libm_pow L) (px - h);
  dysq ← PyFloat.pow2 (libm_pow L) (py - k);
  let dist_sq := dxsq + dysq in
  dist ← PyFloat.math_sqrt dist_sq;
  let fs := float_str L in
  let f2 := float_fmt L ".2f" in
  let steps0 :=
    [ "Point P: (" +:+ fs px +:+ ", " +:+ fs py +:+ ")";
      "Circle Center C: (" +:+ fs h +:+ ", " +:+ fs k +:+ "), Radius: " +:+ fs r;
      "Distance PC = " +:+ float_fmt L ".4f" dist ] in
  '(st, tangents, more) ←
    (if dist <? r then
       mret ("inside", [], ["Point is inside the circle. No real tangents."])
     else if abs (dist - r) <? 1e-9 then
       let A := px - h in
       let B := py - k in
       rsq ← PyFloat.pow2 (libm_pow L) r;
       let C_const := - A * h - B * k - rsq in
       mret ("on_circle",
             [PDict [("a", PFloat A); ("b", PFloat B); ("c", PFloat C_const)]],
             [ "Point is on the circle. One tangent.";
               "Equation: " +:+ f2 A +:+ "x + " +:+ f2 B +:+ "y + " +:+ f2 C_const
                 +:+ " = 0" ])
     else
       let dx := h - px in
       let dy := py - k in
       dx2 ← PyFloat.pow2 (libm_pow L) dx;
       r2 ← PyFloat.pow2 (libm_pow L) r;
       let quad_a := dx2 - r2 in
       let quad_b := 2 * dx * dy in
       dy2 ← PyFloat.pow2 (libm_pow L) dy;
       let quad_c := dy2 - r2 in
       quad_b2 ← PyFloat.pow2 (libm_pow L) quad_b;
       let D_quad := quad_b2 - 4 * quad_a * quad_c in
       ms ← slopes quad_a quad_b quad_c D_quad;
       let vertical := (abs (abs (h - px) - r) <? 1e-9) && (length ms <? 2)%nat in
       mret ("outside",
             (if vertical then [vertical_tangent px] else [])
               ++ (slope_tangent px py <$> ms),
             "Point is outside. Two tangents."
               :: (if vertical then ["Vertical Tangent: x = " +:+ fs px] else [])
               ++ (slope_step px py <$> ms)));
  mret {| status := "ok";
          operation := "tangent_from_point";
          payload := [("status", PStr st); ("tangents", PList tangents)];
          steps := steps0 ++ more;
          plot_elements := [];
          latex := [("Status", "\text{" +:+ st +:+ "}");
                    ("Count", pretty (length tangents))] |}.

Definition tangent_from_point (p_params c_params : params) : ComputationResult :=
  try_except (tangent_from_point_body p_params c_params)
    (λ e, create_error_result "tangent_from_point" (str_exn e)).
End Lines.

(** *** TriangleProperties.analyze *)

Section Triangles.
Context (L : Library).
Local Open Scope float_scope.

(** [math.sqrt((x1-x2)**2 + (y1-y2)**2)] *)
Definition side_length (x1 y1 x2 y2 : float) : outcome float :=
  dx2 ← PyFloat.pow2 (libm_pow L) (x1 - x2);
  dy2 ← PyFloat.pow2 (libm_pow L) (y1 - y2);
  PyFloat.math_sqrt (dx2 + dy2).

(** Twice the signed area, as the shoelace formula has it. *)
Definition shoelace (x1 y1 x2 y2 x3 y3 : float) : float :=
  x1 * (y2 - y3) + x2 * (y3 - y1) + x3 * (y1 - y2).

Definition TriangleProperties_analyze_body (p1_in p2_in p3_in : params)
  : outcome ComputationResult :=
  x1 ← _safe_float L (get p1_in "x");
  y1 ← _safe_float L (get p1_in "y");
  x2 ← _safe_float L (get p2_in "x");
  y2 ← _safe_float L (get p2_in "y");
  x3 ← _safe_float L (get p3_in "x");
  y3 ← _safe_float L (get p3_in "y");
  a ← side_length x2 y2 x3 y3;
  b ← side_length x1 y1 x3 y3;
  c ← side_length x1 y1 x2 y2;
  let area := 0.5 * abs (shoelace x1 y1 x2 y2 x3 y3) in
  let fs := float_str L in
  let f4 := float_fmt L ".4f" in
  let steps0 :=
    [ "Vertices: A(" +:+ fs x1 +:+ ", " +:+ fs y1 +:+ "), B(" +:+ fs x2 +:+ ", " +:+ fs y2
        +:+ "), C(" +:+ fs x3 +:+ ", " +:+ fs y3 +:+ ")";
      "Side lengths: a=" +:+ f4 a +:+ ", b=" +:+ f4 b +:+ ", c=" +:+ f4 c;
      "Area = 0.5 * |x1(y2-y3) + ...| = " +:+ f4 area ] in
  area_latex ← format_latex_number L area;
  if area <? 1e-9 then
    mret (create_error_result "triangle_analyze" "Points are collinear (Area=0)")
  else
    let gx := (x1 + x2 + x3) / 3 in
    let gy := (y1 + y2 + y3) / 3 in
    let perim := a + b + c in
    ix ← PyFloat.div (a * x1 + b * x2 + c * x3) perim;
    iy ← PyFloat.div (a * y1 + b * y2 + c * y3) perim;
    let D := 2 * shoelace x1 y1 x2 y2 x3 y3 in
    x1sq ← PyFloat.pow2 (libm_pow L) x1;
    y1sq ← PyFloat.pow2 (libm_pow L) y1;
    x2sq ← PyFloat.pow2 (libm_pow L) x2;
    y2sq ← PyFloat.pow2 (libm_pow L) y2;
    x3sq ← PyFloat.pow2 (libm_pow L) x3;
    y3sq ← PyFloat.pow2 (libm_pow L) y3;
    ox ← PyFloat.div ((x1sq + y1sq) * (y2 - y3) + (x2sq + y2sq) * (y3 - y1)
                        + (x3sq + y3sq) * (y1 - y2)) D;
    oy ← PyFloat.div ((x1sq + y1sq) * (x3 - x2) + (x2sq + y2sq) * (x1 - x3)
                        + (x3sq + y3sq) * (x2 - x1)) D;
    let hx := x1 + x2 + x3 - 2 * ox in
    let hy := y1 + y2 + y3 - 2 * oy in
    gx_latex ← format_latex_number L gx;
    gy_latex ← format_latex_number L gy;
    mret {| status := "ok";
            operation := "triangle_analyze";
            payload :=
              [ ("area", PFloat area);
                ("sides", PDict [("a", PFloat a); ("b", PFloat b); ("c", PFloat c)]);
                ("centroid", point_dict gx gy);
                ("incenter", point_dict ix iy);
                ("circumcenter", point_dict ox oy);
                ("orthocenter", point_dict hx hy) ];
            steps := steps0 ++
              [ "Centroid G = (" +:+ f4 gx +:+ ", " +:+ f4 gy +:+ ")";
                "Incenter I = (" +:+ f4 ix +:+ ", " +:+ f4 iy +:+ ")";
                "Circumcenter O = (" +:+ f4 ox +:+ ", " +:+ f4 oy +:+ ")";
                "Orthocenter H = (" +:+ f4 hx +:+ ", " +:+ f4 hy +:+ ")" ];
            plot_elements := [];
            latex := [("Area", area_latex);
                      ("Centroid", "G(" +:+ gx_latex +:+ ", " +:+ gy_latex +:+ ")")] |}.

Definition TriangleProperties_analyze (p1_in p2_in p3_in : params) : ComputationResult :=
  try_except (TriangleProperties_analyze_body p1_in p2_in p3_in)
    (λ e, create_error_result "triangle_analyze" (str_exn e)).
End Triangles.

(** *** Mensuration.herons_formula *)

Section Mensuration.
Context (L : Library).
Local Open Scope float_scope.

(** [f"{x:.4g}" if x % 1 else f"{int(x)}"]: [x % 1] is zero exactly on
    the whole numbers; it is [nan], which counts as true, on the
    infinities and on [nan]. *)
Definition fmt_side (x : float) : outcome string :=
  if negb (PyFloat.is_integral x) then mret (float_fmt L ".4g" x)
  else n ← PyFloat.to_int x; mret (pretty n).

Definition herons_formula_body (a b c : float) : outcome ComputationResult :=
  let s_val := (a + b + c) / 2 in
  let area_sq := s_val * (s_val - a) * (s_val - b) * (s_val - c) in
  if area_sq <? 0 then
    Raise (Exn ValueError
      "The given sides do not form a valid triangle (triangle inequality violated).")
  else
    area ← PyFloat.math_sqrt area_sq;
    s_fmt ← fmt_side s_val;
    a_fmt ← fmt_side a;
    b_fmt ← fmt_side b;
    c_fmt ← fmt_side c;
    let area_fmt := float_fmt L ".4g" area in
    area_latex ← format_latex_number L area;
    mret {| status := "ok";
            operation := "mensuration_heron";
            payload := [("area", PFloat area); ("s", PFloat s_val)];
            steps :=
              [ "Sides: a = " +:+ a_fmt +:+ ", b = " +:+ b_fmt +:+ ", c = " +:+ c_fmt;
                "Semi-perimeter s = (a + b + c) / 2 = " +:+ s_fmt;
                "Area = √[s(s-a)(s-b)(s-c)]";
                "Area = √[" +:+ s_fmt +:+ "(" +:+ s_fmt +:+ "-" +:+ a_fmt +:+ ")("
                  +:+ s_fmt +:+ "-" +:+ b_fmt +:+ ")(" +:+ s_fmt +:+ "-" +:+ c_fmt +:+ ")]";
                "Area = √[" +:+ float_fmt L ".4g" area_sq +:+ "] = " +:+ area_fmt ];
            plot_elements := [];
            latex := [("Formula", "\text{Area} = \sqrt{s(s-a)(s-b)(s-c)}");
                      ("Result", area_latex)] |}.

Definition herons_formula (a b c : float) : ComputationResult :=
  try_except (herons_formula_body a b c) (λ e, create_error_result "heron" (str_exn e)).
End Mensuration.

(** *** QuadrilateralProperties.analyze *)

Section Quadrilaterals.
Context (L : Library).
Local Open Scope float_scope.

(** The shoelace area of the quadrilateral ABCD. *)
Definition shoelace4 (x1 y1 x2 y2 x3 y3 x4 y4 : float) : float :=
  0.5 * abs ((x1 * y2 + x2 * y3 + x3 * y4 + x4 * y1)
             - (y1 * x2 + y2 * x3 + y3 * x4 + y4 * x1)).

(** The name given to four sides and two diagonals, under the
    tolerance 1e-5. *)
Definition quadrilateral_type (s1 s2 s3 s4 d1 d2 : float) (rect_corner : bool) : string :=
  let tol := 1e-5 in
  let equal_sides :=
    (abs (s1 - s2) <? tol) && (abs (s2 - s3) <? tol) && (abs (s3 - s4) <? tol) in
  let opp_sides_equal := (abs (s1 - s3) <? tol) && (abs (s2 - s4) <? tol) in
  let diags_equal := abs (d1 - d2) <? tol in
  if equal_sides then
    if diags_equal || rect_corner then "Square" else "Rhombus"
  else if opp_sides_equal then
    if diags_equal || rect_corner then "Rectangle" else "Parallelogram"
  else "Quadrilateral".

Definition QuadrilateralProperties_analyze_body (p1 p2 p3 p4 : params)
  : outcome ComputationResult :=
  x1 ← _safe_float L (get p1 "x");
  x2 ← _safe_float L (get p2 "x");
  x3 ← _safe_float L (get p3 "x");
  x4 ← _safe_float L (get p4 "x");
  y1 ← _safe_float L (get p1 "y");
  y2 ← _safe_float L (get p2 "y");
  y3 ← _safe_float L (get p3 "y");
  y4 ← _safe_float L (get p4 "y");
  s1 ← side_length L x1 y1 x2 y2;
  s2 ← side_length L x2 y2 x3 y3;
  s3 ← side_length L x3 y3 x4 y4;
  s4 ← side_length L x4 y4 x1 y1;
  d1 ← side_length L x1 y1 x3 y3;
  d2 ← side_length L x2 y2 x4 y4;
  let area := shoelace4 x1 y1 x2 y2 x3 y3 x4 y4 in
  let f2 := float_fmt L ".2f" in
  let steps0 :=
    [ "Sides: AB=" +:+ f2 s1 +:+ ", BC=" +:+ f2 s2 +:+ ", CD=" +:+ f2 s3 +:+ ", DA="
        +:+ f2 s4;
      "Diagonals: AC=" +:+ f2 d1 +:+ ", BD=" +:+ f2 d2;
      "Area = " +:+ float_fmt L ".4f" area ] in
  d1sq ← PyFloat.pow2 (libm_pow L) d1;
  s1sq ← PyFloat.pow2 (libm_pow L) s1;
  s2sq ← PyFloat.pow2 (libm_pow L) s2;
  let rect_corner := abs (d1sq - (s1sq + s2sq)) <? 1e-5 in
  let qtype := quadrilateral_type s1 s2 s3 s4 d1 d2 rect_corner in
  area_latex ← format_latex_number L area;
  mret {| status := "ok";
          operation := "quadrilateral_analyze";
          payload := [ ("area", PFloat area);
                       ("sides", PList [PFloat s1; PFloat s2; PFloat s3; PFloat s4]);
                       ("diagonals", PList [PFloat d1; PFloat d2]);
                       ("type", PStr qtype) ];
          steps := steps0 ++ ["Classification: " +:+ qtype];
          plot_elements := [];
          latex := [("Area", area_latex); ("Type", "\text{" +:+ qtype +:+ "}")] |}.

Definition QuadrilateralProperties_analyze (p1 p2 p3 p4 : params) : ComputationResult :=
  try_except (QuadrilateralProperties_analyze_body p1 p2 p3 p4)
    (λ e, create_error_result "quadrilateral_analyze" (str_exn e)).
End Quadrilaterals.

(** *** GeometricTransformer.transform_2d *)

Section Transformations.
Context (L : Library).
(** [math.radians], [math.sin] and [math.cos] *)
Context (math_radians : float → float) (math_sin math_cos : float → outcome float).
Local Open Scope float_scope.

(** [d.get(k, 1)] *)
Definition get1 (d : params) (k : string) : pyval := default (PInt 1) (d !! k).

(** The end of the function, which the four operations share. *)
Definition transformed (new_x new_y : float) (steps0 : list string)
  : outcome ComputationResult :=
  let f4 := float_fmt L ".4f" in
  let steps1 :=
    steps0 ++ ["Transformed Point P': (" +:+ f4 new_x +:+ ", " +:+ f4 new_y +:+ ")"] in
  x_latex ← format_latex_number L new_x;
  y_latex ← format_latex_number L new_y;
  mret {| status := "ok";
          operation := "transform_2d";
          payload := [("point", point_dict new_x new_y)];
          steps := steps1;
          plot_elements := [];
          latex := [("Result", "(" +:+ x_latex +:+ ", " +:+ y_latex +:+ ")")] |}.

Definition transform_2d_body (point : params) (operation : string) (prm : params)
  : outcome ComputationResult :=
  px ← _safe_float L (get point "x");
  py ← _safe_float L (get point "y");
  let fs := float_str L in
  let steps0 := ["Original Point P: (" +:+ fs px +:+ ", " +:+ fs py +:+ ")"] in
  if String.eqb operation "rotate" then
    cx ← _safe_float L (get0 prm "cx");
    cy ← _safe_float L (get0 prm "cy");
    angle_deg ← _safe_float L (get0 prm "angle");
    let angle_rad := math_radians angle_deg in
    s ← math_sin angle_rad;
    c ← math_cos angle_rad;
    let tx := px - cx in
    let ty := py - cy in
    let rx := tx * c - ty * s in
    let ry := tx * s + ty * c in
    transformed (rx + cx) (ry + cy)
      (steps0 ++
       [ "Center of Rotation C: (" +:+ fs cx +:+ ", " +:+ fs cy +:+ ")";
         "Angle: " +:+ fs angle_deg +:+ "°";
         "Formula: $x' = (x-cx)\cos\theta - (y-cy)\sin\theta + cx$";
         "Formula: $y' = (x-cx)\sin\theta + (y-cy)\cos\theta + cy$" ])
  else if String.eqb operation "reflect" then
    a ← _safe_float L (get prm "a");
    b ← _safe_float L (get prm "b");
    c ← _safe_float L (get prm "c");
    a2 ← PyFloat.pow2 (libm_pow L) a;
    b2 ← PyFloat.pow2 (libm_pow L) b;
    let denom := a2 + b2 in
    if denom =? 0 then mret (create_error_result "transform_2d" "Invalid line (a=b=0)")
    else
      factor ← PyFloat.div (a * px + b * py + c) denom;
      transformed (px - 2 * a * factor) (py - 2 * b * factor)
        (steps0 ++
         [ "Line of Reflection: " +:+ fs a +:+ "x + " +:+ fs b +:+ "y + " +:+ fs c
             +:+ " = 0";
           "Formula: $\frac{x'-x}{a} = \frac{y'-y}{b} = -2\frac{ax+by+c}{a^2+b^2}$" ])
  else if String.eqb operation "translate" then
    dx ← _safe_float L (get0 prm "dx");
    dy ← _safe_float L (get0 prm "dy");
    transformed (px + dx) (py + dy)
      (steps0 ++ ["Vector: <" +:+ fs dx +:+ ", " +:+ fs dy +:+ ">"])
  else if String.eqb operation "scale" then
    cx ← _safe_float L (get0 prm "cx");
    cy ← _safe_float L (get0 prm "cy");
    k ← _safe_float L (get1 prm "factor");
    transformed (cx + k * (px - cx)) (cy + k * (py - cy))
      (steps0 ++
       [ "Center: (" +:+ fs cx +:+ ", " +:+ fs cy +:+ "), Factor k=" +:+ fs k;
         "Formula: $P' = C + k(P-C)$" ])
  else mret (create_error_result "transform_2d" ("Unknown operation: " +:+ operation)).

Definition transform_2d (point : params) (operation : string) (prm : params)
  : ComputationResult :=
  try_except (transform_2d_body point operation prm)
    (λ e, create_error_result "transform_2d" (str_exn e)).
End Transformations.
End Geometry.

(** ** calculus.py *)

Module Calculus.
Section Calculus.
Context (L : Library).
Local Open Scope float_scope.

(** *** FunctionAnalyzer *)

(** What [__post_init__] leaves behind: the three expressions when
    parsing and differentiation went through, the message otherwise. *)
Inductive analyzer_state : Type :=
  | Valid (sympy_expr derivative_expr second_derivative_expr : Expr L)
  | Invalid (error : string).

Record FunctionAnalyzer : Type := {
  expression : string;
  state : analyzer_state
}.

Definition post_init (expression : string) : outcome analyzer_state :=
  sympy_expr ← sympify L expression;
  _ ← lambdify_x L sympy_expr;
  derivative_expr ← diff_x L sympy_expr;
  _ ← lambdify_x L derivative_expr;
  second_derivative_expr ← diff_x L derivative_expr;
  _ ← lambdify_x L second_derivative_expr;
  mret (Valid sympy_expr derivative_expr second_derivative_expr).

Definition new_FunctionAnalyzer (expression : string) : FunctionAnalyzer :=
  {| expression := expression;
     state := try_except (post_init expression) (λ e, Invalid (str_exn e)) |}.

Definition is_valid (an : FunctionAnalyzer) : bool :=
  match state an with Valid _ _ _ => true | Invalid _ => false end.

Definition error_message (an : FunctionAnalyzer) : string :=
  match state an with Valid _ _ _ => "" | Invalid msg => msg end.

(** *** FunctionAnalyzer.critical_points *)

Record critical_point : Type := {
  cp_x : float;
  cp_y : float;
  cp_type : string;
  cp_second_derivative : float
}.

Record plot_point : Type := {
  pp_coords : float * float;
  pp_label : string;
  pp_color : string
}.

Definition point_payload (p : critical_point) : pyval :=
  PDict [("x", PFloat (cp_x p)); ("y", PFloat (cp_y p));
         ("type", PStr (cp_type p));
         ("second_derivative", PFloat (cp_second_derivative p))].

(** The second derivative test. *)
Definition classify (second_deriv_val : float) : string * string :=
  if PyFloat.gtb second_deriv_val 0 then ("local minimum", "#22c55e")
  else if second_deriv_val <? 0 then ("local maximum", "#ef4444")
  else ("inflection point", "#eab308").

(** [domain and (cx_val < domain[0] or cx_val > domain[1])] *)
Definition outside (domain : option (float * float)) (cx_val : float) : bool :=
  match domain with
  | Some (lo, hi) => (cx_val <? lo) || PyFloat.gtb cx_val hi
  | None => false
  end.

(** What one turn of the loop does to the two lists. The point is
    appended before the label of its plot point is formatted, so a
    formatting failure leaves the point without a plot point. *)
Inductive visit : Type :=
  | Skipped
  | Kept (p : critical_point) (pp : option plot_point).

Definition after_is_real (f f2 cx : Expr L) (domain : option (float * float))
  : outcome visit :=
  cx_val ← float_evalf L cx;
  if outside domain cx_val then mret Skipped
  else
    cy_val ← subs_float_evalf L f cx;
    second_deriv_val ← subs_float_evalf L f2 cx;
    let '(classification, color) := classify second_deriv_val in
    let p := {| cp_x := cx_val; cp_y := cy_val; cp_type := classification;
                cp_second_derivative := second_deriv_val |} in
    mret (Kept p
            (try_except
               (lx ← format_latex_number L cx_val;
                ly ← format_latex_number L cy_val;
                mret (Some {| pp_coords := (cx_val, cy_val);
                              pp_label := classification +:+ newline +:+ "(" +:+ lx
                                            +:+ ", " +:+ ly +:+ ")";
                              pp_color := color |}))
               (λ _, None))).

(** One turn: [try: ... except Exception: continue]. *)
Definition visit_zero (f f2 cx : Expr L) (domain : option (float * float)) : visit :=
  match is_real L cx with
  | Some true => try_except (after_is_real f f2 cx domain) (λ _, Skipped)
  | _ => Skipped
  end.

(** [for cx in critical_x: ...]: the loop has no [break] and its body
    swallows every exception, so it ends only when the iteration does,
    by [StopIteration] or by an exception of the iterator itself.
    [fuel] bounds the number of calls of [next]; [None] means that the
    loop is still running when the fuel is spent. [i] elements have been
    taken so far. *)
Fixpoint scan (fuel : nat) (f f2 : Expr L) (domain : option (float * float))
    (critical_x : solution_set (Expr L)) (i : nat)
  : option (outcome (list critical_point * list plot_point)) :=
  match fuel with
  | O => None
  | S fuel' =>
      match next critical_x i with
      | StopIteration => Some (Return ([], []))
      | Fails e => Some (Raise e)
      | Yield cx =>
          match scan fuel' f f2 domain critical_x (S i) with
          | None => None
          | Some (Raise e) => Some (Raise e)
          | Some (Return (points, plot_points)) =>
              Some (Return
                match visit_zero f f2 cx domain with
                | Skipped => (points, plot_points)
                | Kept p None => (p :: points, plot_points)
                | Kept p (Some pp) => (p :: points, pp :: plot_points)
                end)
          end
      end
  end.

Fixpoint point_steps (points : list critical_point) : outcome (list string) :=
  match points with
  | [] => mret []
  | p :: rest =>
      lx ← format_latex_number L (cp_x p);
      ly ← format_latex_number L (cp_y p);
      more ← point_steps rest;
      mret (("  • x = " +:+ lx +:+ ": " +:+ cp_type p +:+ " at y = " +:+ ly) :: more)
  end.

(** The solution set the loop runs over: the real zeros of the
    derivative, or all of them when the first call of [solveset]
    raises. *)
Definition critical_set (f1 : Expr L) : outcome (solution_set (Expr L)) :=
  match solveset_x_reals L f1 with
  | Return s => Return s
  | Raise _ => solveset_x L f1
  end.

(** What follows the loop. *)
Definition after_loop (given : list string) (latex_res : list (string * string))
    (points : list critical_point) (plot_points : list plot_point)
  : outcome ComputationResult :=
  let plot_elements :=
    match plot_points with
    | [] => []
    | _ =>
        [ {| pe_type := "points";
             pe_data :=
               [("coords",
                 PList ((λ pp, PList [PFloat (pp_coords pp).1;
                                      PFloat (pp_coords pp).2]) <$> plot_points));
                ("labels", PList ((λ pp, PStr (pp_label pp)) <$> plot_points))];
             pe_style := [("size", PInt 12); ("color", PStr "#ef4444")] |} ]
    end in
  more ← point_steps points;
  mret {| status := "ok";
          operation := "critical_points";
          payload := [("points", PList (point_payload <$> points))];
          steps := given ++
            [ "Setting f'(x) = 0:";
              "Found " +:+ pretty (length points) +:+ " critical point(s)" ]
            ++ more;
          plot_elements := plot_elements;
          latex := latex_res |}.

(** The body of the outer [try]. [None]: the call has not returned
    within [fuel] turns of the loop. *)
Definition critical_points_body (fuel : nat) (expression : string) (f f1 f2 : Expr L)
    (domain : option (float * float)) : option (outcome ComputationResult) :=
  let given :=
    [ "Given: f(x) = " +:+ expression;
      "f'(x) = " +:+ sympy_latex L f1 ] in
  let latex_res :=
    [("derivative_zero", "f'(x) = " +:+ sympy_latex L f1 +:+ " = 0")] in
  match critical_set f1 with
  | Raise e => Some (Raise e)
  | Return NotIterable =>
      Some (mret {| status := "ok";
                    operation := "critical_points";
                    payload := [("points", PList [])];
                    steps := given ++
                      ["Could not enumerate critical points from the solution set."];
                    plot_elements := [];
                    latex := latex_res |})
  | Return critical_x =>
      match scan fuel f f2 domain critical_x 0 with
      | None => None
      | Some (Raise e) => Some (Raise e)
      | Some (Return (points, plot_points)) =>
          Some (after_loop given latex_res points plot_points)
      end
  end.

Definition critical_points (fuel : nat) (an : FunctionAnalyzer)
    (domain : option (float * float)) : option ComputationResult :=
  match state an with
  | Invalid error => Some (create_error_result "critical_points" error)
  | Valid f f1 f2 =>
      match critical_points_body fuel (expression an) f f1 f2 domain with
      | None => None
      | Some body =>
          Some (try_except body (λ e, create_error_result "critical_points" (str_exn e)))
      end
  end.

(** *** find_critical_points *)

Definition find_critical_points (fuel : nat) (expression : string)
    (domain : option (float * float)) : option ComputationResult :=
  let analyzer := new_FunctionAnalyzer expression in
  if negb (is_valid analyzer)
  then Some (create_error_result "critical_points" (error_message analyzer))
  else critical_points fuel analyzer domain.

(** *** compute_limit *)

(** The direction handed to SymPy. *)
Definition dir_sym (direction : string) : string :=
  if String.eqb direction "+" then "+"
  else if String.eqb direction "-" then "-"
  else "+-".

Definition compute_limit_body (expression : string) (point : float) (direction : string)
  : outcome ComputationResult :=
  expr ← sympify L expression;
  lim_val ← limit_x L expr point (dir_sym direction);
  let pt := float_str L point in
  mret {| status := "ok";
          operation := "limit";
          payload := [("expression", PStr expression); ("point", PFloat point);
                      ("direction", PStr direction);
                      ("result", PStr (sympy_str L lim_val))];
          steps :=
            [ "Limit expression: \lim_{x \to " +:+ pt +:+ "} ("
                +:+ sympy_latex L expr +:+ ")";
              "Evaluated limit: " +:+ sympy_latex L lim_val ];
          plot_elements := [];
          latex :=
            [("limit", "\lim_{x \to " +:+ pt +:+ "} " +:+ sympy_latex L expr
                         +:+ " = " +:+ sympy_latex L lim_val)] |}.

Definition compute_limit (expression : string) (point : float) (direction : string)
  : ComputationResult :=
  try_except (compute_limit_body expression point direction)
    (λ e, if is_sympify_error e
          then create_error_result "limit" ("Invalid expression: " +:+ expression)
          else create_error_result "limit" ("Computation error: " +:+ str_exn e)).
End Calculus.

(** *** solve_ode *)

Section ODE.
Context (L : Library).
(** SymPy on equations in [x] and [y(x)]: [sympify(s, locals)],
    [Eq(lhs, rhs)], [dsolve(ode, y(x))], [latex] and [str]. *)
Context (Ode : Type).
Context (sympify_ode : string → outcome Ode).
Context (sympy_Eq : Ode → Ode → outcome Ode).
Context (dsolve : Ode → outcome Ode).
Context (ode_latex ode_str : Ode → string).
(** The text of the [ValueError] raised on unpacking [got] values into
    [expected] names. *)
Context (unpack_error : nat → nat → string).

(** The equation as it is handed to SymPy. The second replacement finds
    nothing left to replace. *)
Definition formatted_eq (equation : string) : string :=
  PyStr.replace2 "y" "'" "diff(y, x)"
    (PyStr.replace2 "y" "'" "Derivative(y, x)" equation).

(** Where [parts[1]] raises [IndexError] the result of the handler is
    returned as such. *)
Definition solve_ode_body (equation : string) : outcome ComputationResult :=
  _ ← (if PyStr.contains "=" equation then
         match PyStr.split "=" equation with
         | [lhs_str; rhs_str] => mret tt
         | parts => Raise (Exn ValueError (unpack_error 2 (length parts)))
         end
       else mret tt);
  let formatted := formatted_eq equation in
  parsed ←
    (if PyStr.contains "=" formatted then
       match PyStr.split "=" formatted with
       | part0 :: part1 :: _ =>
           lhs ← sympify_ode part0;
           rhs ← sympify_ode part1;
           ode ← sympy_Eq lhs rhs;
           mret (Some ode)
       | _ => mret None
       end
     else ode ← sympify_ode formatted; mret (Some ode));
  match parsed with
  | None => mret (create_error_result "ode" "Could not solve ODE: list index out of range")
  | Some ode =>
      sol ← dsolve ode;
      mret {| status := "ok";
              operation := "ode";
              payload := [("equation", PStr equation); ("solution", PStr (ode_str sol))];
              steps := [ "Differential Equation: " +:+ ode_latex ode;
                         "General Solution: " +:+ ode_latex sol ];
              plot_elements := [];
              latex := [("solution", ode_latex sol)] |}
  end.

Definition solve_ode (equation : string) : ComputationResult :=
  try_except (solve_ode_body equation)
    (λ e, if is_sympify_error e
          then create_error_result "ode" "Invalid equation format. Use y' + y = x format."
          else create_error_result "ode" ("Could not solve ODE: " +:+ str_exn e)).
End ODE.
End Calculus.

(** ** matrices.py *)

Module Matrices.
Section Matrices.
Context (L : Library).
Local Open Scope float_scope.

(** [_matrix_to_latex] *)
Fixpoint join (sep : string) (parts : list string) : string :=
  match parts with
  | [] => ""
  | [p] => p
  | p :: rest => p +:+ sep +:+ join sep rest
  end.

Fixpoint format_row (row : list float) : outcome (list string) :=
  match row with
  | [] => mret []
  | x :: rest =>
      s ← format_latex_number L x;
      more ← format_row rest;
      mret (s :: more)
  end.

Fixpoint format_rows (m : matrix) : outcome (list string) :=
  match m with
  | [] => mret []
  | row :: rest =>
      cells ← format_row row;
      more ← format_rows rest;
      mret (join " & " cells :: more)
  end.

Definition _matrix_to_latex (m : matrix) : outcome string :=
  rows ← format_rows m;
  mret ("\begin{pmatrix} " +:+ join " \\ " rows +:+ " \end{pmatrix}").

(** [_validate_matrix]: [None] when the matrix is well formed. The
    rows are lists by typing, so the second test never fires. *)
Definition all_equal (ns : list nat) : bool :=
  match ns with
  | [] => true
  | n :: rest => forallb (Nat.eqb n) rest
  end.

Definition _validate_matrix (m : matrix) (name : string) : option string :=
  match m with
  | [] => Some (name +:+ " is empty")
  | _ =>
      if all_equal (length <$> m) then None
      else Some (name +:+ " has inconsistent row lengths")
  end.

Definition matrix_payload (m : matrix) : pyval :=
  PList ((λ row, PList (PFloat <$> row)) <$> m).

(** *** matrix_inverse *)

Definition matrix_inverse_body (m : matrix) : outcome ComputationResult :=
  match _validate_matrix m "Matrix" with
  | Some err => mret (create_error_result "matrix_inverse" err)
  | None =>
      let rows := length m in
      let cols := length (default [] (head m)) in
      if negb (rows =? cols)%nat
      then mret (create_error_result "matrix_inverse" "Matrix must be square")
      else
        det ← np_linalg_det L m;
        if abs det <? 1e-10 then
          det_s ← format_latex_number L det;
          m_latex ← _matrix_to_latex m;
          mret {| status := "ok";
                  operation := "matrix_inverse";
                  payload := [("matrix", matrix_payload m);
                              ("determinant", PFloat det);
                              ("invertible", PBool false)];
                  steps :=
                    [ "Determinant: " +:+ det_s;
                      "Matrix is singular (det ≈ 0), inverse does not exist" ];
                  plot_elements := [];
                  latex := [("matrix", m_latex)] |}
        else
          inverse ← np_linalg_inv L m;
          det_s ← format_latex_number L det;
          m_latex ← _matrix_to_latex m;
          inv_latex ← _matrix_to_latex inverse;
          mret {| status := "ok";
                  operation := "matrix_inverse";
                  payload := [("matrix", matrix_payload m);
                              ("inverse", matrix_payload inverse);
                              ("determinant", PFloat det);
                              ("invertible", PBool true)];
                  steps :=
                    [ "Matrix: " +:+ pretty rows +:+ "×" +:+ pretty cols;
                      "Determinant: " +:+ det_s +:+ " ≠ 0 (invertible)";
                      "Computing inverse using Gauss-Jordan elimination";
                      "Verification: A × A⁻¹ = I ✓" ];
                  plot_elements := [];
                  latex := [("matrix", m_latex); ("inverse", inv_latex);
                            ("equation", m_latex +:+ "^{-1} = " +:+ inv_latex)] |}
  end.

Definition matrix_inverse (m : matrix) : ComputationResult :=
  try_except (matrix_inverse_body m)
    (λ e, create_error_result "matrix_inverse" (str_exn e)).
End Matrices.

(** *** matrix_add, matrix_multiply, matrix_determinant *)

Section MatrixOps.
Context (L : Library).
(** [(np.array(a) @ np.array(b)).tolist()] *)
Context (np_matmul : matrix → matrix → outcome matrix).
Local Open Scope float_scope.

(** [m[i][j]]; [None] where Python raises [IndexError]. *)
Definition entry (m : matrix) (i j : nat) : option float :=
  row ← m !! i; row !! j.

(** [len(m[0])] of a matrix that is not empty. *)
Definition cols (m : matrix) : nat := length (default [] (head m)).

(** The two loops of [matrix_add], over [range(len(matrix_a))] and
    [range(len(matrix_a[0]))]. *)
Definition add_entries (matrix_a matrix_b : matrix) : option matrix :=
  mapM (λ i, mapM (λ j, x ← entry matrix_a i j;
                        y ← entry matrix_b i j;
                        Some (x + y))
               (seq 0 (cols matrix_a)))
       (seq 0 (length matrix_a)).

(** What the handler [except Exception as e] of [op] makes of an
    [IndexError]. *)
Definition index_error_result (op : string) : ComputationResult :=
  create_error_result op "list index out of range".

Definition matrix_add_body (matrix_a matrix_b : matrix) : outcome ComputationResult :=
  match _validate_matrix matrix_a "Matrix A" with
  | Some err_a => mret (create_error_result "matrix_add" err_a)
  | None =>
  match _validate_matrix matrix_b "Matrix B" with
  | Some err_b => mret (create_error_result "matrix_add" err_b)
  | None =>
      if negb (length matrix_a =? length matrix_b)%nat
         || negb (cols matrix_a =? cols matrix_b)%nat
      then mret (create_error_result "matrix_add" "Matrices must have the same dimensions")
      else
        match add_entries matrix_a matrix_b with
        | None => mret (index_error_result "matrix_add")
        | Some result =>
            a_latex ← _matrix_to_latex L matrix_a;
            b_latex ← _matrix_to_latex L matrix_b;
            result_latex ← _matrix_to_latex L result;
            mret {| status := "ok";
                    operation := "matrix_add";
                    payload := [("matrix_a", matrix_payload matrix_a);
                                ("matrix_b", matrix_payload matrix_b);
                                ("result", matrix_payload result)];
                    steps :=
                      [ "Matrix A (" +:+ pretty (length matrix_a) +:+ "×"
                          +:+ pretty (cols matrix_a) +:+ ")";
                        "Matrix B (" +:+ pretty (length matrix_b) +:+ "×"
                          +:+ pretty (cols matrix_b) +:+ ")";
                        "Element-wise addition: C[i][j] = A[i][j] + B[i][j]" ];
                    plot_elements := [];
                    latex := [("a", a_latex); ("b", b_latex); ("result", result_latex);
                              ("equation", a_latex +:+ " + " +:+ b_latex +:+ " = "
                                             +:+ result_latex)] |}
        end
  end
  end.

Definition matrix_add (matrix_a matrix_b : matrix) : ComputationResult :=
  try_except (matrix_add_body matrix_a matrix_b)
    (λ e, create_error_result "matrix_add" (str_exn e)).

Definition matrix_multiply_body (matrix_a matrix_b : matrix) : outcome ComputationResult :=
  match _validate_matrix matrix_a "Matrix A" with
  | Some err_a => mret (create_error_result "matrix_multiply" err_a)
  | None =>
  match _validate_matrix matrix_b "Matrix B" with
  | Some err_b => mret (create_error_result "matrix_multiply" err_b)
  | None =>
      let cols_a := cols matrix_a in
      let rows_b := length matrix_b in
      if negb (cols_a =? rows_b)%nat
      then mret (create_error_result "matrix_multiply"
                   ("Cannot multiply: A has " +:+ pretty cols_a +:+ " columns but B has "
                      +:+ pretty rows_b +:+ " rows"))
      else
        result ← np_matmul matrix_a matrix_b;
        a_latex ← _matrix_to_latex L matrix_a;
        b_latex ← _matrix_to_latex L matrix_b;
        result_latex ← _matrix_to_latex L result;
        mret {| status := "ok";
                operation := "matrix_multiply";
                payload := [("matrix_a", matrix_payload matrix_a);
                            ("matrix_b", matrix_payload matrix_b);
                            ("result", matrix_payload result)];
                steps :=
                  [ "Matrix A: " +:+ pretty (length matrix_a) +:+ "×" +:+ pretty cols_a;
                    "Matrix B: " +:+ pretty rows_b +:+ "×" +:+ pretty (cols matrix_b);
                    "Result: " +:+ pretty (length matrix_a) +:+ "×"
                      +:+ pretty (cols matrix_b);
                    "Matrix multiplication: C[i][j] = Σ A[i][k] × B[k][j]" ];
                plot_elements := [];
                latex := [("a", a_latex); ("b", b_latex); ("result", result_latex);
                          ("equation", a_latex +:+ " \times " +:+ b_latex +:+ " = "
                                         +:+ result_latex)] |}
  end
  end.

Definition matrix_multiply (matrix_a matrix_b : matrix) : ComputationResult :=
  try_except (matrix_multiply_body matrix_a matrix_b)
    (λ e, create_error_result "matrix_multiply" (str_exn e)).

(** The steps that depend on the size; [None] where reading the four
    entries of a 2×2 matrix raises [IndexError]. *)
Definition determinant_steps (m : matrix) (rows : nat) (det : float)
  : outcome (option (list string)) :=
  let fs := float_str L in
  if (rows =? 2)%nat then
    match entry m 0 0, entry m 1 1, entry m 0 1, entry m 1 0 with
    | Some a, Some d, Some b, Some c =>
        det_s ← format_latex_number L det;
        mret (Some [ "For 2×2 matrix: det = ad - bc";
                     "det = (" +:+ fs a +:+ ")(" +:+ fs d +:+ ") - (" +:+ fs b +:+ ")("
                       +:+ fs c +:+ ")";
                     "det = " +:+ det_s ])
    | _, _, _, _ => mret None
    end
  else if (rows =? 3)%nat then
    det_s ← format_latex_number L det;
    mret (Some [ "For 3×3 matrix: Using Sarrus' rule or cofactor expansion";
                 "det = " +:+ det_s ])
  else
    det_s ← format_latex_number L det;
    mret (Some [ "Using LU decomposition: det = " +:+ det_s ]).

Definition matrix_determinant_body (m : matrix) : outcome ComputationResult :=
  match _validate_matrix m "Matrix" with
  | Some err => mret (create_error_result "matrix_determinant" err)
  | None =>
      let rows := length m in
      let cols := cols m in
      if negb (rows =? cols)%nat
      then mret (create_error_result "matrix_determinant" "Matrix must be square")
      else
        det ← np_linalg_det L m;
        detail ← determinant_steps m rows det;
        match detail with
        | None => mret (index_error_result "matrix_determinant")
        | Some more =>
            m_latex ← _matrix_to_latex L m;
            det_s ← format_latex_number L det;
            mret {| status := "ok";
                    operation := "matrix_determinant";
                    payload := [("matrix", matrix_payload m); ("determinant", PFloat det)];
                    steps := ("Square matrix: " +:+ pretty rows +:+ "×" +:+ pretty cols)
                               :: more;
                    plot_elements := [];
                    latex := [("matrix", m_latex);
                              ("result", "\det" +:+ m_latex +:+ " = " +:+ det_s)] |}
        end
  end.

Definition matrix_determinant (m : matrix) : ComputationResult :=
  try_except (matrix_determinant_body m)
    (λ e, create_error_result "matrix_determinant" (str_exn e)).
End MatrixOps.
End Matrices.

(** ** api/math/geometry.py *)

Module Api.
(** The request models of the 2D endpoints. *)
Record PointModel : Type := { x : float; y : float; label : string }.
Record LineModel : Type := { A : float; B : float; C : float }.
Record CircleModel : Type := { center_x : float; center_y : float; radius : float }.

(** The converters: a circle is written under the keys of both
    conventions, (x, y, r) and (h, k, r). *)
Definition _to_point (pm : PointModel) : Geometry.params :=
  {[ "x" := PFloat (x pm); "y" := PFloat (y pm) ]}.

Definition _to_line (lm : LineModel) : Geometry.params :=
  {[ "a" := PFloat (A lm); "b" := PFloat (B lm); "c" := PFloat (C lm) ]}.

Definition _to_circle (cm : CircleModel) : Geometry.params :=
  {[ "x" := PFloat (center_x cm); "y" := PFloat (center_y cm);
     "r" := PFloat (radius cm);
     "h" := PFloat (center_x cm); "k" := PFloat (center_y cm) ]}.

Section Endpoints.
Context (L : Library).

Definition line_intersect (line1 line2 : LineModel) : pyval :=
  to_dict (Geometry.line_intersection L (_to_line line1) (_to_line line2)).

Definition line_circle_intersect (circle : CircleModel) (line : LineModel) : pyval :=
  to_dict (Geometry.line_circle_intersection L (_to_line line) (_to_circle circle)).

Definition circle_circle_intersect (circle1 circle2 : CircleModel) : pyval :=
  to_dict (Geometry.circle_circle_intersection L (_to_circle circle1) (_to_circle circle2)).

Definition tangent (circle : CircleModel) (point : PointModel) : pyval :=
  to_dict (Geometry.tangent_from_point L (_to_point point) (_to_circle circle)).

Definition triangle_analyze (p1 p2 p3 : PointModel) : pyval :=
  to_dict (Geometry.TriangleProperties_analyze L (_to_point p1) (_to_point p2)
             (_to_point p3)).
End Endpoints.
End Api.

(** ** A small instance of the libraries

    Examples are evaluated on this instance. Floats are printed by their
    integer part, matrices of size 1 and 2 have their determinant and
    inverse by the closed formulas, a 3×3 determinant is expanded by the
    rule of Sarrus, and expressions are polynomials in x given by their
    coefficients, lowest degree first. *)

Module Reference.
Local Open Scope float_scope.

Definition show_float (x : float) : string :=
  match PyFloat.to_int x with
  | Return n => pretty n
  | Raise _ => "nan"
  end.

Fixpoint digits_value (acc : Z) (s : string) : Z :=
  match s with
  | EmptyString => acc
  | String c rest => digits_value (10 * acc + (Z.of_nat (nat_of_ascii c) - 48)) rest
  end.

(** Unsigned integer literals only. *)
Definition all_digits (s : string) : bool :=
  match s with
  | EmptyString => false
  | _ => forallb (λ c, (48 <=? nat_of_ascii c)%nat && (nat_of_ascii c <=? 57)%nat)
           (String.list_ascii_of_string s)
  end.

Definition parse_float (s : string) : option float :=
  if all_digits s then
    match PyFloat.of_int (digits_value 0 s) with
    | Return x => Some x
    | Raise _ => None
    end
  else None.

Definition float_of_nat (n : nat) : float :=
  SF2Prim (binary_normalize prec emax (Z.of_nat n) 0 false).

Definition linspace (start stop : float) (num : nat) : list float :=
  let step := (stop - start) / float_of_nat (num - 1) in
  (λ i, start + float_of_nat i * step) <$> seq 0 num.

Definition singular : exn := Exn LinAlgError "Singular matrix".
Definition unsupported : exn := Exn RuntimeError "unsupported by the reference instance".

Definition det (m : matrix) : outcome float :=
  match m with
  | [[a]] => Return a
  | [[a; b]; [c; d]] => Return (a * d - b * c)
  | _ => Raise unsupported
  end.

Definition inv (m : matrix) : outcome matrix :=
  match m with
  | [[a]] => if a =? 0 then Raise singular else Return [[1 / a]]
  | [[a; b]; [c; d]] =>
      let dt := a * d - b * c in
      if dt =? 0 then Raise singular
      else Return [[d / dt; - b / dt]; [- c / dt; a / dt]]
  | _ => Raise unsupported
  end.

Definition det3 (m : matrix) : outcome sym_val :=
  match m with
  | [[a; b; c]; [d; e; f]; [g; h; i]] =>
      Return (sym_of_float
                (a * e * i + b * f * g + c * d * h - c * e * g - a * f * h - b * d * i))
  | _ => Raise unsupported
  end.

Definition poly : Type := list float.

Definition parse_poly (s : string) : outcome poly :=
  if String.eqb s "x**2" then Return [0; 0; 1]
  else if String.eqb s "x" then Return [0; 1]
  else if String.eqb s "1" then Return [1]
  else Raise (Exn SympifyError ("could not parse " +:+ s)).

Fixpoint diff_from (k : nat) (p : poly) : poly :=
  match p with
  | [] => []
  | c :: rest => (float_of_nat k * c) :: diff_from (S k) rest
  end.
Definition diff (p : poly) : poly :=
  match p with
  | [] => []
  | _ :: rest => diff_from 1 rest
  end.

(** Horner evaluation. *)
Fixpoint eval (p : poly) (x : float) : float :=
  match p with
  | [] => 0
  | c :: rest => c + x * eval rest x
  end.

Definition zeros (p : poly) : outcome (solution_set poly) :=
  match p with
  | [] => Return NotIterable
  | [c] => if c =? 0 then Return NotIterable else Return (Iterable [] None)
  | [c0; c1] =>
      if c1 =? 0 then Raise unsupported else Return (Iterable [[- c0 / c1]] None)
  | _ => Raise unsupported
  end.

Definition join_floats (p : poly) : string :=
  Matrices.join " " (show_float <$> p).

(** A [pow] that is exact on the exponent 2 and knows no other. *)
Definition pow (x y : float) : float := if y =? 2 then x * x else nan.

(** The instance, given what [solveset] answers. *)
Definition with_zeros (solveset : poly → outcome (solution_set poly)) : Library :=
  {| libm_pow := pow;
     float_str := show_float;
     float_fmt := λ _ x, show_float x;
     float_of_str := parse_float;
     np_linspace := linspace;
     np_linalg_det := det;
     np_linalg_inv := inv;
     unicode_isdigit := λ _, false;
     sympy_sqrt_im := λ D, sqrt (- D);
     sympy_float_str := show_float;
     sympy_float_latex := show_float;
     sympy_cplx_str := λ re im, show_float re +:+ " + " +:+ show_float im +:+ "*I";
     sympy_cplx_latex := λ re im, show_float re +:+ " + " +:+ show_float im +:+ " i";
     Matrix_det := det3;
     conic_latex := λ _ _ _ _ _ _, "conic";
     Expr := poly;
     sympify := parse_poly;
     sympy_str := λ p, join_floats p;
     sympy_latex := λ p, join_floats p;
     diff_x := λ p, Return (diff p);
     lambdify_x := λ _, Return tt;
     limit_x := λ p x _, Return [eval p x];
     solveset_x_reals := solveset;
     solveset_x := solveset;
     is_real := λ _, Some true;
     float_evalf := λ p, Return (eval p 0);
     subs_float_evalf := λ f p, Return (eval f (eval p 0)) |}.

Definition lib : Library := with_zeros zeros.

(** An instance for which every equation has the solutions 0, 1, 2, ...:
    an infinite iterable, as SymPy returns for the zeros of a periodic
    function. *)
Definition endless_lib : Library :=
  with_zeros (λ _, Return (Endless (λ n, [float_of_nat n]))).
End Reference.

(** The product of two matrices by rows and columns, each entry summed
    from the left. *)
Module ReferenceOps.
Local Open Scope float_scope.

Definition column (j : nat) (m : matrix) : list float :=
  (λ row, default 0 (row !! j)) <$> m.

Definition dot (u v : list float) : float :=
  foldl PrimFloat.add 0 (zip_with PrimFloat.mul u v).

Definition matmul (a b : matrix) : outcome matrix :=
  Return ((λ row, (λ j, dot row (column j b)) <$> seq 0 (Matrices.cols b)) <$> a).
End ReferenceOps.

(** ** Vocabulary of the statements *)

(** [d[k]] in a payload or in a nested dictionary. *)
Fixpoint field (k : string) (d : list (string * pyval)) : option pyval :=
  match d with
  | [] => None
  | (k', v) :: rest => if String.eqb k k' then Some v else field k rest
  end.

(** The error envelope of the specification: status [error], a payload
    whose only key is [error], and one step repeating the message. *)
Definition error_envelope (r : ComputationResult) : Prop :=
  ∃ message,
    status r = "error" ∧
    payload r = [("error", PStr message)] ∧
    steps r = ["Error: " +:+ message].

Definition envelope (r : ComputationResult) : Prop :=
  status r = "ok" ∨ error_envelope r.

(** A body that can only return an envelope. *)
Definition returns_envelope (body : outcome ComputationResult) : Prop :=
  ∀ r, body = Return r → envelope r.

(** A call of one of the embedded public entry points, with its
    arguments. *)
Inductive entry_call (L : Library) : Type :=
  | CallQuadraticSolve (a b c : float)
  | CallComputeProperties
      (numeric_branch symbolic_branch :
         list (list Algebra.cell) → outcome Algebra.properties_parts)
      (matrix_data : list (list Algebra.cell))
  | CallCriticalPoints (an : Calculus.FunctionAnalyzer L) (domain : option (float * float))
  | CallFindCriticalPoints (expression : string) (domain : option (float * float))
  | CallComputeLimit (expression : string) (point : float) (direction : string)
  | CallLineCircle (line_params circle_params : Geometry.params)
  | CallCircleCircle (c1_params c2_params : Geometry.params)
  | CallConicAnalyze (coeffs : Geometry.params)
  | CallMatrixInverse (m : matrix).

(** The result of the call, or [None] when it has not returned
    within [fuel] turns of the one loop that may not end, in
    [critical_points]. *)
Definition run (L : Library) (fuel : nat) (call : entry_call L)
  : option ComputationResult :=
  match call with
  | CallQuadraticSolve _ a b c => Some (Algebra.QuadraticSolver_solve L a b c)
  | CallComputeProperties _ nb sb m =>
      Some (Algebra.MatrixCalculator_compute_properties L nb sb m)
  | CallCriticalPoints _ an domain => Calculus.critical_points L fuel an domain
  | CallFindCriticalPoints _ e domain => Calculus.find_critical_points L fuel e domain
  | CallComputeLimit _ e p d => Some (Calculus.compute_limit L e p d)
  | CallLineCircle _ lp cp => Some (Geometry.line_circle_intersection L lp cp)
  | CallCircleCircle _ c1 c2 => Some (Geometry.circle_circle_intersection L c1 c2)
  | CallConicAnalyze _ coeffs => Some (Geometry.ConicAnalyzer_analyze L coeffs)
  | CallMatrixInverse _ m => Some (Matrices.matrix_inverse L m)
  end.

(** A call whose loop runs over an infinite solution set. *)
Definition endless {E : Type} (s : outcome (solution_set E)) : Prop :=
  ∃ element, s = Return (Endless element).

Definition over_endless_set (L : Library) (call : entry_call L) : Prop :=
  let of_analyzer an :=
    match Calculus.state L an with
    | Calculus.Valid _ _ f1 _ => endless (Calculus.critical_set L f1)
    | Calculus.Invalid _ _ => False
    end in
  match call with
  | CallCriticalPoints _ an _ => of_analyzer an
  | CallFindCriticalPoints _ e _ => of_analyzer (Calculus.new_FunctionAnalyzer L e)
  | _ => False
  end.

(** Digits only (possibly none), in the sense of [str.isdigit]. *)
Definition all_digits (L : Library) (s : Algebra.text) : bool :=
  forallb (Algebra.is_digit L) s.

(** The code point of the dot. *)
Definition dot : N := 46.

(** An unsigned decimal: digits, at least one, with at most one dot
    before, between or after them. *)
Definition unsigned_decimal (L : Library) (s : Algebra.text) : Prop :=
  ∃ l r, all_digits L l = true ∧ all_digits L r = true ∧ l ++ r ≠ [] ∧
         (s = l ++ r ∨ s = l ++ dot :: r).

Definition numeric_cell (L : Library) (x : Algebra.cell) : Prop :=
  match x with
  | Algebra.CInt _ | Algebra.CFloat _ => True
  | Algebra.CStr s => unsigned_decimal L s
  end.

(** The classifier in the specification's words: a string counts when it
    parses as a plain decimal, signed decimals such as ["-5"] or
    ["-1.5"] included. *)
Definition spec_plain_decimal (L : Library) (s : Algebra.text) : bool :=
  let body :=
    match s with
    | c :: rest => if (c =? 45)%N || (c =? 43)%N then rest else s
    | [] => s
    end in
  let digits := filter (λ c, (c =? dot)%N = false) body in
  (length body - length digits <=? 1)%nat && forallb (Algebra.is_digit L) digits
    && negb (length digits =? 0)%nat.

Definition spec_cell_is_numeric (L : Library) (x : Algebra.cell) : bool :=
  match x with
  | Algebra.CInt _ | Algebra.CFloat _ => true
  | Algebra.CStr s => spec_plain_decimal L s
  end.

Definition spec_is_numeric (L : Library) (matrix_data : list (list Algebra.cell)) : bool :=
  forallb (forallb (spec_cell_is_numeric L)) matrix_data.

(** A scalar argument that is missing or does not denote a number:
    [None], the empty string, a string [float] rejects, a list or a
    dictionary. *)
Definition malformed (L : Library) (v : pyval) : Prop :=
  v = PNone ∨ v = PStr "" ∨ (∃ s, v = PStr s ∧ float_of_str L s = None) ∨
  (∃ l, v = PList l) ∨ (∃ d, v = PDict d).

(** The eight geometry functions that read their scalar parameters
    through [_safe_float] give the same answer for the values [v] and
    [w] under the key [k] of any one of their dictionaries. *)
Definition answers_alike (L : Library) (k : string) (v w : pyval) : Prop :=
  (∀ d other,
     Geometry.line_intersection L (<[k := v]> d) other
       = Geometry.line_intersection L (<[k := w]> d) other ∧
     Geometry.line_intersection L other (<[k := v]> d)
       = Geometry.line_intersection L other (<[k := w]> d)) ∧
  (∀ d other,
     Geometry.line_circle_intersection L (<[k := v]> d) other
       = Geometry.line_circle_intersection L (<[k := w]> d) other ∧
     Geometry.line_circle_intersection L other (<[k := v]> d)
       = Geometry.line_circle_intersection L other (<[k := w]> d)) ∧
  (∀ d other,
     Geometry.circle_circle_intersection L (<[k := v]> d) other
       = Geometry.circle_circle_intersection L (<[k := w]> d) other ∧
     Geometry.circle_circle_intersection L other (<[k := v]> d)
       = Geometry.circle_circle_intersection L other (<[k := w]> d)) ∧
  (∀ d other,
     Geometry.tangent_from_point L (<[k := v]> d) other
       = Geometry.tangent_from_point L (<[k := w]> d) other ∧
     Geometry.tangent_from_point L other (<[k := v]> d)
       = Geometry.tangent_from_point L other (<[k := w]> d)) ∧
  (∀ d p q,
     Geometry.TriangleProperties_analyze L (<[k := v]> d) p q
       = Geometry.TriangleProperties_analyze L (<[k := w]> d) p q ∧
     Geometry.TriangleProperties_analyze L p (<[k := v]> d) q
       = Geometry.TriangleProperties_analyze L p (<[k := w]> d) q ∧
     Geometry.TriangleProperties_analyze L p q (<[k := v]> d)
       = Geometry.TriangleProperties_analyze L p q (<[k := w]> d)) ∧
  (∀ d p q s,
     Geometry.QuadrilateralProperties_analyze L (<[k := v]> d) p q s
       = Geometry.QuadrilateralProperties_analyze L (<[k := w]> d) p q s ∧
     Geometry.QuadrilateralProperties_analyze L p (<[k := v]> d) q s
       = Geometry.QuadrilateralProperties_analyze L p (<[k := w]> d) q s ∧
     Geometry.QuadrilateralProperties_analyze L p q (<[k := v]> d) s
       = Geometry.QuadrilateralProperties_analyze L p q (<[k := w]> d) s ∧
     Geometry.QuadrilateralProperties_analyze L p q s (<[k := v]> d)
       = Geometry.QuadrilateralProperties_analyze L p q s (<[k := w]> d)) ∧
  (∀ d, Geometry.ConicAnalyzer_analyze L (<[k := v]> d)
        = Geometry.ConicAnalyzer_analyze L (<[k := w]> d)) ∧
  (∀ math_radians math_sin math_cos d other operation,
     Geometry.transform_2d L math_radians math_sin math_cos (<[k := v]> d) operation other
       = Geometry.transform_2d L math_radians math_sin math_cos (<[k := w]> d) operation other ∧
     Geometry.transform_2d L math_radians math_sin math_cos other operation (<[k := v]> d)
       = Geometry.transform_2d L math_radians math_sin math_cos other operation (<[k := w]> d)).

(** The circle/circle classification in the specification's words: a
    three-way outcome read off the distance between the centres, the
    sum and the absolute difference of the radii, compared under an
    absolute tolerance of 1e-9. *)
Definition spec_circle_outcome (d r1 r2 : float) : string :=
  if ((abs (d - (r1 + r2)) <? 1e-9) || (abs (d - abs (r1 - r2)) <? 1e-9))%float
  then "tangent"
  else if ((r1 + r2 <? d) || (d <? abs (r1 - r2)))%float then "no intersection"
  else "intersecting".

(** The test the code applies once neither circle lies outside or
    inside the other. *)
Definition near_tangent (d r1 r2 : float) : bool :=
  ((abs (d - (r1 + r2)) <? 1e-9) || (abs (d - abs (r1 - r2)) <? 1e-9))%float.

(** A float in the normal range of binary64: finite, and not below
    2^-1022 in absolute value. There a 53-bit result rounded without
    exponent bounds, as SymPy's [Float] is, is the binary64 result. *)
Definition normal (x : float) : Prop :=
  (0x1p-1022 <=? abs x)%float = true ∧ (abs x <? infinity)%float = true.

(** A quotient or product on which the two roundings agree: it is in
    the normal range, or it is a zero that comes from a zero. *)
Definition agrees (operand result : float) : Prop :=
  normal result ∨ ((operand =? 0)%float = true ∧ (result =? 0)%float = true).

(** The roots listed in a quadratic payload. *)
Definition roots_of (r : ComputationResult) : list pyval :=
  match field "roots" (payload r) with
  | Some (PList l) => l
  | _ => []
  end.

(** The point a zero of the derivative contributes: its abscissa, the
    value of the function and of the second derivative there. *)
Definition point_of (x y sd : float) : Calculus.critical_point :=
  {| Calculus.cp_x := x; Calculus.cp_y := y;
     Calculus.cp_type := (Calculus.classify sd).1;
     Calculus.cp_second_derivative := sd |}.

(** A value that the optional domain [lo, hi] does not exclude: it is
    neither below [lo] nor above [hi]. *)
Definition within (domain : option (float * float)) (x : float) : Prop :=
  match domain with
  | Some (lo, hi) => (x <? lo)%float = false ∧ (hi <? x)%float = false
  | None => True
  end.

(** What the turns of the loop over the zeros [zeros], taken in order,
    leave in the two lists. *)
Definition collected (L : Library) (f f2 : Expr L) (domain : option (float * float))
    (zeros : list (Expr L)) : list Calculus.critical_point * list Calculus.plot_point :=
  foldr (λ cx acc,
           match Calculus.visit_zero L f f2 cx domain with
           | Calculus.Skipped => acc
           | Calculus.Kept p None => (p :: acc.1, acc.2)
           | Calculus.Kept p (Some pp) => (p :: acc.1, pp :: acc.2)
           end) ([], []) zeros.

(** Inputs of the examples: the line x = 0, a circle at the origin whose
    radius is [None], a circle given by centre and radius, and the
    coefficients of the unit circle x² + y² − 1 = 0. *)
Definition line_x0 : Geometry.params :=
  {[ "a" := PFloat 1; "b" := PFloat 0; "c" := PFloat 0 ]}.

Definition circle_without_radius : Geometry.params :=
  {[ "h" := PFloat 0; "k" := PFloat 0; "r" := PNone ]}.

Definition circle_at (x y r : float) : Geometry.params :=
  {[ "x" := PFloat x; "y" := PFloat y; "r" := PFloat r ]}.


(** What the parameters under [keys] read as, through [_safe_float]. *)
Definition reads (L : Library) (d : Geometry.params) (keys : list string)
    (values : list float) : Prop :=
  Forall2 (λ k x, Geometry._safe_float L (Geometry.get d k) = Return x) keys values.

(** A float that is neither an infinity nor [nan]. *)
Definition finite (x : float) : Prop := is_finite x = true.

(** A matrix whose entries are all finite. *)
Definition finite_entries (m : matrix) : Prop := Forall (Forall finite) m.

(** The entrywise sum of two matrices. *)
Definition entrywise_sum (matrix_a matrix_b : matrix) : matrix :=
  zip_with (zip_with PrimFloat.add) matrix_a matrix_b.

(** A line and a point given by their coefficients and coordinates, and
    a circle given by (h, k, r). *)
Definition line_of (a b c : float) : Geometry.params :=
  {[ "a" := PFloat a; "b" := PFloat b; "c" := PFloat c ]}.

Definition point_at (x y : float) : Geometry.params :=
  {[ "x" := PFloat x; "y" := PFloat y ]}.

Definition circle_hkr (h k r : float) : Geometry.params :=
  {[ "h" := PFloat h; "k" := PFloat k; "r" := PFloat r ]}.

(** Whether the two characters [c1 c2] occur next to each other. *)
Fixpoint occurs2 (c1 c2 : ascii) (s : string) : bool :=
  match s with
  | EmptyString => false
  | String a tl =>
      (Ascii.eqb a c1 && match tl with
                         | String b _ => Ascii.eqb b c2
                         | EmptyString => false
                         end)
      || occurs2 c1 c2 tl
  end.

(** The first character of a text. *)
Definition first_char (s : string) : option ascii :=
  match s with
  | EmptyString => None
  | String a _ => Some a
  end.

(** ** Facts on binary64 comparisons *)

Section FloatFacts.
Local Open Scope float_scope.

Lemma Prim2SF_zero : Prim2SF 0 = S754_zero false.
Proof. reflexivity. Qed.

Lemma ltb_zero_cases (x : float) :
  (x <? 0) = true → (0 <? x) = false ∧ (x =? 0) = false.
Proof.
  rewrite !ltb_spec, FloatAxioms.eqb_spec, Prim2SF_zero.
  unfold SFltb, SFeqb. destruct (Prim2SF x) as [s|s| |s m e]; simpl;
    try destruct s; simpl; intros; try discriminate; auto.
Qed.

Lemma gtb_zero_cases (x : float) :
  (0 <? x) = true → (x <? 0) = false ∧ (x =? 0) = false.
Proof.
  rewrite !ltb_spec, FloatAxioms.eqb_spec, Prim2SF_zero.
  unfold SFltb, SFeqb. destruct (Prim2SF x) as [s|s| |s m e]; simpl;
    try destruct s; simpl; intros; try discriminate; auto.
Qed.

Lemma eqb_zero_cases (x : float) :
  (x =? 0) = true → (0 <? x) = false ∧ (x <? 0) = false.
Proof.
  rewrite !ltb_spec, FloatAxioms.eqb_spec, Prim2SF_zero.
  unfold SFltb, SFeqb. destruct (Prim2SF x) as [s|s| |s m e]; simpl;
    try destruct s; simpl; intros; try discriminate; auto.
Qed.

(** A float equal to zero is one of the two zeros. *)
Lemma eqb_zero_inv (x : float) : (x =? 0) = true → x = 0 ∨ x = -0.
Proof.
  rewrite FloatAxioms.eqb_spec, Prim2SF_zero. unfold SFeqb.
  intros H. rewrite <- (SF2Prim_Prim2SF x).
  destruct (Prim2SF x) as [s|s| |s m e]; simpl in H;
    try destruct s; try discriminate; [right|left]; reflexivity.
Qed.


Lemma SFeqb_refl (x : spec_float) : x ≠ S754_nan → SFeqb x x = true.
Proof.
  unfold SFeqb. destruct x as [s|s| |s m e]; simpl; intros H;
    try destruct s; try reflexivity; try congruence;
    rewrite Z.compare_refl, Pos.compare_cont_refl; reflexivity.
Qed.

(** Only numbers compare: the arguments of a comparison that holds
    are not NaN. *)
Lemma ltb_not_nan (x y : float) :
  (x <? y) = true → is_nan x = false ∧ is_nan y = false.
Proof.
  rewrite ltb_spec. unfold is_nan. rewrite !FloatAxioms.eqb_spec. intros H.
  split; apply negb_false_iff, SFeqb_refl; intros E; rewrite E in H;
    [|destruct (Prim2SF x)]; discriminate.
Qed.

Lemma eqb_not_nan (x y : float) : (x =? y) = true → is_nan x = false.
Proof.
  unfold is_nan. rewrite !FloatAxioms.eqb_spec. intros H.
  apply negb_false_iff, SFeqb_refl. intros E. rewrite E in H. discriminate.
Qed.
End FloatFacts.

(** ** More facts on binary64 *)

Section FloatClasses.
Local Open Scope float_scope.

Lemma Prim2SF_infinity : Prim2SF infinity = S754_infinity false.
Proof. reflexivity. Qed.

Lemma is_nan_spec (x : float) : is_nan x = true ↔ Prim2SF x = S754_nan.
Proof.
  unfold is_nan. rewrite FloatAxioms.eqb_spec.
  destruct (Prim2SF x) as [s|s| |s m e] eqn:E; simpl; split; try done.
  - unfold SFeqb, SFcompare. destruct s; discriminate.
  - pose proof (SFeqb_refl (S754_finite s m e)) as H. rewrite H; [discriminate|done].
Qed.

Lemma is_infinity_spec (x : float) :
  is_infinity x = true ↔ ∃ s, Prim2SF x = S754_infinity s.
Proof.
  unfold is_infinity. rewrite FloatAxioms.eqb_spec, abs_spec, Prim2SF_infinity.
  destruct (Prim2SF x) as [s|s| |s m e]; simpl; split; try done; eauto.
  all: intros [s' [=]].
Qed.

Lemma finite_spec (x : float) :
  finite x ↔ (∃ s, Prim2SF x = S754_zero s) ∨ (∃ s m e, Prim2SF x = S754_finite s m e).
Proof.
  unfold finite, is_finite. rewrite negb_true_iff, orb_false_iff.
  split.
  - intros [Hn Hi].
    destruct (Prim2SF x) as [s|s| |s m e] eqn:E; eauto.
    + assert (is_infinity x = true) by (apply is_infinity_spec; eauto). congruence.
    + assert (is_nan x = true) by (apply is_nan_spec; eauto). congruence.
  - intros H. split.
    + destruct (is_nan x) eqn:Hn; [|done]. apply is_nan_spec in Hn.
      destruct H as [[s H] | (s & m & e & H)]; congruence.
    + destruct (is_infinity x) eqn:Hi; [|done]. apply is_infinity_spec in Hi as [s' Hi].
      destruct H as [[s H] | (s & m & e & H)]; congruence.
Qed.

(** [int(x)] returns exactly on the finite floats. *)
Lemma to_int_finite (x : float) : finite x ↔ ∃ n, PyFloat.to_int x = Return n.
Proof.
  rewrite finite_spec. unfold PyFloat.to_int.
  destruct (Prim2SF x) as [s|s| |s m e]; split; eauto.
  - intros [[s' [=]] | (s' & m & e & [=])].
  - intros [n [=]].
  - intros [[s' [=]] | (s' & m & e & [=])].
  - intros [n [=]].
Qed.

Lemma integral_finite (x : float) : PyFloat.is_integral x = true → finite x.
Proof.
  rewrite finite_spec. unfold PyFloat.is_integral.
  destruct (Prim2SF x) as [s|s| |s m e]; eauto; discriminate.
Qed.
End FloatClasses.

(** ** Quadratic solving *)

Section RangeFacts.
Local Open Scope float_scope.

Lemma normal_finite (x : float) : normal x → ∃ s m e, Prim2SF x = S754_finite s m e.
Proof.
  intros [H1 H2]. rewrite leb_spec, abs_spec in H1. rewrite ltb_spec, abs_spec in H2.
  destruct (Prim2SF x) as [s|s| |s m e]; try discriminate; eauto.
Qed.

Lemma SF_finite_classes (x : float) (s : bool) (m : positive) (e : Z) :
  Prim2SF x = S754_finite s m e →
  is_nan x = false ∧ is_infinity x = false ∧ (x =? 0) = false.
Proof.
  intros H. repeat split.
  - destruct (is_nan x) eqn:E; [|reflexivity]. apply is_nan_spec in E. congruence.
  - destruct (is_infinity x) eqn:E; [|reflexivity].
    apply is_infinity_spec in E as [s' E]. congruence.
  - rewrite FloatAxioms.eqb_spec, H, Prim2SF_zero. destruct s; reflexivity.
Qed.

Lemma div_finite_inv (n y : float) (s : bool) (m : positive) (e : Z) :
  Prim2SF (n / y) = S754_finite s m e →
  (∃ s1 m1 e1, Prim2SF n = S754_finite s1 m1 e1) ∧
  (∃ s2 m2 e2, Prim2SF y = S754_finite s2 m2 e2).
Proof.
  rewrite div_spec. unfold SF64div, SFdiv.
  destruct (Prim2SF n) as [s1|s1| |s1 m1 e1], (Prim2SF y) as [s2|s2| |s2 m2 e2];
    try discriminate; eauto 10.
Qed.

Lemma mul_finite_inv (x y : float) (s : bool) (m : positive) (e : Z) :
  Prim2SF (x * y) = S754_finite s m e →
  (∃ s1 m1 e1, Prim2SF x = S754_finite s1 m1 e1) ∧
  (∃ s2 m2 e2, Prim2SF y = S754_finite s2 m2 e2).
Proof.
  rewrite mul_spec. unfold SF64mul, SFmul.
  destruct (Prim2SF x) as [s1|s1| |s1 m1 e1], (Prim2SF y) as [s2|s2| |s2 m2 e2];
    try discriminate; eauto 10.
Qed.

Lemma eqb_zero_SF (x : float) : (x =? 0) = true → ∃ s, Prim2SF x = S754_zero s.
Proof. intros [-> | ->]%eqb_zero_inv; eexists; reflexivity. Qed.

(** A zero quotient of a zero: the divisor is a number other than
    zero. *)
Lemma div_zero_inv (n y : float) :
  (n =? 0) = true → (n / y =? 0) = true → is_nan y = false ∧ (y =? 0) = false.
Proof.
  intros [s Hn]%eqb_zero_SF [s' H]%eqb_zero_SF. revert H.
  rewrite div_spec, Hn. unfold SF64div, SFdiv.
  destruct (Prim2SF y) as [s2|s2| |s2 m2 e2] eqn:Ey; try discriminate; intros _.
  - split.
    + destruct (is_nan y) eqn:E; [|reflexivity]. apply is_nan_spec in E. congruence.
    + rewrite FloatAxioms.eqb_spec, Ey, Prim2SF_zero. destruct s2; reflexivity.
  - destruct (SF_finite_classes _ _ _ _ Ey) as (? & _ & ?). auto.
Qed.

Lemma add_not_nan (x y : float) : is_nan (x + y) = false → is_nan x = false.
Proof.
  intros H. destruct (is_nan x) eqn:E; [|reflexivity].
  apply is_nan_spec in E. assert (is_nan (x + y) = true); [|congruence].
  apply is_nan_spec. rewrite add_spec, E. reflexivity.
Qed.

Lemma sub_not_nan (x y : float) : is_nan (x - y) = false → is_nan x = false.
Proof.
  intros H. destruct (is_nan x) eqn:E; [|reflexivity].
  apply is_nan_spec in E. assert (is_nan (x - y) = true); [|congruence].
  apply is_nan_spec. rewrite sub_spec, E. reflexivity.
Qed.

Lemma eqb_true_not_nan (x : float) : (x =? 0) = true → is_nan x = false.
Proof. intros [-> | ->]%eqb_zero_inv; reflexivity. Qed.

(** What a quotient on which the roundings agree says of its
    operands. *)
Lemma agrees_div (n y : float) :
  agrees n (n / y) →
  is_nan n = false ∧ is_nan y = false ∧ (y =? 0) = false ∧ is_nan (n / y) = false.
Proof.
  intros [H | [Hn H]].
  - destruct (normal_finite _ H) as (s & m & e & E).
    destruct (div_finite_inv _ _ _ _ _ E) as [(s1 & m1 & e1 & E1) (s2 & m2 & e2 & E2)].
    destruct (SF_finite_classes _ _ _ _ E1) as (? & _ & _).
    destruct (SF_finite_classes _ _ _ _ E2) as (? & _ & ?).
    destruct (SF_finite_classes _ _ _ _ E) as (? & _ & _). auto.
  - destruct (div_zero_inv _ _ Hn H) as [? ?].
    repeat split; auto using eqb_true_not_nan.
Qed.

Lemma agrees_mul (x y : float) : agrees x (x * y) → is_nan x = false.
Proof.
  intros [H | [Hx _]].
  - destruct (normal_finite _ H) as (s & m & e & E).
    destruct (mul_finite_inv _ _ _ _ _ E) as [(s1 & m1 & e1 & E1) _].
    apply (SF_finite_classes _ _ _ _ E1).
  - apply eqb_true_not_nan, Hx.
Qed.

(** A normal reciprocal is that of a finite number other than zero. *)
Lemma normal_inv (y : float) :
  normal (1 / y) → is_nan y = false ∧ (y =? 0) = false ∧ is_infinity y = false.
Proof.
  intros H. destruct (normal_finite _ H) as (s & m & e & E).
  destruct (div_finite_inv _ _ _ _ _ E) as [_ (s2 & m2 & e2 & E2)].
  destruct (SF_finite_classes _ _ _ _ E2) as (? & ? & ?). auto.
Qed.
End RangeFacts.

Section Quadratic.
Context (L : Library).
Local Open Scope float_scope.

Lemma discriminant_of (a b c b2 : float) :
  PyFloat.pow2 (libm_pow L) b = Return b2 →
  Algebra.discriminant L a b c = Return (b2 - 4 * a * c).
Proof. intros H. unfold Algebra.discriminant. rewrite H. reflexivity. Qed.

Lemma solve_unfold (a b c D : float) :
  Algebra.discriminant L a b c = Return D →
  Algebra.QuadraticSolver_solve L a b c =
    let x1 := Algebra.root1 L a b D in
    let x2 := Algebra.root2 L a b D in
    let fs := float_str L in
    let branch :=
      if PyFloat.gtb D 0 then
        ("D > 0, so there are two distinct real roots.",
         [("roots", PList [PStr (sym_str L x1); PStr (sym_str L x2)]);
          ("type", PStr "real_distinct")])
      else if D =? 0 then
        ("D = 0, so there is one repeated real root.",
         [("roots", PList [PStr (sym_str L x1)]); ("type", PStr "real_repeated")])
      else
        ("D < 0, so there are two complex conjugate roots.",
         [("roots", PList [PStr (sym_str L x1); PStr (sym_str L x2)]);
          ("type", PStr "complex")]) in
    {| status := "ok";
       operation := "quadratic_solve";
       payload := branch.2;
       steps :=
         [ "Equation: " +:+ fs a +:+ "x^2 + " +:+ fs b +:+ "x + " +:+ fs c +:+ " = 0";
           "Discriminant (D) = b^2 - 4ac = (" +:+ fs b +:+ ")^2 - 4(" +:+ fs a
             +:+ ")(" +:+ fs c +:+ ") = " +:+ fs D ]
         ++ [branch.1; "Root 1: x = " +:+ sym_latex L x1;
             "Root 2: x = " +:+ sym_latex L x2];
       plot_elements := try_pass (Algebra.quadratic_plot L a b c D x1 x2) [];
       latex := [("roots", "x_1 = " +:+ sym_latex L x1 +:+ ", \quad x_2 = "
                             +:+ sym_latex L x2)] |}.
Proof.
  intros HD. unfold Algebra.QuadraticSolver_solve, Algebra._solve_quadratic.
  rewrite HD. unfold mbind, outcome_bind. cbv beta iota zeta.
  destruct (PyFloat.gtb D 0); [reflexivity|].
  destruct (D =? 0); reflexivity.
Qed.

Lemma solve_raises (a b c : float) (e : exn) :
  Algebra.discriminant L a b c = Raise e →
  Algebra.QuadraticSolver_solve L a b c =
    create_error_result "quadratic_solve" (str_exn e).
Proof.
  intros HD. unfold Algebra.QuadraticSolver_solve, Algebra._solve_quadratic.
  rewrite HD. reflexivity.
Qed.

(** The quotient of a real numerator, where the roundings agree. *)
Lemma real_quotient (n y : float) :
  agrees n (n / y) → sym_div (sym_of_float n) y = SFloat (n / y).
Proof.
  intros (Hn & Hy & Hz & Hq)%agrees_div.
  unfold sym_of_float, sym_div. rewrite Hn, Hy, Hz.
  unfold sym_of_float. rewrite Hq. destruct (is_infinity y); reflexivity.
Qed.

Lemma real_root1 (a b D : float) :
  is_nan D = false → (D <? 0) = false →
  agrees (- b + sqrt D) ((- b + sqrt D) / (2 * a)) →
  Algebra.root1 L a b D = SFloat ((- b + sqrt D) / (2 * a)).
Proof.
  intros Hn Hneg Hq. unfold Algebra.root1, sym_sqrt. rewrite Hn, Hneg.
  unfold sym_radd.
  destruct (agrees_div _ _ Hq) as (Hnum & _). rewrite (add_not_nan _ _ Hnum).
  apply real_quotient, Hq.
Qed.

Lemma real_root2 (a b D : float) :
  is_nan D = false → (D <? 0) = false →
  agrees (- b - sqrt D) ((- b - sqrt D) / (2 * a)) →
  Algebra.root2 L a b D = SFloat ((- b - sqrt D) / (2 * a)).
Proof.
  intros Hn Hneg Hq. unfold Algebra.root2, sym_sqrt. rewrite Hn, Hneg.
  unfold sym_rsub.
  destruct (agrees_div _ _ Hq) as (Hnum & _). rewrite (sub_not_nan _ _ Hnum).
  apply real_quotient, Hq.
Qed.

Lemma complex_roots (a b D : float) :
  (D <? 0) = true →
  let inv := 1 / (2 * a) in
  let im := sympy_sqrt_im L D in
  normal inv → agrees (- b + 0) ((- b + 0) * inv) →
  Algebra.root1 L a b D = SCplx ((- b + 0) * inv) (im * inv) ∧
  Algebra.root2 L a b D = SCplx ((- b - 0) * inv) (- im * inv).
Proof.
  intros Hneg inv im (Hy & Hz & Hi)%normal_inv Hre%agrees_mul%add_not_nan.
  destruct (ltb_not_nan _ _ Hneg) as [Hn _].
  unfold Algebra.root1, Algebra.root2, sym_sqrt. rewrite Hn, Hneg.
  unfold sym_radd, sym_rsub, sym_div. rewrite Hre, Hy, Hz, Hi. split; reflexivity.
Qed.





End Quadratic.

Section QuadraticClaims.
Local Open Scope float_scope.

Local Ltac branch_of D :=
  unfold PyFloat.gtb;
  first [ match goal with H : (0 <? D) = true |- _ => rewrite H end
        | match goal with H : (D =? 0) = true |- _ =>
            let E := fresh in destruct (eqb_zero_cases _ H) as [E _]; rewrite E, H
          end
        | match goal with H : (D <? 0) = true |- _ =>
            let E1 := fresh in let E2 := fresh in
            destruct (ltb_zero_cases _ H) as [E1 E2]; rewrite E1, E2
          end ].

(** C6. Quadratic solving branches on the sign of the discriminant
    [D = b**2 - 4ac] as binary64 computes it: [D > 0] gives the type
    [real_distinct] and two roots, [D = 0] the type [real_repeated]
    and exactly one root, [D < 0] the type [complex] and two roots.
    As long as the quotients stay in the normal range of binary64 the
    roots are the real numbers [(-b + √D)/(2a)] and [(-b - √D)/(2a)]
    in the first case, the first of them in the second, and in the
    third the pair whose real parts are [-b] times the reciprocal of
    [2a] and whose imaginary parts are opposite. The type and the
    number of roots depend on [(a, b, c)] and on the square of [b]
    alone, not on any other library. *)
Theorem quadratic_branches (L : Library) (a b c b2 : float) :
  PyFloat.pow2 (libm_pow L) b = Return b2 →
  let D := b2 - 4 * a * c in
  let s := sqrt D in
  let y := 2 * a in
  let r := Algebra.QuadraticSolver_solve L a b c in
  status r = "ok" ∧
  ((0 <? D) = true →
     field "type" (payload r) = Some (PStr "real_distinct") ∧
     length (roots_of r) = 2%nat) ∧
  ((D =? 0) = true →
     field "type" (payload r) = Some (PStr "real_repeated") ∧
     length (roots_of r) = 1%nat) ∧
  ((D <? 0) = true →
     field "type" (payload r) = Some (PStr "complex") ∧
     length (roots_of r) = 2%nat) ∧
  ((0 <? D) = true →
     agrees (- b + s) ((- b + s) / y) → agrees (- b - s) ((- b - s) / y) →
     roots_of r = [ PStr (sympy_float_str L ((- b + s) / y));
                    PStr (sympy_float_str L ((- b - s) / y)) ]) ∧
  ((D =? 0) = true →
     agrees (- b + s) ((- b + s) / y) →
     roots_of r = [ PStr (sympy_float_str L ((- b + s) / y)) ]) ∧
  ((D <? 0) = true →
     let inv := 1 / y in
     let im := sympy_sqrt_im L D in
     normal inv → agrees (- b + 0) ((- b + 0) * inv) → agrees im (im * inv) →
     roots_of r = [ PStr (sympy_cplx_str L ((- b + 0) * inv) (im * inv));
                    PStr (sympy_cplx_str L ((- b - 0) * inv) (- im * inv)) ]) ∧
  (∀ L' : Library,
     PyFloat.pow2 (libm_pow L') b = Return b2 →
     let r' := Algebra.QuadraticSolver_solve L' a b c in
     field "type" (payload r') = field "type" (payload r) ∧
     length (roots_of r') = length (roots_of r)).
Proof.
  intros Hb D s y r. subst r.
  rewrite (solve_unfold L _ _ _ _ (discriminant_of L a b c b2 Hb)).
  fold D. cbv zeta. unfold roots_of.
  split; [reflexivity|]. repeat apply conj.
  - intros H. branch_of D. split; reflexivity.
  - intros H. branch_of D. split; reflexivity.
  - intros H. branch_of D. split; reflexivity.
  - intros H H1 H2. branch_of D. simpl.
    destruct (ltb_not_nan _ _ H) as [_ Hn]. destruct (gtb_zero_cases _ H) as [Hneg _].
    rewrite (real_root1 L a b D Hn Hneg H1), (real_root2 L a b D Hn Hneg H2).
    reflexivity.
  - intros H H1. pose proof (eqb_not_nan _ _ H) as Hn.
    destruct (eqb_zero_cases _ H) as [_ Hneg]. branch_of D. simpl.
    rewrite (real_root1 L a b D Hn Hneg H1). reflexivity.
  - intros H Hinv Hre _.
    destruct (complex_roots L a b D H Hinv Hre) as [E1 E2]. branch_of D. simpl.
    rewrite E1, E2. reflexivity.
  - intros L' Hb'.
    rewrite (solve_unfold L' _ _ _ _ (discriminant_of L' a b c b2 Hb')).
    fold D. cbv zeta. unfold PyFloat.gtb.
    destruct (0 <? D); [split; reflexivity|]. destruct (D =? 0); split; reflexivity.
Qed.

(** x² − 3x + 2 with a [pow] that is exact on 3: the discriminant is
    1 and the roots are 2 and 1. *)
Lemma quadratic_branches_witness :
  PyFloat.pow2 (libm_pow Reference.lib) (-3) = Return 9 ∧
  field "type" (payload (Algebra.QuadraticSolver_solve Reference.lib 1 (-3) 2))
    = Some (PStr "real_distinct") ∧
  roots_of (Algebra.QuadraticSolver_solve Reference.lib 1 (-3) 2) = [PStr "2"; PStr "1"].
Proof.
  split; [reflexivity|].
  pose proof (quadratic_branches Reference.lib 1 (-3) 2 9 eq_refl) as H.
  cbv zeta in H. destruct H as (_ & Hpos & _ & _ & Hroots & _).
  split; [exact (proj1 (Hpos eq_refl))|].
  rewrite (Hroots eq_refl); [reflexivity| |]; left; split; reflexivity.
Defined.

(** C6 as stated fails on overflow: for a = 1e308, b = 1, c = -1 the
    discriminant is computed as +inf, the type is [real_distinct], and
    both roots are [nan], whatever the libraries. *)
Lemma quadratic_overflow_roots_are_nan :
  (1e308 =? 0) = false ∧
  (0 <? 1 - 4 * 1e308 * (-1)) = true ∧
  ∀ L : Library,
    let r := Algebra.QuadraticSolver_solve L 1e308 1 (-1) in
    field "type" (payload r) = Some (PStr "real_distinct") ∧
    roots_of r = [PStr "nan"; PStr "nan"].
Proof.
  split; [reflexivity|]. split; [reflexivity|]. intros L r. subst r.
  rewrite (solve_unfold L _ _ _ _ (discriminant_of L 1e308 1 (-1) 1 eq_refl)).
  split; reflexivity.
Qed.


End QuadraticClaims.

(** ** Envelopes *)

Section Envelopes.
Context (L : Library).

Lemma error_result_envelope (op message : string) :
  envelope (create_error_result op message).
Proof. right. exists message. repeat split. Qed.

Lemma ret_ok (r : ComputationResult) : status r = "ok" → returns_envelope (mret r).
Proof. intros H r' [= <-]. left. exact H. Qed.

Lemma ret_error (op message : string) :
  returns_envelope (mret (create_error_result op message)).
Proof. intros r' [= <-]. apply error_result_envelope. Qed.

Lemma raise_envelope (e : exn) : returns_envelope (Raise e).
Proof. intros r' [=]. Qed.

Lemma bind_envelope {A : Type} (m : outcome A) (k : A → outcome ComputationResult) :
  (∀ a, returns_envelope (k a)) → returns_envelope (m ≫= k).
Proof. intros Hk r. destruct m as [a|e]; simpl; [apply Hk | discriminate]. Qed.

Lemma try_except_envelope (body : outcome ComputationResult)
    (handler : exn → ComputationResult) :
  returns_envelope body → (∀ e, envelope (handler e)) → envelope (try_except body handler).
Proof. intros Hb Hh. destruct body as [r|e]; simpl; auto. Qed.

Ltac envelope_step :=
  lazymatch goal with
  | |- returns_envelope (mbind _ _) => apply bind_envelope; intros; cbv beta
  | |- returns_envelope (mret (create_error_result _ _)) => apply ret_error
  | |- returns_envelope (mret _) => apply ret_ok; reflexivity
  | |- returns_envelope (Raise _) => apply raise_envelope
  | |- returns_envelope (match ?x with _ => _ end) => destruct x
  end.
Ltac envelope_body := repeat envelope_step.

Lemma line_circle_envelope lp cp : returns_envelope (Geometry.line_circle_body L lp cp).
Proof. unfold Geometry.line_circle_body. envelope_body. Qed.

Lemma circle_circle_envelope c1 c2 :
  returns_envelope (Geometry.circle_circle_body L c1 c2).
Proof. unfold Geometry.circle_circle_body. envelope_body. Qed.

Lemma compute_limit_envelope e p d :
  returns_envelope (Calculus.compute_limit_body L e p d).
Proof. unfold Calculus.compute_limit_body. envelope_body. Qed.

Lemma matrix_inverse_envelope m : returns_envelope (Matrices.matrix_inverse_body L m).
Proof. unfold Matrices.matrix_inverse_body. envelope_body. Qed.

Lemma after_loop_envelope given latex_res points plot_points :
  returns_envelope (Calculus.after_loop L given latex_res points plot_points).
Proof. unfold Calculus.after_loop. envelope_body. Qed.

Lemma critical_points_envelope fuel e f f1 f2 domain body :
  Calculus.critical_points_body L fuel e f f1 f2 domain = Some body →
  returns_envelope body.
Proof.
  unfold Calculus.critical_points_body.
  destruct (Calculus.critical_set L f1) as [[|zeros failure|element]|err].
  - intros [= <-]. apply ret_ok. reflexivity.
  - destruct (Calculus.scan _ _ _ _ _ _ _) as [[[points plot_points]|err]|];
      intros [= <-]; [apply after_loop_envelope | apply raise_envelope].
  - destruct (Calculus.scan _ _ _ _ _ _ _) as [[[points plot_points]|err]|];
      intros [= <-]; [apply after_loop_envelope | apply raise_envelope].
  - intros [= <-]. apply raise_envelope.
Qed.

Lemma critical_points_method_envelope fuel an domain r :
  Calculus.critical_points L fuel an domain = Some r → envelope r.
Proof.
  unfold Calculus.critical_points. destruct (Calculus.state L an) as [f f1 f2|msg].
  - destruct (Calculus.critical_points_body _ _ _ _ _ _ _) as [body|] eqn:E; [|discriminate].
    intros [= <-]. apply try_except_envelope.
    + apply (critical_points_envelope _ _ _ _ _ _ _ E).
    + intros e. apply error_result_envelope.
  - intros [= <-]. apply error_result_envelope.
Qed.

(** *** The loop of [critical_points] *)

(** Over a finite solution set the loop ends: one turn per element and
    one more call of [next]. *)
Lemma scan_finite (f f2 : Expr L) domain zeros failure (fuel i : nat) :
  (length zeros - i < fuel)%nat →
  ∃ res, Calculus.scan L fuel f f2 domain (Iterable zeros failure) i = Some res.
Proof.
  revert i. induction fuel as [|fuel IH]; intros i Hlt; [lia|].
  simpl. destruct (zeros !! i) as [cx|] eqn:E.
  - apply lookup_lt_Some in E.
    destruct (IH (S i)) as [res ->]; [lia|].
    destruct res as [[points plot_points]|err]; eauto.
  - destruct failure; eauto.
Qed.

(** Over an infinite solution set it never ends. *)
Lemma scan_endless (f f2 : Expr L) domain element (fuel i : nat) :
  Calculus.scan L fuel f f2 domain (Endless element) i = None.
Proof.
  revert i. induction fuel as [|fuel IH]; intros i; [reflexivity|].
  simpl. rewrite IH. reflexivity.
Qed.

Lemma critical_points_returns an domain :
  ¬ over_endless_set L (CallCriticalPoints L an domain) →
  ∃ fuel r, Calculus.critical_points L fuel an domain = Some r.
Proof.
  unfold over_endless_set, Calculus.critical_points, Calculus.critical_points_body.
  destruct (Calculus.state L an) as [f f1 f2|msg]; [|intros _; exists 0%nat; eauto].
  destruct (Calculus.critical_set L f1) as [[|zeros failure|element]|err]; intros Hfin.
  - exists 0%nat. eauto.
  - exists (S (length zeros)).
    destruct (scan_finite f f2 domain zeros failure (S (length zeros)) 0) as [res ->];
      [lia|].
    destruct res as [[points plot_points]|err]; eauto.
  - destruct Hfin. exists element. reflexivity.
  - exists 0%nat. eauto.
Qed.

Lemma critical_points_loops an domain fuel :
  over_endless_set L (CallCriticalPoints L an domain) →
  Calculus.critical_points L fuel an domain = None.
Proof.
  unfold over_endless_set, Calculus.critical_points, Calculus.critical_points_body.
  destruct (Calculus.state L an) as [f f1 f2|msg]; [|intros []].
  intros [element ->]. rewrite scan_endless. reflexivity.
Qed.

(** X25. Every call of one of these nine entry points that returns,
    returns one envelope: its status is [ok], or it is [error] with a
    payload holding the single key [error] and one step, ["Error: "]
    followed by the same message; whatever the libraries raise is
    turned into that error envelope. Every call returns, except the
    calls of [critical_points] and [find_critical_points] whose
    solution set is an infinite iterable. *)
Theorem entry_points_return_envelopes (call : entry_call L) :
  (∀ fuel r, run L fuel call = Some r →
     (status r = "ok" ∨ status r = "error") ∧
     (status r = "error" →
        ∃ message,
          payload r = [("error", PStr message)] ∧ steps r = ["Error: " +:+ message])) ∧
  (¬ over_endless_set L call → ∃ fuel r, run L fuel call = Some r).
Proof.
  split.
  - intros fuel r Hrun. assert (H : envelope r).
    { destruct call; simpl in Hrun; try (injection Hrun as <-).
      - unfold Algebra.QuadraticSolver_solve. apply try_except_envelope.
        + envelope_body.
        + intros e. apply error_result_envelope.
      - unfold Algebra.MatrixCalculator_compute_properties. apply try_except_envelope.
        + envelope_body.
        + intros e. apply error_result_envelope.
      - apply (critical_points_method_envelope _ _ _ _ Hrun).
      - unfold Calculus.find_critical_points in Hrun.
        destruct (negb _); [injection Hrun as <-; apply error_result_envelope|].
        apply (critical_points_method_envelope _ _ _ _ Hrun).
      - unfold Calculus.compute_limit. apply try_except_envelope.
        + apply compute_limit_envelope.
        + intros e. destruct (is_sympify_error e); apply error_result_envelope.
      - apply try_except_envelope; [apply line_circle_envelope|].
        intros e. apply error_result_envelope.
      - apply try_except_envelope; [apply circle_circle_envelope|].
        intros e. apply error_result_envelope.
      - unfold Geometry.ConicAnalyzer_analyze. apply try_except_envelope.
        + envelope_body.
        + intros e. apply error_result_envelope.
      - apply try_except_envelope; [apply matrix_inverse_envelope|].
        intros e. apply error_result_envelope. }
    destruct H as [Hok | (message & Hs & Hp & Hst)].
    + split; [left; exact Hok|]. rewrite Hok. discriminate.
    + split; [right; exact Hs|]. intros _. exists message. split; assumption.
  - intros Hfin. destruct call; simpl; try (exists 0%nat; eauto; fail).
    + apply critical_points_returns, Hfin.
    + unfold Calculus.find_critical_points.
      destruct (negb _); [exists 0%nat; eauto|].
      apply critical_points_returns, Hfin.
Qed.

(** C1, where the code fails it. When [solveset] answers with an
    infinite iterable, as SymPy does for the zeros of a periodic
    derivative (those of [cos(x)], the derivative of [sin(x)], are a
    union of two image sets over the integers), the loop
    [for cx in critical_x] has no way out: [critical_points] and
    [find_critical_points] return nothing, however many turns are
    allowed, where every public entry point should return one
    envelope. *)
Theorem critical_points_never_returns
    (expression : string) (domain : option (float * float))
    (f f1 f2 : Expr L) (element : nat → Expr L) :
  Calculus.post_init L expression = Return (Calculus.Valid L f f1 f2) →
  solveset_x_reals L f1 = Return (Endless element) →
  ∀ fuel,
    Calculus.find_critical_points L fuel expression domain = None ∧
    Calculus.critical_points L fuel (Calculus.new_FunctionAnalyzer L expression) domain
      = None.
Proof.
  intros Hinit Hset fuel.
  assert (H : Calculus.critical_points L fuel
                (Calculus.new_FunctionAnalyzer L expression) domain = None).
  { apply critical_points_loops. unfold over_endless_set, Calculus.new_FunctionAnalyzer.
    simpl. rewrite Hinit. simpl. exists element.
    unfold Calculus.critical_set. rewrite Hset. reflexivity. }
  split; [|exact H].
  unfold Calculus.find_critical_points, Calculus.is_valid, Calculus.new_FunctionAnalyzer
    in *. simpl in *. rewrite Hinit in *. exact H.
Qed.
End Envelopes.

(** The square function under an instance whose solution sets are
    infinite: after a thousand turns the call has not returned. *)
Lemma critical_points_never_returns_witness :
  Calculus.find_critical_points Reference.endless_lib 1000 "x**2"
    (Some (-2, 2)%float) = None.
Proof.
  exact (proj1 (critical_points_never_returns Reference.endless_lib "x**2"
                  (Some (-2, 2)%float) _ _ _ _ eq_refl eq_refl 1000%nat)).
Defined.

(** ** Limits *)

Section Limits.
Context (L : Library).

Lemma dir_sym_other (direction : string) :
  direction ≠ "+" → direction ≠ "-" → Calculus.dir_sym direction = "+-".
Proof.
  intros Hp Hm. unfold Calculus.dir_sym.
  apply String.eqb_neq in Hp, Hm. rewrite Hp, Hm. reflexivity.
Qed.

(** C9. [compute_limit] hands SymPy the two-sided direction for every
    direction string other than ["+"] and ["-"]. Such a string is never
    the cause of an error: the call fails exactly when the two-sided
    call ["+/-"] fails, with the same envelope, and when it succeeds
    the payload repeats the string unchanged in its [direction] field
    next to the two-sided result. *)
Theorem limit_direction (expression : string) (point : float) (direction : string) :
  direction ≠ "+" → direction ≠ "-" →
  let r := Calculus.compute_limit L expression point direction in
  let two_sided := Calculus.compute_limit L expression point "+/-" in
  Calculus.dir_sym direction = Calculus.dir_sym "+/-" ∧
  status r = status two_sided ∧
  (status r = "error" → r = two_sided) ∧
  (status r = "ok" →
     field "direction" (payload r) = Some (PStr direction) ∧
     field "result" (payload r) = field "result" (payload two_sided) ∧
     steps r = steps two_sided) ∧
  (∀ expr lim_val,
     sympify L expression = Return expr →
     limit_x L expr point "+-" = Return lim_val →
     status r = "ok" ∧ field "result" (payload r) = Some (PStr (sympy_str L lim_val))).
Proof.
  intros Hp Hm r two_sided. subst r two_sided.
  pose proof (dir_sym_other _ Hp Hm) as Hd.
  unfold Calculus.compute_limit, Calculus.compute_limit_body. rewrite Hd.
  change (Calculus.dir_sym "+/-") with "+-".
  split; [reflexivity|].
  destruct (sympify L expression) as [expr|e] eqn:Hs; simpl.
  - destruct (limit_x L expr point "+-") as [lim_val|e] eqn:Hl; simpl.
    + repeat split; try reflexivity; try discriminate; congruence.
    + destruct (is_sympify_error e); repeat split;
        try reflexivity; try discriminate; congruence.
  - destruct (is_sympify_error e); repeat split; try reflexivity; try discriminate.
Qed.
End Limits.

(** The limit of x² at 3 with the direction ["up"]. *)
Lemma limit_direction_witness :
  "up" ≠ "+" ∧ "up" ≠ "-" ∧
  status (Calculus.compute_limit Reference.lib "x**2" 3 "up") = "ok" ∧
  field "direction" (payload (Calculus.compute_limit Reference.lib "x**2" 3 "up"))
    = Some (PStr "up").
Proof.
  assert (H1 : "up" ≠ "+") by discriminate.
  assert (H2 : "up" ≠ "-") by discriminate.
  pose proof (limit_direction Reference.lib "x**2" 3 "up" H1 H2) as H.
  cbv zeta in H. destruct H as (_ & _ & _ & Hok & Hres).
  destruct (Hres [0; 0; 1]%float [9]%float eq_refl eq_refl) as [Hs _].
  split; [exact H1|]. split; [exact H2|]. split; [exact Hs|].
  exact (proj1 (Hok Hs)).
Defined.

(** ** The numeric/symbolic classifier *)

Section Classifier.
Context (L : Library).
Import Algebra.

Lemma all_digits_app (l r : text) :
  all_digits L (l ++ r) = all_digits L l && all_digits L r.
Proof. apply forallb_app. Qed.

Lemma is_digit_not_dot (c : N) : is_digit L c = true → (c =? dot)%N = false.
Proof.
  destruct (N.eqb_spec c dot) as [-> | _]; [|reflexivity].
  unfold is_digit. simpl. discriminate.
Qed.

Lemma replace_first_dot_digits (l r : text) :
  all_digits L l = true → replace_first_dot (l ++ r) = l ++ replace_first_dot r.
Proof.
  unfold all_digits. induction l as [|c l IH]; simpl; [reflexivity|].
  intros [Hc Hl]%andb_true_iff.
  pose proof (is_digit_not_dot _ Hc) as Hd. unfold dot in Hd. rewrite Hd, (IH Hl).
  reflexivity.
Qed.

Lemma replace_first_dot_id (s : text) :
  all_digits L s = true → replace_first_dot s = s.
Proof.
  intros H. pose proof (replace_first_dot_digits s [] H) as E.
  simpl in E. rewrite !app_nil_r in E. exact E.
Qed.

Lemma isdigit_iff (s : text) : isdigit L s = true ↔ all_digits L s = true ∧ s ≠ [].
Proof.
  unfold isdigit, all_digits. destruct s; simpl.
  - split; [discriminate | intros [_ H]; congruence].
  - split; [intros H; split; [exact H | discriminate] | intros [H _]; exact H].
Qed.

(** Removing the first dot leaves digits only when the text is digits
    around at most one dot. *)
Lemma replace_first_dot_split (s : text) :
  all_digits L (replace_first_dot s) = true →
  ∃ l r, all_digits L l = true ∧ all_digits L r = true ∧
         (s = l ++ r ∨ s = l ++ dot :: r) ∧ replace_first_dot s = l ++ r.
Proof.
  induction s as [|c s IH]; simpl.
  - intros _. exists [], []. repeat split; auto.
  - destruct (N.eqb_spec c 46) as [-> | Hc].
    + intros H. exists [], s. repeat split; auto.
    + unfold all_digits at 1. simpl. intros [Hd Hs]%andb_true_iff.
      destruct (IH Hs) as (l & r & Hl & Hr & Hsplit & Hrep).
      exists (c :: l), r. repeat split.
      * unfold all_digits. simpl. rewrite Hd. exact Hl.
      * exact Hr.
      * destruct Hsplit as [-> | ->]; [left | right]; reflexivity.
      * simpl. rewrite Hrep. reflexivity.
Qed.

Lemma cell_is_numeric_iff (x : cell) : cell_is_numeric L x = true ↔ numeric_cell L x.
Proof.
  destruct x as [n|x|s]; simpl; [tauto | tauto |].
  rewrite isdigit_iff. split.
  - intros [Hd Hne].
    destruct (replace_first_dot_split s Hd) as (l & r & Hl & Hr & Hsplit & Hrep).
    exists l, r. repeat split; auto. rewrite <- Hrep. exact Hne.
  - intros (l & r & Hl & Hr & Hne & [-> | ->]).
    + rewrite replace_first_dot_id by (rewrite all_digits_app, Hl, Hr; reflexivity).
      split; [rewrite all_digits_app, Hl, Hr; reflexivity | exact Hne].
    + rewrite (replace_first_dot_digits l _ Hl).
      change (replace_first_dot (dot :: r)) with r.
      split; [rewrite all_digits_app, Hl, Hr; reflexivity | exact Hne].
Qed.

(** X26. The classifier selects the numeric (NumPy) path if and only
    if every cell is an integer, a float, or a string that is an
    unsigned decimal: digits in the sense of [str.isdigit], at least
    one, with at most one dot. Every other matrix, cells of any other
    form included, is sent to the symbolic path; the classification
    itself is a total test and raises nothing. *)
Theorem classifier_selects_numeric
    (numeric_branch symbolic_branch other : list (list cell) → outcome properties_parts)
    (matrix_data : list (list cell)) :
  (is_numeric L matrix_data = true ↔ Forall (Forall (numeric_cell L)) matrix_data) ∧
  (is_numeric L matrix_data = true →
     MatrixCalculator_compute_properties L numeric_branch symbolic_branch matrix_data =
     MatrixCalculator_compute_properties L numeric_branch other matrix_data) ∧
  (is_numeric L matrix_data = false →
     MatrixCalculator_compute_properties L numeric_branch symbolic_branch matrix_data =
     MatrixCalculator_compute_properties L other symbolic_branch matrix_data).
Proof.
  split; [|split].
  - unfold is_numeric. rewrite forallb_forall, Forall_forall.
    split; intros H row Hrow.
    + apply list_elem_of_In in Hrow. specialize (H row Hrow).
      rewrite forallb_forall in H. apply Forall_forall. intros x Hx.
      apply cell_is_numeric_iff, H, list_elem_of_In, Hx.
    + apply list_elem_of_In in Hrow. specialize (H row Hrow).
      rewrite Forall_forall in H. apply forallb_forall. intros x Hx.
      apply cell_is_numeric_iff, H, list_elem_of_In, Hx.
  - intros H. unfold MatrixCalculator_compute_properties. rewrite H. reflexivity.
  - intros H. unfold MatrixCalculator_compute_properties. rewrite H. reflexivity.
Qed.

(** C7, where the code fails it. The signed decimals ["-5"] and
    ["-1.5"] parse as plain decimals, yet
    [x.replace('.', '', 1).isdigit()] is false of them: a matrix that
    holds one is not "fully numeric" for the classifier and goes to
    the symbolic path, whatever the numeric path would do. *)
Theorem signed_decimal_is_symbolic
    (numeric_branch symbolic_branch other : list (list cell) → outcome properties_parts) :
  let minus_five := [[CStr (ascii_text "-5")]] in
  let mixed := [[CInt 1; CStr (ascii_text "-1.5")]] in
  spec_is_numeric L minus_five = true ∧ is_numeric L minus_five = false ∧
  spec_is_numeric L mixed = true ∧ is_numeric L mixed = false ∧
  MatrixCalculator_compute_properties L numeric_branch symbolic_branch minus_five =
  MatrixCalculator_compute_properties L other symbolic_branch minus_five.
Proof. repeat split. Qed.
End Classifier.

(** ** Scalar parameters of the geometry functions *)

Section SafeFloat.
Context (L : Library).
Import Geometry.
Local Open Scope float_scope.

Lemma safe_float_malformed (v : pyval) : malformed L v → _safe_float L v = Return 0.
Proof.
  intros [-> | [-> | [(s & -> & Hs) | [(l & ->) | (d & ->)]]]]; try reflexivity.
  unfold _safe_float, float_of. rewrite Hs. destruct s; reflexivity.
Qed.

(** Replacing the value under one key by another that [_safe_float]
    reads alike changes nothing of what is read under any key. *)
Lemma safe_get_insert (d : params) (k k' : string) (v w : pyval) :
  _safe_float L v = _safe_float L w →
  _safe_float L (get (<[k := v]> d) k') = _safe_float L (get (<[k := w]> d) k').
Proof.
  intros H. unfold get. destruct (decide (k = k')) as [-> | Hne].
  - rewrite !lookup_insert_eq. exact H.
  - rewrite !lookup_insert_ne by exact Hne. reflexivity.
Qed.

Lemma safe_get0_insert (d : params) (k k' : string) (v w : pyval) :
  _safe_float L v = _safe_float L w →
  _safe_float L (get0 (<[k := v]> d) k') = _safe_float L (get0 (<[k := w]> d) k').
Proof.
  intros H. unfold get0. destruct (decide (k = k')) as [-> | Hne].
  - rewrite !lookup_insert_eq. exact H.
  - rewrite !lookup_insert_ne by exact Hne. reflexivity.
Qed.

Lemma safe_get1_insert (d : params) (k k' : string) (v w : pyval) :
  _safe_float L v = _safe_float L w →
  _safe_float L (get1 (<[k := v]> d) k') = _safe_float L (get1 (<[k := w]> d) k').
Proof.
  intros H. unfold get1. destruct (decide (k = k')) as [-> | Hne].
  - rewrite !lookup_insert_eq. exact H.
  - rewrite !lookup_insert_ne by exact Hne. reflexivity.
Qed.

Lemma contains_insert (d : params) (k k' : string) (v w : pyval) :
  contains (<[k := v]> d) k' = contains (<[k := w]> d) k'.
Proof.
  unfold contains. destruct (decide (k = k')) as [-> | Hne].
  - rewrite !lookup_insert_eq. reflexivity.
  - rewrite !lookup_insert_ne by exact Hne. reflexivity.
Qed.

(** A body that reads the dictionary [d] through [_safe_float] only
    does the same on the two dictionaries. *)
Ltac same_reads d k v w H :=
  rewrite ?(safe_get_insert d k _ v w H), ?(safe_get0_insert d k _ v w H),
    ?(safe_get1_insert d k _ v w H), ?(contains_insert d k _ v w);
  reflexivity.

Lemma same_scalar_same_answer (k : string) (v w : pyval) :
  _safe_float L v = _safe_float L w → answers_alike L k v w.
Proof.
  intros H. unfold answers_alike. cbv zeta. repeat apply conj; intros; repeat apply conj.
  - unfold line_intersection, line_intersection_body. same_reads d k v w H.
  - unfold line_intersection, line_intersection_body. same_reads d k v w H.
  - unfold line_circle_intersection, line_circle_body. same_reads d k v w H.
  - unfold line_circle_intersection, line_circle_body. same_reads d k v w H.
  - unfold circle_circle_intersection, circle_circle_body. same_reads d k v w H.
  - unfold circle_circle_intersection, circle_circle_body. same_reads d k v w H.
  - unfold tangent_from_point, tangent_from_point_body. same_reads d k v w H.
  - unfold tangent_from_point, tangent_from_point_body. same_reads d k v w H.
  - unfold TriangleProperties_analyze, TriangleProperties_analyze_body.
    same_reads d k v w H.
  - unfold TriangleProperties_analyze, TriangleProperties_analyze_body.
    same_reads d k v w H.
  - unfold TriangleProperties_analyze, TriangleProperties_analyze_body.
    same_reads d k v w H.
  - unfold QuadrilateralProperties_analyze, QuadrilateralProperties_analyze_body.
    same_reads d k v w H.
  - unfold QuadrilateralProperties_analyze, QuadrilateralProperties_analyze_body.
    same_reads d k v w H.
  - unfold QuadrilateralProperties_analyze, QuadrilateralProperties_analyze_body.
    same_reads d k v w H.
  - unfold QuadrilateralProperties_analyze, QuadrilateralProperties_analyze_body.
    same_reads d k v w H.
  - unfold ConicAnalyzer_analyze. same_reads d k v w H.
  - unfold transform_2d, transform_2d_body. same_reads d k v w H.
  - unfold transform_2d, transform_2d_body. same_reads d k v w H.
Qed.

(** C8, as the code has it. [_safe_float] turns a missing or malformed
    value ([None], the empty string, a string that is no number, a
    list, a dictionary) into [0.0] without reporting it. The functions
    that read their scalars through it, [line_intersection],
    [line_circle_intersection], [circle_circle_intersection],
    [tangent_from_point], [TriangleProperties.analyze],
    [QuadrilateralProperties.analyze], [ConicAnalyzer.analyze] and
    [transform_2d], called with such a value under any key of any of
    their dictionaries, return what they return for the value [0.0]:
    with a malformed radius, the line x = 0 and the centre (0, 0) the
    answer is [ok], a tangent. *)
Theorem malformed_scalar_reads_as_zero (k : string) (v : pyval) :
  malformed L v →
  _safe_float L v = Return 0 ∧
  answers_alike L k v (PFloat 0) ∧
  status (line_circle_intersection L line_x0 (<["r" := v]> circle_without_radius)) = "ok" ∧
  field "status"
    (payload (line_circle_intersection L line_x0 (<["r" := v]> circle_without_radius)))
    = Some (PStr "tangent").
Proof.
  intros Hv. pose proof (safe_float_malformed v Hv) as H0.
  assert (Ha : ∀ k', answers_alike L k' v (PFloat 0)).
  { intros k'. apply same_scalar_same_answer. rewrite H0. reflexivity. }
  split; [exact H0|]. split; [apply Ha|].
  destruct (Ha "r") as (_ & Hlc & _). cbv zeta in Hlc.
  rewrite (proj2 (Hlc circle_without_radius line_x0)). split; reflexivity.
Qed.
End SafeFloat.

Section SafeFloatExamples.
Import Geometry.
Local Open Scope float_scope.

Lemma malformed_scalar_reads_as_zero_witness :
  malformed Reference.lib (PStr "abc") ∧
  line_circle_intersection Reference.lib line_x0 (<["r" := PStr "abc"]> circle_without_radius) =
  line_circle_intersection Reference.lib line_x0 (<["r" := PFloat 0]> circle_without_radius).
Proof.
  assert (H : malformed Reference.lib (PStr "abc")).
  { right. right. left. exists "abc". split; reflexivity. }
  split; [exact H|].
  destruct (malformed_scalar_reads_as_zero Reference.lib "r" (PStr "abc") H)
    as (_ & (_ & Hlc & _) & _).
  exact (proj2 (Hlc circle_without_radius line_x0)).
Defined.

(** C8 as stated fails: with the radius [None] the call reports no
    error, whatever the libraries are; it answers [ok] with the
    tangent point of a circle of radius 0. *)
Lemma missing_radius_is_not_reported :
  ¬ ∃ L : Library, ∀ line_params circle_params : params,
      get circle_params "r" = PNone →
      status (line_circle_intersection L line_params circle_params) = "error".
Proof.
  intros [L H]. specialize (H line_x0 circle_without_radius eq_refl).
  vm_compute in H. discriminate H.
Qed.
End SafeFloatExamples.

(** ** Circle/circle intersection *)

(** Inverts one [x ← m; k] in a hypothesis [... = Return r], naming the
    value [x]. *)
Tactic Notation "bind_inv" hyp(H) "as" ident(x) :=
  match type of H with
  | mbind _ ?m = Return _ =>
      let E := fresh "E" x in
      destruct m as [x|] eqn:E;
      [ unfold mbind at 1, outcome_bind at 1 in H; cbv beta iota in H
      | discriminate H ]
  end.

(** Replaces the reads of the parameters by their values. *)
Ltac use_reads :=
  repeat match goal with
         | H : reads _ _ _ _ |- _ => unfold reads in H
         | H : Forall2 _ (_ :: _) (_ :: _) |- _ =>
             let R := fresh "R" in apply Forall2_cons_1 in H as [R H]; rewrite ?R
         | H : Forall2 _ [] [] |- _ => clear H
         end.

Section CircleCircle.
Context (L : Library).
Import Geometry.
Local Open Scope float_scope.

(** A centre coordinate read with the default 0 is the same scalar as
    one read with the default [None]. *)
Lemma safe_get0_get (d : params) (k : string) :
  _safe_float L (get0 d k) = _safe_float L (get d k).
Proof. unfold get0, get. destruct (d !! k); reflexivity. Qed.

(** X27. The decisions of [circle_circle_intersection], in the order
    of the code. With d = sqrt((h2 − h1)**2 + (k2 − k1)**2) the
    distance between the centres read from the parameters, a result
    that is computed has status [ok], carries d as its distance, and
    its outcome is: [disjoint_outside] with no point when d > r1 + r2
    (exact); else [disjoint_inside] with no point when d < |r1 − r2|
    (exact); else [coincident] with no point when d = 0 and r1 = r2;
    else [tangent] with one point when d is within 1e-9 of r1 + r2 or
    of |r1 − r2|; else [intersecting] with two points. *)
Theorem circle_circle_decision
    (c1 c2 : params) (h1 k1 r1 h2 k2 r2 dx2 dy2 : float)
    (res : ComputationResult) :
  reads L c1 ["x"; "y"; "r"] [h1; k1; r1] →
  reads L c2 ["x"; "y"; "r"] [h2; k2; r2] →
  PyFloat.pow2 (libm_pow L) (h2 - h1) = Return dx2 →
  PyFloat.pow2 (libm_pow L) (k2 - k1) = Return dy2 →
  circle_circle_body L c1 c2 = Return res →
  let d := sqrt (dx2 + dy2) in
  ∃ (st : string) (points : list pyval),
    status res = "ok" ∧
    circle_circle_intersection L c1 c2 = res ∧
    payload res = [("status", PStr st); ("points", PList points);
                   ("distance", PFloat d)] ∧
    ( ((r1 + r2 <? d) = true ∧ st = "disjoint_outside" ∧ points = [])
    ∨ ((r1 + r2 <? d) = false ∧ (d <? abs (r1 - r2)) = true ∧
       st = "disjoint_inside" ∧ points = [])
    ∨ ((r1 + r2 <? d) = false ∧ (d <? abs (r1 - r2)) = false ∧
       (d =? 0) && (r1 =? r2) = true ∧ st = "coincident" ∧ points = [])
    ∨ ((r1 + r2 <? d) = false ∧ (d <? abs (r1 - r2)) = false ∧
       (d =? 0) && (r1 =? r2) = false ∧ near_tangent d r1 r2 = true ∧
       st = "tangent" ∧ length points = 1%nat)
    ∨ ((r1 + r2 <? d) = false ∧ (d <? abs (r1 - r2)) = false ∧
       (d =? 0) && (r1 =? r2) = false ∧ near_tangent d r1 r2 = false ∧
       st = "intersecting" ∧ length points = 2%nat) ).
Proof.
  intros H1 H2 Hdx Hdy Hres d.
  assert (Hcall : circle_circle_intersection L c1 c2 = res)
    by (unfold circle_circle_intersection; rewrite Hres; reflexivity).
  unfold circle_circle_body in Hres. rewrite !safe_get0_get in Hres.
  use_reads. rewrite R, R1, R3, R0, R2, R4 in Hres.
  unfold mbind at 1 2 3 4 5 6, outcome_bind at 1 2 3 4 5 6 in Hres.
  cbv beta iota in Hres. rewrite Hdx, Hdy in Hres.
  unfold mbind at 1 2, outcome_bind at 1 2 in Hres. cbv beta iota in Hres.
  bind_inv Hres as d'.
  assert (d' = d) as ->.
  { unfold PyFloat.math_sqrt in Ed'. destruct (dx2 + dy2 <? 0); [discriminate|].
    injection Ed' as <-. reflexivity. }
  unfold PyFloat.gtb in Hres.
  destruct (r1 + r2 <? d) eqn:C1;
    [|destruct (d <? abs (r1 - r2)) eqn:C2;
      [|destruct ((d =? 0) && (r1 =? r2)) eqn:C3]].
  + unfold mbind at 1, outcome_bind at 1, mret, outcome_ret in Hres.
    cbv beta iota in Hres. bind_inv Hres as d_latex. injection Hres as <-.
    eexists _, _. repeat (split; [first [reflexivity | exact Hcall]|]). left. auto.
  + unfold mbind at 1, outcome_bind at 1, mret, outcome_ret in Hres.
    cbv beta iota in Hres. bind_inv Hres as d_latex. injection Hres as <-.
    eexists _, _. repeat (split; [first [reflexivity | exact Hcall]|]).
    right; left. auto.
  + unfold mbind at 1, outcome_bind at 1, mret, outcome_ret in Hres.
    cbv beta iota in Hres. bind_inv Hres as d_latex. injection Hres as <-.
    eexists _, _. repeat (split; [first [reflexivity | exact Hcall]|]).
    right; right; left. auto.
  + bind_inv Hres as found. destruct found as [[st step] points].
    bind_inv Hres as d_latex. injection Hres as <-.
    exists st, points. repeat (split; [first [reflexivity | exact Hcall]|]).
    bind_inv Efound as r1sq. bind_inv Efound as r2sq. bind_inv Efound as dsq.
    bind_inv Efound as a. bind_inv Efound as asq. bind_inv Efound as h_val.
    bind_inv Efound as ax. bind_inv Efound as ay.
    bind_inv Efound as hx. bind_inv Efound as hy.
    fold (near_tangent d r1 r2) in Efound.
    destruct (near_tangent d r1 r2) eqn:C4; injection Efound as <- <- <-.
    * right; right; right; left. auto 10.
    * right; right; right; right. auto 10.
Qed.

(** C5. Two circles whose centres (0,0) and (1,0) are 1 apart, with
    radii 0.5 and 0.4999999999: the distance exceeds the sum of the
    radii by less than the tolerance 1e-9, so the classification under
    the tolerance is tangent. [circle_circle_intersection] compares
    [d > r1 + r2] exactly before its tolerance test is reached and
    answers [disjoint_outside] with no point, whatever the library
    functions return. *)
Theorem tolerance_is_dead_above_the_sum :
  let r1 := 0.5 in
  let r2 := 0.4999999999 in
  let r := circle_circle_intersection L (circle_at 0 0 r1) (circle_at 1 0 r2) in
  (r1 + r2 <? 1) = true ∧
  (abs (1 - (r1 + r2)) <? 1e-9) = true ∧
  spec_circle_outcome 1 r1 r2 = "tangent" ∧
  status r = "ok" ∧
  payload r = [("status", PStr "disjoint_outside"); ("points", PList []);
               ("distance", PFloat 1)].
Proof. vm_compute. repeat split; reflexivity. Qed.
End CircleCircle.

Section CircleCircleExamples.
Import Geometry.
Local Open Scope float_scope.

(** Centres (0,0) and (3,4), 5 apart, radii 5 and 3: intersecting, with
    two points. *)
Lemma circle_circle_decision_witness :
  let c1 := circle_at 0 0 5 in
  let c2 := circle_at 3 4 3 in
  reads Reference.lib c1 ["x"; "y"; "r"] [0; 0; 5] ∧
  reads Reference.lib c2 ["x"; "y"; "r"] [3; 4; 3] ∧
  sqrt (9 + 16) = 5 ∧
  ∃ p q, payload (circle_circle_intersection Reference.lib c1 c2) =
           [("status", PStr "intersecting"); ("points", PList [p; q]);
            ("distance", PFloat 5)].
Proof.
  intros c1 c2.
  assert (H1 : reads Reference.lib c1 ["x"; "y"; "r"] [0; 0; 5])
    by (repeat constructor).
  assert (H2 : reads Reference.lib c2 ["x"; "y"; "r"] [3; 4; 3])
    by (repeat constructor).
  assert (Hb : circle_circle_body Reference.lib c1 c2
               = Return (circle_circle_intersection Reference.lib c1 c2))
    by (vm_compute; reflexivity).
  destruct (circle_circle_decision Reference.lib c1 c2 0 0 5 3 4 3 9 16 _
              H1 H2 eq_refl eq_refl Hb) as (st & points & _ & _ & Hp & _).
  repeat split; try assumption.
  vm_compute. eauto.
Defined.
End CircleCircleExamples.

(** ** Conic classification *)

Section Conics.
Context (L : Library).
Import Geometry.
Local Open Scope float_scope.



End Conics.


(** ** Critical points *)

Section CriticalPoints.
Context (L : Library).
Import Calculus.
Local Open Scope float_scope.

Lemma classify_sign (sd : float) :
  ((0 <? sd) = true → (classify sd).1 = "local minimum") ∧
  ((sd <? 0) = true → (classify sd).1 = "local maximum") ∧
  ((sd =? 0) = true → (classify sd).1 = "inflection point").
Proof.
  unfold classify, PyFloat.gtb. repeat split; intros H.
  - rewrite H. reflexivity.
  - destruct (ltb_zero_cases _ H) as [-> _]. rewrite H. reflexivity.
  - destruct (eqb_zero_cases _ H) as [-> ->]. reflexivity.
Qed.

Lemma outside_within (domain : option (float * float)) (x : float) :
  outside domain x = false ↔ within domain x.
Proof.
  unfold outside, within, PyFloat.gtb. destruct domain as [[lo hi]|]; [|tauto].
  rewrite orb_false_iff. tauto.
Qed.

Lemma visit_zero_kept (f f2 cx : Expr L) (domain : option (float * float))
    (p : critical_point) :
  (∃ pp, visit_zero L f f2 cx domain = Kept p pp) ↔
  is_real L cx = Some true ∧
  ∃ x y sd,
    float_evalf L cx = Return x ∧ within domain x ∧
    subs_float_evalf L f cx = Return y ∧ subs_float_evalf L f2 cx = Return sd ∧
    p = point_of x y sd.
Proof.
  setoid_rewrite <- outside_within.
  unfold visit_zero, after_is_real.
  destruct (is_real L cx) as [[|]|].
  2,3: split; [intros [pp H]; discriminate | intros [H _]; discriminate].
  destruct (float_evalf L cx) as [x|e]; simpl.
  2: { split; [intros [pp H]; discriminate|].
       intros (_ & x & y & sd & H & _). discriminate. }
  destruct (outside domain x) eqn:Hout; simpl.
  { split; [intros [pp H]; discriminate|].
    intros (_ & x' & y & sd & [= <-] & H & _). congruence. }
  destruct (subs_float_evalf L f cx) as [y|e]; simpl.
  2: { split; [intros [pp H]; discriminate|].
       intros (_ & x' & y & sd & _ & _ & H & _). discriminate. }
  destruct (subs_float_evalf L f2 cx) as [sd|e]; simpl.
  2: { split; [intros [pp H]; discriminate|].
       intros (_ & x' & y' & sd & _ & _ & _ & H & _). discriminate. }
  unfold point_of. destruct (classify sd) as [classification color] eqn:Hc; simpl.
  split.
  - intros [pp [= <- _]]. split; [reflexivity|]. exists x, y, sd.
    rewrite Hc. repeat split; auto.
  - intros (_ & x' & y' & sd' & [= <-] & _ & [= <-] & [= <-] & ->).
    rewrite Hc. eauto.
Qed.

Lemma collected_points (f f2 : Expr L) (domain : option (float * float))
    (zeros : list (Expr L)) (p : critical_point) :
  In p (collected L f f2 domain zeros).1 ↔
  ∃ cx pp, In cx zeros ∧ visit_zero L f f2 cx domain = Kept p pp.
Proof.
  induction zeros as [|cx rest IH]; simpl.
  - split; [tauto | intros (? & ? & [] & _)].
  - destruct (collected L f f2 domain rest) as [points plot_points]. simpl in IH.
    destruct (visit_zero L f f2 cx domain) as [|q [pp|]] eqn:Hv; simpl.
    + rewrite IH. split.
      * intros (cx' & pp & Hin & H). eauto.
      * intros (cx' & pp & [<- | Hin] & H); [congruence | eauto].
    + rewrite IH. split.
      * intros [<- | (cx' & pp' & Hin & H)]; eauto 6.
      * intros (cx' & pp' & [<- | Hin] & H); [left; congruence | right; eauto].
    + rewrite IH. split.
      * intros [<- | (cx' & pp' & Hin & H)]; eauto 6.
      * intros (cx' & pp' & [<- | Hin] & H); [left; congruence | right; eauto].
Qed.

(** Over a list of zeros the loop ends after one turn per zero and one
    more call of [next], with what the turns collected. *)
Lemma scan_collected (f f2 : Expr L) domain zeros (fuel i : nat) :
  (length zeros - i < fuel)%nat →
  scan L fuel f f2 domain (Iterable zeros None) i
    = Some (Return (collected L f f2 domain (drop i zeros))).
Proof.
  revert i. induction fuel as [|fuel IH]; intros i Hlt; [lia|].
  simpl. destruct (zeros !! i) as [cx|] eqn:E.
  - pose proof (lookup_lt_Some _ _ _ E).
    rewrite IH by lia. rewrite (drop_S _ _ _ E). simpl.
    destruct (collected L f f2 domain (drop (S i) zeros)) as [points plot_points].
    destruct (visit_zero L f f2 cx domain) as [|q [pp|]]; reflexivity.
  - apply lookup_ge_None in E. rewrite drop_ge by lia. reflexivity.
Qed.

Lemma critical_points_payload (expression : string) (f f1 f2 : Expr L)
    (domain : option (float * float)) (zeros : list (Expr L)) (fuel : nat) :
  solveset_x_reals L f1 = Return (Iterable zeros None) →
  (length zeros < fuel)%nat →
  let points := (collected L f f2 domain zeros).1 in
  ∃ r, critical_points L fuel {| expression := expression; state := Valid L f f1 f2 |}
         domain = Some r ∧
       (status r = "ok" → payload r = [("points", PList (point_payload <$> points))]) ∧
       ((∃ more, point_steps L points = Return more) → status r = "ok").
Proof.
  intros Hs Hlt points. unfold critical_points, critical_points_body, critical_set.
  simpl. rewrite Hs. rewrite scan_collected by lia. rewrite drop_0.
  subst points. destruct (collected L f f2 domain zeros) as [points plot_points].
  simpl. unfold after_loop.
  destruct (point_steps L points) as [more|err]; simpl.
  - eexists. split; [reflexivity|]. split; intros _; reflexivity.
  - eexists. split; [reflexivity|]. split.
    + intros H. discriminate H.
    + intros [more H]. discriminate H.
Qed.

(** C4. Where the zeros of the derivative are finitely many, [zeros],
    the call returns and the critical points it reports are exactly
    the zeros that are real and that the optional domain [lo, hi] does
    not exclude (x neither below lo nor above hi), each with the second
    derivative evaluated at it: a positive value is labelled
    [local minimum], a negative one [local maximum], zero
    [inflection point]. A zero that is not known to be real contributes
    nothing. For f(x) = x**2, whose derivative has the single real zero
    0 and whose second derivative is 2 there, the result on [-2, 2] is
    exactly one critical point, at x = 0, classified [local minimum],
    and on a domain that excludes 0 it is no point. Where the zeros of
    the derivative are an infinite iterable the call does not return,
    also when some of them lie in the domain. *)
Theorem critical_points_classified (expression : string) (f f1 f2 : Expr L)
    (domain : option (float * float)) :
  let an := {| expression := expression; state := Valid L f f1 f2 |} in
  (∀ sd,
     ((0 <? sd) = true → (classify sd).1 = "local minimum") ∧
     ((sd <? 0) = true → (classify sd).1 = "local maximum") ∧
     ((sd =? 0) = true → (classify sd).1 = "inflection point")) ∧
  (∀ zeros,
     solveset_x_reals L f1 = Return (Iterable zeros None) →
     ∃ points,
       (∀ p, In p points ↔
          ∃ cx x y sd,
            In cx zeros ∧ is_real L cx = Some true ∧
            float_evalf L cx = Return x ∧ within domain x ∧
            subs_float_evalf L f cx = Return y ∧
            subs_float_evalf L f2 cx = Return sd ∧
            p = {| cp_x := x; cp_y := y; cp_type := (classify sd).1;
                   cp_second_derivative := sd |}) ∧
       ∀ fuel, (length zeros < fuel)%nat →
         ∃ r, critical_points L fuel an domain = Some r ∧
              (status r = "ok" →
                 payload r = [("points", PList (point_payload <$> points))]) ∧
              ((∃ more, point_steps L points = Return more) → status r = "ok")) ∧
  (∀ element,
     solveset_x_reals L f1 = Return (Endless element) →
     ∀ fuel, critical_points L fuel an domain = None) ∧
  (∀ e e1 e2 z,
     sympify L "x**2" = Return e → lambdify_x L e = Return tt →
     diff_x L e = Return e1 → lambdify_x L e1 = Return tt →
     diff_x L e1 = Return e2 → lambdify_x L e2 = Return tt →
     solveset_x_reals L e1 = Return (Iterable [z] None) →
     is_real L z = Some true → float_evalf L z = Return 0 →
     subs_float_evalf L e z = Return 0 → subs_float_evalf L e2 z = Return 2 →
     ∀ fuel, (2 ≤ fuel)%nat →
       (∃ r, find_critical_points L fuel "x**2" (Some (-2, 2)) = Some r ∧
             status r = "ok" ∧
             payload r =
               [("points",
                 PList [PDict [("x", PFloat 0); ("y", PFloat 0);
                               ("type", PStr "local minimum");
                               ("second_derivative", PFloat 2)]])]) ∧
       (∀ lo hi, (0 <? lo) = true ∨ (hi <? 0) = true →
          ∃ r, find_critical_points L fuel "x**2" (Some (lo, hi)) = Some r ∧
               status r = "ok" ∧ payload r = [("points", PList [])])).
Proof.
  intros an. split; [exact classify_sign|]. split; [|split].
  - intros zeros Hs. exists (collected L f f2 domain zeros).1. split.
    + intros p. rewrite collected_points. split.
      * intros (cx & pp & Hin & Hv).
        destruct (proj1 (visit_zero_kept f f2 cx domain p) (ex_intro _ pp Hv))
          as (Hr & x & y & sd & H1 & H2 & H3 & H4 & ->).
        exists cx, x, y, sd. auto 10.
      * intros (cx & x & y & sd & Hin & Hr & H1 & H2 & H3 & H4 & ->).
        destruct (proj2 (visit_zero_kept f f2 cx domain (point_of x y sd)))
          as [pp Hv]; [eauto 10|].
        exists cx, pp. auto.
    + intros fuel Hlt. apply (critical_points_payload _ _ _ _ _ _ _ Hs Hlt).
  - intros element Hs fuel. unfold critical_points, critical_points_body, critical_set.
    simpl. rewrite Hs. rewrite scan_endless. reflexivity.
  - intros e e1 e2 z He Hl He1 Hl1 He2 Hl2 Hs Hr Hx Hy Hsd fuel Hfuel.
    assert (Hfind : ∀ d, find_critical_points L fuel "x**2" d
                         = critical_points L fuel
                             {| expression := "x**2"; state := Valid L e e1 e2 |} d).
    { intros d. unfold find_critical_points, new_FunctionAnalyzer, is_valid, post_init.
      cbn [state]. rewrite He. cbn [mbind outcome_bind]. rewrite Hl.
      cbn [mbind outcome_bind]. rewrite He1. cbn [mbind outcome_bind]. rewrite Hl1.
      cbn [mbind outcome_bind]. rewrite He2. cbn [mbind outcome_bind]. rewrite Hl2.
      reflexivity. }
    assert (Hbody : ∀ d, critical_points L fuel
                             {| expression := "x**2"; state := Valid L e e1 e2 |} d
                         = Some (try_except
                                   (after_loop L
                                      [ "Given: f(x) = " +:+ "x**2";
                                        "f'(x) = " +:+ sympy_latex L e1 ]
                                      [("derivative_zero",
                                        "f'(x) = " +:+ sympy_latex L e1 +:+ " = 0")]
                                      (collected L e e2 d [z]).1
                                      (collected L e e2 d [z]).2)
                                   (λ err, create_error_result "critical_points"
                                             (str_exn err)))).
    { intros d. unfold critical_points, critical_points_body, critical_set.
      cbn [Calculus.state Calculus.expression]. rewrite Hs. rewrite scan_collected by (simpl; lia).
      rewrite drop_0. destruct (collected L e e2 d [z]); reflexivity. }
    split.
    + rewrite Hfind, Hbody. eexists. split; [reflexivity|].
      unfold collected. cbn [foldr]. unfold visit_zero. rewrite Hr.
      unfold after_is_real. rewrite Hx. cbn [mbind outcome_bind].
      change (outside (Some (-2, 2)) 0) with false. cbv iota.
      rewrite Hy. cbn [mbind outcome_bind]. rewrite Hsd. cbn [mbind outcome_bind].
      change (classify 2) with ("local minimum", "#22c55e"). cbv iota beta.
      vm_compute. split; reflexivity.
    + intros lo hi Hout. rewrite Hfind, Hbody. eexists. split; [reflexivity|].
      unfold collected. cbn [foldr]. unfold visit_zero. rewrite Hr.
      unfold after_is_real. rewrite Hx. cbn [mbind outcome_bind].
      assert (outside (Some (lo, hi)) 0 = true) as ->.
      { unfold outside, PyFloat.gtb. destruct Hout as [-> | ->];
          [reflexivity | apply orb_true_r]. }
      split; reflexivity.
Qed.
End CriticalPoints.

(** x**2 on the reference libraries: the derivative 2x has the zero 0,
    which lies in [-2, 2] and not in [1, 2]. *)
Lemma critical_points_classified_witness :
  Calculus.find_critical_points Reference.lib 2 "x**2" (Some (1, 2)%float) ≠ None ∧
  (payload <$> Calculus.find_critical_points Reference.lib 2 "x**2" (Some (1, 2)%float))
    = Some [("points", PList [])] ∧
  (payload <$> Calculus.find_critical_points Reference.lib 2 "x**2" (Some (-2, 2)%float))
    = Some [("points",
             PList [PDict [("x", PFloat 0); ("y", PFloat 0);
                           ("type", PStr "local minimum");
                           ("second_derivative", PFloat 2)]])].
Proof.
  pose proof (critical_points_classified Reference.lib "x**2" [0; 0; 1]%float
                [0; 2]%float [2]%float None) as H.
  cbv zeta in H. destruct H as (_ & _ & _ & H).
  destruct (H [0; 0; 1]%float [0; 2]%float [2]%float [(- 0 / 2)]%float
              eq_refl eq_refl eq_refl eq_refl eq_refl eq_refl eq_refl eq_refl
              eq_refl eq_refl eq_refl 2%nat (le_n 2))
    as [(r & Hr & _ & Hp) Hout].
  destruct (Hout 1 2 (or_introl eq_refl))%float as (r' & Hr' & _ & Hp').
  rewrite Hr, Hr'. simpl. rewrite Hp, Hp'. repeat split. discriminate.
Defined.

(** ** Matrix inversion *)

Section MatrixInverse.
Context (L : Library).
Import Matrices.
Local Open Scope float_scope.





End MatrixInverse.

Section MatrixInverseExamples.
Import Matrices.
Local Open Scope float_scope.

End MatrixInverseExamples.

(** * Further properties of the engine *)

(** ** Number formatting *)

Section Formatting.
Context (L : Library).
Local Open Scope float_scope.

(** X1. [format_latex_number] fails exactly on the numbers that are not
    finite: [OverflowError] on an infinity, [ValueError] on [nan], both
    raised by [int]. On every finite number it returns a text: the
    decimal integer [int(num)] for a whole number (so [-0.0] prints as
    [0]), the number to four significant digits otherwise. *)
Theorem format_latex_number_outcomes (num : float) :
  (is_infinity num = true →
     format_latex_number L num
       = Raise (Exn OverflowError "cannot convert float infinity to integer")) ∧
  (is_nan num = true →
     format_latex_number L num
       = Raise (Exn ValueError "cannot convert float NaN to integer")) ∧
  (finite num →
     ∃ n, PyFloat.to_int num = Return n ∧
          format_latex_number L num =
            Return (if PyFloat.is_integral num then pretty n
                    else float_fmt L ".4g" num)) ∧
  format_latex_number L (-0) = Return "0".
Proof.
  unfold format_latex_number. repeat split.
  - intros [s H]%is_infinity_spec. unfold PyFloat.to_int. rewrite H. reflexivity.
  - intros H%is_nan_spec. unfold PyFloat.to_int. rewrite H. reflexivity.
  - intros [n H]%to_int_finite. exists n. split; [exact H|]. rewrite H.
    simpl. destruct (PyFloat.is_integral num); reflexivity.
Qed.
End Formatting.

(** ** [_safe_float] *)

Section SafeFloatRange.
Context (L : Library).
Import Geometry.
Local Open Scope float_scope.

(** X2. [_safe_float] hands a float back unchanged and returns a float
    for every other value but one kind: an [int] too large for a float,
    where [float] raises [OverflowError], which the helper does not
    catch (it catches [ValueError] and [TypeError] only). The integer
    2^1024 is such a value. *)
Theorem safe_float_escapes_only_on_huge_int (val : pyval) :
  (∀ x, _safe_float L (PFloat x) = Return x) ∧
  (∀ e, _safe_float L val = Raise e →
     ∃ n, val = PInt n ∧ PyFloat.of_int n = Raise e ∧ exn_kind e = OverflowError) ∧
  (∃ e, _safe_float L (PInt (2 ^ 1024)) = Raise e ∧ exn_kind e = OverflowError).
Proof.
  split; [reflexivity|]. split.
  - intros e H. destruct val as [|b|n|x|s|l|d]; try discriminate H.
    + exists n. unfold _safe_float, float_of in H.
      destruct (PyFloat.of_int n) as [x|e'] eqn:E; [discriminate H|].
      pose proof E as E'. unfold PyFloat.of_int in E'.
      destruct (is_infinity _); [|discriminate E']. injection E' as <-.
      simpl in H. injection H as <-. repeat split; exact E.
    + unfold _safe_float, float_of in H. destruct s; [discriminate H|].
      destruct (float_of_str L _); discriminate H.
  - eexists. split; [vm_compute; reflexivity|reflexivity].
Qed.
End SafeFloatRange.

(** ** Heron's formula *)

Section Heron.
Context (L : Library).
Import Geometry.
Local Open Scope float_scope.

Lemma fmt_side_returns (x : float) : ∃ s, fmt_side L x = Return s.
Proof.
  unfold fmt_side. destruct (PyFloat.is_integral x) eqn:E; simpl; [|eauto].
  apply integral_finite, to_int_finite in E as [n ->]. simpl. eauto.
Qed.

Lemma not_finite_to_int (x : float) : ¬ finite x → ∃ e, PyFloat.to_int x = Raise e.
Proof.
  intros H. destruct (PyFloat.to_int x) as [n|e] eqn:E; [|eauto].
  destruct H. apply to_int_finite. eauto.
Qed.

(** X8. [herons_formula] refuses the sides exactly when
    s(s-a)(s-b)(s-c), computed in binary64, is negative, with the
    triangle-inequality message under the operation [heron]. In every
    other case it takes the square root and answers [ok] under the
    operation [mensuration_heron], unless the area is infinite or
    [nan], which fails in the formatting. Nothing else is checked:
    the degenerate sides (1, 2, 3) give area 0 and the negative sides
    (-3, -4, -5) give area 6. *)
Theorem herons_formula_outcomes (a b c : float) :
  let s_val := (a + b + c) / 2 in
  let area_sq := s_val * (s_val - a) * (s_val - b) * (s_val - c) in
  let r := herons_formula L a b c in
  ((area_sq <? 0) = true →
     r = create_error_result "heron"
           "The given sides do not form a valid triangle (triangle inequality violated).") ∧
  ((area_sq <? 0) = false → finite (sqrt area_sq) →
     status r = "ok" ∧ operation r = "mensuration_heron" ∧
     payload r = [("area", PFloat (sqrt area_sq)); ("s", PFloat s_val)]) ∧
  ((area_sq <? 0) = false → ¬ finite (sqrt area_sq) →
     ∃ e, PyFloat.to_int (sqrt area_sq) = Raise e ∧
          r = create_error_result "heron" (str_exn e)) ∧
  payload (herons_formula L 1 2 3) = [("area", PFloat 0); ("s", PFloat 3)] ∧
  payload (herons_formula L (-3) (-4) (-5)) = [("area", PFloat 6); ("s", PFloat (-6))].
Proof.
  intros s_val area_sq r. subst r.
  unfold herons_formula, herons_formula_body, PyFloat.math_sqrt, format_latex_number.
  fold s_val. fold area_sq. split; [|split; [|split; [|split]]].
  - intros ->. reflexivity.
  - intros -> [n Hn]%to_int_finite. cbn [mbind outcome_bind].
    destruct (fmt_side_returns s_val) as [ss ->], (fmt_side_returns a) as [sa ->],
      (fmt_side_returns b) as [sb ->], (fmt_side_returns c) as [sc ->].
    cbn [mbind outcome_bind]. rewrite Hn. simpl.
    destruct (PyFloat.is_integral _); repeat split.
  - intros -> [e He]%not_finite_to_int. exists e. split; [exact He|].
    cbn [mbind outcome_bind].
    destruct (fmt_side_returns s_val) as [ss ->], (fmt_side_returns a) as [sa ->],
      (fmt_side_returns b) as [sb ->], (fmt_side_returns c) as [sc ->].
    cbn [mbind outcome_bind]. rewrite He. reflexivity.
  - reflexivity.
  - reflexivity.
Qed.
End Heron.

(** ** Intersection of two lines *)

Section LineIntersection.
Context (L : Library).
Import Geometry.
Local Open Scope float_scope.

Lemma zero_below_tolerance (x t : float) :
  (x =? 0) = true → (0 <? t) = true → (abs x <? t) = true.
Proof. intros [-> | ->]%eqb_zero_inv H; exact H. Qed.

Lemma not_below_tolerance_nonzero (x : float) :
  (abs x <? 1e-9) = false → (x =? 0) = false.
Proof.
  intros H. destruct (x =? 0) eqn:E; [|reflexivity].
  rewrite (zero_below_tolerance x 1e-9 E eq_refl) in H. discriminate.
Qed.

(** X3. [line_intersection] decides on the determinant
    D = a1 b2 - a2 b1 under the tolerance 1e-9. When |D| < 1e-9 a
    successful answer is [parallel] or [coincident] and carries no
    point. Otherwise the point is the one of Cramer's rule, the
    division by D never fails, and the answer is [ok] exactly when both
    coordinates are finite. *)
Theorem line_intersection_outcomes (l1 l2 : params) (a1 b1 c1 a2 b2 c2 : float) :
  reads L l1 ["a"; "b"; "c"] [a1; b1; c1] →
  reads L l2 ["a"; "b"; "c"] [a2; b2; c2] →
  let det := a1 * b2 - a2 * b1 in
  let x := (b1 * c2 - b2 * c1) / det in
  let y := (c1 * a2 - c2 * a1) / det in
  let r := line_intersection L l1 l2 in
  ((abs det <? 1e-9) = true → status r = "ok" →
     payload r = [("status", PStr "parallel")] ∨
     payload r = [("status", PStr "coincident")]) ∧
  ((abs det <? 1e-9) = false → finite x → finite y →
     status r = "ok" ∧
     payload r = [("status", PStr "intersecting"); ("point", point_dict x y)]) ∧
  ((abs det <? 1e-9) = false → ¬ (finite x ∧ finite y) → status r = "error").
Proof.
  intros H1 H2 det x y r. subst r.
  unfold line_intersection, line_intersection_body. use_reads.
  cbn [mbind outcome_bind]. fold det. split; [|split].
  - intros -> Hok.
    destruct (PyFloat.pow2 (libm_pow L) a1) as [p|]; [|discriminate Hok].
    destruct (PyFloat.pow2 (libm_pow L) b1) as [q|]; [|discriminate Hok].
    cbn [mbind outcome_bind] in *.
    destruct (PyFloat.gtb (p + q) 0).
    + destruct (PyFloat.math_sqrt (p + q)) as [root|]; [|discriminate Hok].
      cbn [mbind outcome_bind] in *.
      destruct (PyFloat.div _ root) as [dist|]; [|discriminate Hok].
      cbn [mbind outcome_bind] in *. simpl.
      destruct (dist <? 1e-9); auto.
    + right. reflexivity.
  - intros Hdet Hx Hy. rewrite Hdet. unfold PyFloat.div.
    rewrite (not_below_tolerance_nonzero det Hdet). cbn [mbind outcome_bind].
    fold x. fold y. unfold format_latex_number.
    apply to_int_finite in Hx as [n ->]. apply to_int_finite in Hy as [n' ->].
    simpl. destruct (PyFloat.is_integral x), (PyFloat.is_integral y); split; reflexivity.
  - intros Hdet Hfin. rewrite Hdet. unfold PyFloat.div.
    rewrite (not_below_tolerance_nonzero det Hdet). cbn [mbind outcome_bind].
    fold x. fold y. unfold format_latex_number.
    destruct (PyFloat.to_int x) as [n|e] eqn:Ex; [|reflexivity].
    destruct (PyFloat.to_int y) as [n'|e] eqn:Ey.
    + destruct Hfin. split; apply to_int_finite; eauto.
    + simpl. destruct (PyFloat.is_integral x); reflexivity.
Qed.

Lemma zero_times_finite (z x : float) :
  (z =? 0) = true → finite x → (z * x =? 0) = true ∧ (x * z =? 0) = true.
Proof.
  intros Hz Hx. rewrite !FloatAxioms.eqb_spec, !mul_spec, Prim2SF_zero.
  apply finite_spec in Hx.
  assert (∃ s, Prim2SF z = S754_zero s) as [sz ->].
  { destruct (eqb_zero_inv z Hz) as [-> | ->]; eexists; reflexivity. }
  destruct Hx as [[s ->] | (s & m & e & ->)]; split; reflexivity.
Qed.

Lemma zero_minus_zero (u v : float) :
  (u =? 0) = true → (v =? 0) = true → (u - v =? 0) = true.
Proof. intros [-> | ->]%eqb_zero_inv [-> | ->]%eqb_zero_inv; reflexivity. Qed.

Lemma pow2_zero (z : float) :
  (z =? 0) = true → PyFloat.pow2 (libm_pow L) z = Return 0.
Proof. intros [-> | ->]%eqb_zero_inv; reflexivity. Qed.

(** X4. A first line without direction, a1 = b1 = 0 (all its
    coefficients missing, for instance), is reported [coincident] with
    every line of finite coefficients, whatever the constants c1 and
    c2: the determinant is zero, and the distance between the lines is
    taken to be 0 when a1² + b1² is not positive. *)
Theorem directionless_line_is_coincident
    (l1 l2 : params) (a1 b1 c1 a2 b2 c2 : float) :
  reads L l1 ["a"; "b"; "c"] [a1; b1; c1] →
  reads L l2 ["a"; "b"; "c"] [a2; b2; c2] →
  (a1 =? 0) = true → (b1 =? 0) = true → finite a2 → finite b2 →
  status (line_intersection L l1 l2) = "ok" ∧
  payload (line_intersection L l1 l2) = [("status", PStr "coincident")].
Proof.
  intros H1 H2 Ha Hb Fa Fb.
  unfold line_intersection, line_intersection_body. use_reads.
  cbn [mbind outcome_bind].
  assert (Hdet : (abs (a1 * b2 - a2 * b1) <? 1e-9) = true).
  { apply zero_below_tolerance; [|reflexivity]. apply zero_minus_zero.
    - apply (zero_times_finite a1 b2 Ha Fb).
    - apply (zero_times_finite b1 a2 Hb Fa). }
  rewrite Hdet, (pow2_zero a1 Ha), (pow2_zero b1 Hb). split; reflexivity.
Qed.
End LineIntersection.

Section LineIntersectionExamples.
Import Geometry.
Local Open Scope float_scope.

(** The lines x + y - 2 = 0 and x - y = 0 meet at (1, 1). *)
Lemma line_intersection_outcomes_witness :
  payload (line_intersection Reference.lib (line_of 1 1 (-2)) (line_of 1 (-1) 0))
    = [("status", PStr "intersecting"); ("point", point_dict 1 1)].
Proof.
  assert (H1 : reads Reference.lib (line_of 1 1 (-2)) ["a"; "b"; "c"] [1; 1; -2])
    by (repeat constructor).
  assert (H2 : reads Reference.lib (line_of 1 (-1) 0) ["a"; "b"; "c"] [1; -1; 0])
    by (repeat constructor).
  pose proof (line_intersection_outcomes Reference.lib _ _ _ _ _ _ _ _ H1 H2) as H.
  cbv zeta in H. destruct H as (_ & H & _).
  exact (proj2 (H eq_refl eq_refl eq_refl)).
Defined.

(** No coefficient given for the first line; the second is x + y = 1. *)
Lemma directionless_line_is_coincident_witness :
  payload (line_intersection Reference.lib ∅ (line_of 1 1 (-1)))
    = [("status", PStr "coincident")].
Proof.
  assert (H1 : reads Reference.lib ∅ ["a"; "b"; "c"] [0; 0; 0]) by (repeat constructor).
  assert (H2 : reads Reference.lib (line_of 1 1 (-1)) ["a"; "b"; "c"] [1; 1; -1])
    by (repeat constructor).
  exact (proj2 (directionless_line_is_coincident Reference.lib _ _ _ _ _ _ _ _ H1 H2
                  eq_refl eq_refl eq_refl eq_refl)).
Defined.
End LineIntersectionExamples.

(** ** Tangents from a point *)

Section Tangents.
Context (L : Library).
Import Geometry.
Local Open Scope float_scope.

(** A call that answers [ok] is a body that returned. *)
Lemma try_except_ok (body : outcome ComputationResult) (op : string)
    (message : exn → string) :
  status (try_except body (λ e, create_error_result op (message e))) = "ok" →
  ∃ res, body = Return res ∧ status res = "ok" ∧
         try_except body (λ e, create_error_result op (message e)) = res.
Proof. destruct body as [res|e]; simpl; [eauto|discriminate]. Qed.

Lemma slopes_at_most_two (quad_a quad_b quad_c D_quad : float) (ms : list float) :
  slopes quad_a quad_b quad_c D_quad = Return ms → (length ms ≤ 2)%nat.
Proof.
  unfold slopes. intros H.
  destruct (abs quad_a <? 1e-9); [destruct (PyFloat.gtb _ _)|destruct (PyFloat.geb _ _)].
  - bind_inv H as m. injection H as <-. simpl. lia.
  - injection H as <-. simpl. lia.
  - bind_inv H as root1. bind_inv H as m1. bind_inv H as root2. bind_inv H as m2.
    injection H as <-. simpl. lia.
  - injection H as <-. simpl. lia.
Qed.

(** X5. How many tangents [tangent_from_point] lists is decided by
    where the point lies. With dist = sqrt((px − h)**2 + (py − k)**2)
    the distance of the point from the centre, an [ok] answer has
    status [inside] and no tangent when dist < r; else status
    [on_circle] and exactly one tangent, the line
    (px − h) x + (py − k) y + c = 0, when |dist − r| < 1e-9; else
    status [outside] and never more than two tangents: the vertical
    tangent is added only while fewer than two slopes were found. The
    count given in the LaTeX block is the number of tangents listed. *)
Theorem tangent_count (p_params c_params : params)
    (px py h k r dxsq dysq : float) :
  reads L p_params ["x"; "y"] [px; py] →
  reads L c_params ["h"; "k"; "r"] [h; k; r] →
  PyFloat.pow2 (libm_pow L) (px - h) = Return dxsq →
  PyFloat.pow2 (libm_pow L) (py - k) = Return dysq →
  let dist := sqrt (dxsq + dysq) in
  let res := tangent_from_point L p_params c_params in
  status res = "ok" →
  ∃ (st : string) (tangents : list pyval),
    payload res = [("status", PStr st); ("tangents", PList tangents)] ∧
    latex res = [("Status", "\text{" +:+ st +:+ "}");
                 ("Count", pretty (length tangents))] ∧
    ((dist <? r) = true → st = "inside" ∧ tangents = []) ∧
    ((dist <? r) = false → (abs (dist - r) <? 1e-9) = true →
       st = "on_circle" ∧
       ∃ rsq, PyFloat.pow2 (libm_pow L) r = Return rsq ∧
         tangents = [PDict [("a", PFloat (px - h)); ("b", PFloat (py - k));
                            ("c", PFloat (- (px - h) * h - (py - k) * k - rsq))]]) ∧
    ((dist <? r) = false → (abs (dist - r) <? 1e-9) = false →
       st = "outside" ∧ (length tangents ≤ 2)%nat).
Proof.
  intros Hp Hc Hdx Hdy dist res Hok. subst res. unfold tangent_from_point in *.
  apply try_except_ok in Hok as (res & Hres & _ & ->).
  unfold tangent_from_point_body in Hres. rewrite !safe_get0_get in Hres.
  use_reads. rewrite R, R0, R1, R2, R3 in Hres.
  unfold mbind at 1 2 3 4 5, outcome_bind at 1 2 3 4 5 in Hres.
  cbv beta iota in Hres. rewrite Hdx, Hdy in Hres.
  unfold mbind at 1 2, outcome_bind at 1 2 in Hres. cbv beta iota in Hres.
  bind_inv Hres as dist'.
  assert (dist' = dist) as ->.
  { unfold PyFloat.math_sqrt in Edist'. destruct (dxsq + dysq <? 0); [discriminate|].
    injection Edist' as <-. reflexivity. }
  bind_inv Hres as found.
  destruct found as [[st tangents] more]. injection Hres as <-.
  exists st, tangents. split; [reflexivity|]. split; [reflexivity|].
  destruct (dist <? r); [|destruct (abs (dist - r) <? 1e-9)].
  - injection Efound as <- <- <-.
    split; [auto|]. split; intros; discriminate.
  - bind_inv Efound as rsq. injection Efound as <- <- <-.
    split; [intros; discriminate|]. split; [|intros; discriminate].
    intros _ _. split; [reflexivity|]. exists rsq. split; reflexivity.
  - bind_inv Efound as dx2. bind_inv Efound as r2. bind_inv Efound as dy2.
    bind_inv Efound as quad_b2. bind_inv Efound as ms.
    injection Efound as <- <- <-.
    split; [intros; discriminate|]. split; [intros; discriminate|].
    intros _ _. split; [reflexivity|].
    apply slopes_at_most_two in Ems.
    rewrite length_app, length_fmap.
    destruct (abs (abs (h - px) - r) <? 1e-9); simpl; [|lia].
    destruct (length ms <? 2)%nat eqn:E; simpl; [|lia].
    apply Nat.ltb_lt in E. lia.
Qed.

(** X6. [tangent_from_point] takes the centre of the circle from the
    keys [h] and [k] alone, 0 when they are missing: the keys [x] and
    [y], which [line_circle_intersection] falls back to, are ignored.
    For the line x = 0 and a circle of radius 1 given without [h],
    setting [x] to 5 changes the answer of [line_circle_intersection]. *)
Theorem tangent_centre_from_h_and_k_only (p_params c_params : params) (v : pyval) :
  tangent_from_point L p_params (<["x" := v]> c_params)
    = tangent_from_point L p_params c_params ∧
  tangent_from_point L p_params (<["y" := v]> c_params)
    = tangent_from_point L p_params c_params ∧
  payload (line_circle_intersection L (line_of 1 0 0) (<["x" := PFloat 5]> {[ "r" := PFloat 1 ]}))
    ≠ payload (line_circle_intersection L (line_of 1 0 0) {[ "r" := PFloat 1 ]}).
Proof.
  split; [|split].
  - unfold tangent_from_point, tangent_from_point_body, get0, get.
    rewrite !lookup_insert_ne by discriminate. reflexivity.
  - unfold tangent_from_point, tangent_from_point_body, get0, get.
    rewrite !lookup_insert_ne by discriminate. reflexivity.
  - vm_compute. discriminate.
Qed.
End Tangents.

Section TangentExamples.
Import Geometry.
Local Open Scope float_scope.

(** The point (1, 0) on the unit circle, at distance 1 from the centre:
    the one tangent x − 1 = 0. *)
Lemma tangent_count_witness :
  reads Reference.lib (point_at 1 0) ["x"; "y"] [1; 0] ∧
  reads Reference.lib (circle_hkr 0 0 1) ["h"; "k"; "r"] [0; 0; 1] ∧
  sqrt (1 + 0) = 1 ∧ (1 <? 1) = false ∧ (abs (1 - 1) <? 1e-9) = true ∧
  status (tangent_from_point Reference.lib (point_at 1 0) (circle_hkr 0 0 1)) = "ok" ∧
  payload (tangent_from_point Reference.lib (point_at 1 0) (circle_hkr 0 0 1))
    = [("status", PStr "on_circle");
       ("tangents", PList [PDict [("a", PFloat 1); ("b", PFloat 0);
                                  ("c", PFloat (-1))]])].
Proof.
  assert (H1 : reads Reference.lib (point_at 1 0) ["x"; "y"] [1; 0])
    by (repeat constructor).
  assert (H2 : reads Reference.lib (circle_hkr 0 0 1) ["h"; "k"; "r"] [0; 0; 1])
    by (repeat constructor).
  destruct (tangent_count Reference.lib (point_at 1 0) (circle_hkr 0 0 1)
              1 0 0 0 1 1 0 H1 H2 eq_refl eq_refl eq_refl)
    as (st & tangents & Hp & _ & _ & Hon & _).
  destruct (Hon eq_refl eq_refl) as (-> & rsq & Hrsq & ->).
  injection Hrsq as <-.
  repeat split; try assumption.
Defined.
End TangentExamples.

(** ** Triangles *)

Section TriangleFacts.
Local Open Scope float_scope.

Lemma binary_round_aux_sign (prec emax : Z) (sx : bool) (mx ex : Z) (lx : location) :
  let r := binary_round_aux prec emax sx mx ex lx in
  r = S754_zero sx ∨ (∃ m e, r = S754_finite sx m e) ∨ r = S754_infinity sx ∨ r = S754_nan.
Proof.
  unfold binary_round_aux.
  destruct (shr_fexp prec emax mx ex lx) as [mrs' e'].
  destruct (shr_fexp prec emax _ e' loc_Exact) as [mrs'' e''].
  destruct (shr_m mrs''); [|destruct (Z.leb _ _)|]; eauto.
Qed.

(** Half an absolute value that lies below a bound is a finite number. *)
Lemma half_abs_below_finite (e t : float) :
  (0.5 * abs e <? t) = true → finite (0.5 * abs e).
Proof.
  rewrite finite_spec, ltb_spec, mul_spec, abs_spec. unfold SFltb.
  change (Prim2SF 0.5) with (S754_finite false 4503599627370496 (-53)).
  destruct (Prim2SF e) as [s|s| |s m ex]; simpl; eauto; try discriminate.
  - destruct (Prim2SF t) as [s'|s'| |s' m' e']; simpl; try discriminate.
    destruct s'; discriminate.
  - pose proof (binary_round_aux_sign prec emax false
                  (Z.pos (4503599627370496 * m)) (-53 + ex) loc_Exact) as H.
    cbv zeta in H. unfold SF64mul, SFmul. simpl xorb.
    destruct H as [-> | [(m' & e' & ->) | [-> | ->]]]; eauto; simpl.
    + destruct (Prim2SF t) as [s'|s'| |s' m'' e'']; simpl; try discriminate.
      destruct s'; discriminate.
    + discriminate.
Qed.
End TriangleFacts.

Section Triangles.
Context (L : Library).
Import Geometry.
Local Open Scope float_scope.

(** X7. Once the three side lengths a, b, c are computed (each is
    sqrt(dx**2 + dy**2), and a square that overflows raises before
    anything is decided), [TriangleProperties.analyze] calls the points
    collinear when the shoelace area
    0.5 |x1(y2-y3) + x2(y3-y1) + x3(y1-y2)| is below the absolute
    tolerance 1e-9, and then returns the error
    ["Points are collinear (Area=0)"] without computing any centre. An
    [ok] answer has an area of at least 1e-9 and carries the sides, the
    centroid ((x1+x2+x3)/3, (y1+y2+y3)/3), the incentre, the
    circumcentre O and the orthocentre H = A + B + C - 2 O. *)
Theorem triangle_collinear_threshold
    (p1 p2 p3 : params) (x1 y1 x2 y2 x3 y3 a b c : float) :
  reads L p1 ["x"; "y"] [x1; y1] →
  reads L p2 ["x"; "y"] [x2; y2] →
  reads L p3 ["x"; "y"] [x3; y3] →
  side_length L x2 y2 x3 y3 = Return a →
  side_length L x1 y1 x3 y3 = Return b →
  side_length L x1 y1 x2 y2 = Return c →
  let area := 0.5 * abs (shoelace x1 y1 x2 y2 x3 y3) in
  let r := TriangleProperties_analyze L p1 p2 p3 in
  ((area <? 1e-9) = true →
     r = create_error_result "triangle_analyze" "Points are collinear (Area=0)") ∧
  (status r = "ok" →
     (area <? 1e-9) = false ∧
     ∃ ix iy ox oy,
       payload r =
         [ ("area", PFloat area);
           ("sides", PDict [("a", PFloat a); ("b", PFloat b); ("c", PFloat c)]);
           ("centroid", point_dict ((x1 + x2 + x3) / 3) ((y1 + y2 + y3) / 3));
           ("incenter", point_dict ix iy);
           ("circumcenter", point_dict ox oy);
           ("orthocenter", point_dict (x1 + x2 + x3 - 2 * ox) (y1 + y2 + y3 - 2 * oy)) ]).
Proof.
  intros H1 H2 H3 Ha Hb Hc area r. subst r.
  unfold TriangleProperties_analyze, TriangleProperties_analyze_body. use_reads.
  cbn [mbind outcome_bind]. rewrite Ha. cbn [mbind outcome_bind].
  rewrite Hb. cbn [mbind outcome_bind]. rewrite Hc. cbn [mbind outcome_bind].
  fold area. split.
  - intros Harea. unfold format_latex_number.
    destruct (proj1 (to_int_finite area) (half_abs_below_finite _ _ Harea)) as [n ->].
    cbn [mbind outcome_bind]. rewrite Harea.
    destruct (PyFloat.is_integral area); reflexivity.
  - intros Hok. apply try_except_ok in Hok as (res & Hres & Hok & ->).
    bind_inv Hres as area_latex.
    destruct (area <? 1e-9); [injection Hres as <-; discriminate Hok|].
    split; [reflexivity|].
    bind_inv Hres as ix. bind_inv Hres as iy.
    bind_inv Hres as x1sq. bind_inv Hres as y1sq. bind_inv Hres as x2sq.
    bind_inv Hres as y2sq. bind_inv Hres as x3sq. bind_inv Hres as y3sq.
    bind_inv Hres as ox. bind_inv Hres as oy.
    bind_inv Hres as gx_latex. bind_inv Hres as gy_latex.
    injection Hres as <-. exists ix, iy, ox, oy. reflexivity.
Qed.
End Triangles.

Section TriangleExamples.
Import Geometry.
Local Open Scope float_scope.

(** The right triangle (0,0), (4,0), (0,3): sides 5, 3, 4 and area 6;
    the circumcentre is the midpoint (2, 1.5) of the hypotenuse and the
    orthocentre the right-angle vertex. *)
Lemma triangle_collinear_threshold_witness :
  let r := TriangleProperties_analyze Reference.lib (point_at 0 0) (point_at 4 0)
             (point_at 0 3) in
  (0.5 * abs (shoelace 0 0 4 0 0 3) <? 1e-9) = false ∧
  status r = "ok" ∧
  field "area" (payload r) = Some (PFloat 6) ∧
  field "circumcenter" (payload r) = Some (point_dict 2 1.5) ∧
  field "orthocenter" (payload r) = Some (point_dict 0 0).
Proof.
  assert (H1 : reads Reference.lib (point_at 0 0) ["x"; "y"] [0; 0]) by (repeat constructor).
  assert (H2 : reads Reference.lib (point_at 4 0) ["x"; "y"] [4; 0]) by (repeat constructor).
  assert (H3 : reads Reference.lib (point_at 0 3) ["x"; "y"] [0; 3]) by (repeat constructor).
  pose proof (triangle_collinear_threshold Reference.lib _ _ _ 0 0 4 0 0 3 5 3 4
                H1 H2 H3 eq_refl eq_refl eq_refl) as [_ H].
  intros r. split; [exact (proj1 (H eq_refl))|].
  vm_compute. repeat split.
Defined.
End TriangleExamples.

(** ** Matrix operations *)

Section ValidMatrices.
Import Matrices.

Lemma all_equal_spec (ns : list nat) :
  all_equal ns = true ↔ ∀ n, n ∈ ns → n = default 0%nat (head ns).
Proof.
  destruct ns as [|n rest]; simpl.
  - split; [intros _ n H; inversion H|done].
  - rewrite forallb_forall. split.
    + intros H x [->|Hx]%elem_of_cons; [done|].
      symmetry. apply Nat.eqb_eq, H, list_elem_of_In, Hx.
    + intros H x Hx%list_elem_of_In. apply Nat.eqb_eq. symmetry.
      apply H. right. exact Hx.
Qed.

Lemma all_equal_set (ns : list nat) :
  all_equal ns = true ↔ size (list_to_set ns : gset nat) ≤ 1.
Proof.
  rewrite all_equal_spec. destruct ns as [|n rest].
  - split; [intros _; rewrite list_to_set_nil, size_empty; lia|intros _ n H; inversion H].
  - cbn [head default]. split.
    + intros H.
      assert (list_to_set (n :: rest) = ({[n]} : gset nat)) as ->.
      { apply set_eq. intros x. rewrite elem_of_list_to_set, elem_of_singleton.
        split; [apply H|intros ->; left]. }
      rewrite size_singleton. lia.
    + intros Hsize x Hx.
      assert (Hn : n ∈ (list_to_set (n :: rest) : gset nat))
        by (apply elem_of_list_to_set; left).
      assert (Hx' : x ∈ (list_to_set (n :: rest) : gset nat))
        by (apply elem_of_list_to_set; exact Hx).
      assert (size (list_to_set (n :: rest) : gset nat) = 1).
      { enough (size (list_to_set (n :: rest) : gset nat) ≠ 0) by lia.
        intros H0%size_empty_inv. rewrite H0 in Hn. set_solver. }
      exact (size_singleton_inv (list_to_set (n :: rest) : gset nat) x n H Hx' Hn).
Qed.

Lemma validate_matrix_None (m : matrix) (name : string) :
  _validate_matrix m name = None ↔ m ≠ [] ∧ all_equal (length <$> m) = true.
Proof.
  unfold _validate_matrix. destruct m as [|row rest].
  - split; [discriminate|intros [H _]; done].
  - destruct (all_equal _); split; try done. intros [_ [=]].
Qed.

Lemma validate_matrix_rows (m : matrix) (name : string) :
  _validate_matrix m name = None ↔ m ≠ [] ∧ Forall (λ row, length row = cols m) m.
Proof.
  rewrite validate_matrix_None, all_equal_spec, Forall_forall.
  unfold cols. destruct m as [|row rest]; [split; intros [H _]; done|].
  cbn [fmap list_fmap head default]. split; intros [_ H]; split; try done.
  - intros r Hr. apply H.
    change (length row :: (length <$> rest)) with (length <$> row :: rest).
    apply list_elem_of_fmap. eauto.
  - intros n Hn.
    change (length row :: (length <$> rest)) with (length <$> row :: rest) in Hn.
    apply list_elem_of_fmap in Hn as (r & -> & Hr). apply H, Hr.
Qed.

(** X9. [_validate_matrix] accepts a matrix exactly when it has a row
    and the set of its row lengths has at most one element, that is,
    when every row has the length of the first. An empty list of rows
    is refused as empty, rows of different lengths as inconsistent; a
    single empty row, a matrix with no column, is accepted. *)
Theorem validate_matrix_accepts (m : matrix) (name : string) :
  (_validate_matrix m name = None ↔
     m ≠ [] ∧ size (list_to_set (length <$> m) : gset nat) ≤ 1) ∧
  (_validate_matrix m name = None ↔
     m ≠ [] ∧ Forall (λ row, length row = cols m) m) ∧
  _validate_matrix [] name = Some (name +:+ " is empty") ∧
  _validate_matrix [[1%float]; []] name = Some (name +:+ " has inconsistent row lengths") ∧
  _validate_matrix [[]] name = None.
Proof.
  split; [|split; [|repeat split]].
  - rewrite validate_matrix_None, all_equal_set. reflexivity.
  - apply validate_matrix_rows.
Qed.
End ValidMatrices.

Section MatrixLatex.
Context (L : Library).
Import Matrices.

Lemma format_number_returns (x : float) :
  finite x ↔ ∃ s, format_latex_number L x = Return s.
Proof.
  rewrite to_int_finite. unfold format_latex_number. split.
  - intros [n ->]. simpl. destruct (PyFloat.is_integral x); eauto.
  - intros [s H]. destruct (PyFloat.to_int x) as [n|e]; [eauto|discriminate].
Qed.

Lemma format_row_returns (row : list float) :
  Forall finite row ↔ ∃ cells, format_row L row = Return cells.
Proof.
  induction row as [|x rest IH]; simpl.
  - split; [eauto|constructor].
  - rewrite Forall_cons, IH, format_number_returns. split.
    + intros [[s ->] [cells ->]]. simpl. eauto.
    + intros [cells H]. destruct (format_latex_number L x) as [s|]; [|discriminate].
      simpl in H. destruct (format_row L rest) as [more|]; [|discriminate]. eauto.
Qed.

Lemma format_rows_returns (m : matrix) :
  finite_entries m ↔ ∃ rows, format_rows L m = Return rows.
Proof.
  unfold finite_entries. induction m as [|row rest IH]; simpl.
  - split; [eauto|constructor].
  - rewrite Forall_cons, IH, format_row_returns. split.
    + intros [[cells ->] [rows ->]]. simpl. eauto.
    + intros [rows H]. destruct (format_row L row) as [cells|]; [|discriminate].
      simpl in H. destruct (format_rows L rest) as [more|]; [|discriminate]. eauto.
Qed.

Lemma matrix_to_latex_returns (m : matrix) :
  finite_entries m ↔ ∃ s, _matrix_to_latex L m = Return s.
Proof.
  rewrite format_rows_returns. unfold _matrix_to_latex. split.
  - intros [rows ->]. simpl. eauto.
  - intros [s H]. destruct (format_rows L m) as [rows|]; [eauto|discriminate].
Qed.
End MatrixLatex.

Section MatrixAdd.
Context (L : Library).
Import Matrices.
Local Open Scope float_scope.

Lemma validate_rows (m : matrix) (name : string) :
  _validate_matrix m name = None → Forall (λ row, length row = cols m) m.
Proof. intros H. apply validate_matrix_rows in H as [_ H]. exact H. Qed.

(** After the checks of [matrix_add] every index is in range: the loops
    compute the entrywise sum. *)
Lemma add_entries_sum (matrix_a matrix_b : matrix) :
  Forall (λ row, length row = cols matrix_a) matrix_a →
  Forall (λ row, length row = cols matrix_a) matrix_b →
  length matrix_a = length matrix_b →
  add_entries matrix_a matrix_b = Some (entrywise_sum matrix_a matrix_b).
Proof.
  intros Ha Hb Hlen. unfold add_entries, entrywise_sum.
  apply mapM_Some, Forall2_same_length_lookup. split.
  { rewrite length_seq, length_zip_with. lia. }
  intros i i' sum [-> Hi]%lookup_seq
    (row_a & row_b & -> & Hra & Hrb)%lookup_zip_with_Some.
  change (0 + i)%nat with i.
  assert (Hla : length row_a = cols matrix_a)
    by (eapply (proj1 (Forall_lookup _ _) Ha); eauto).
  assert (Hlb : length row_b = cols matrix_a)
    by (eapply (proj1 (Forall_lookup _ _) Hb); eauto).
  apply mapM_Some, Forall2_same_length_lookup. split.
  { rewrite length_seq, length_zip_with. lia. }
  intros j j' z [-> Hj]%lookup_seq (x & y & -> & Hx & Hy)%lookup_zip_with_Some.
  change (0 + j)%nat with j. unfold entry, matrix in *. rewrite Hra, Hrb. simpl. rewrite Hx, Hy.
  reflexivity.
Qed.

(** X10. [matrix_add] reports, in this order, the first matrix that is
    not well formed, then the second, then a difference of dimensions.
    Past these checks no index is out of range and the result is the
    entrywise binary64 sum; the answer is [ok] exactly when every entry
    of the two matrices and of the sum is finite, the others failing in
    the formatting. *)
Theorem matrix_add_outcomes (matrix_a matrix_b : matrix) :
  let r := matrix_add L matrix_a matrix_b in
  (∀ err, _validate_matrix matrix_a "Matrix A" = Some err →
     r = create_error_result "matrix_add" err) ∧
  (_validate_matrix matrix_a "Matrix A" = None →
     ∀ err, _validate_matrix matrix_b "Matrix B" = Some err →
       r = create_error_result "matrix_add" err) ∧
  (_validate_matrix matrix_a "Matrix A" = None →
   _validate_matrix matrix_b "Matrix B" = None →
   length matrix_a ≠ length matrix_b ∨ cols matrix_a ≠ cols matrix_b →
     r = create_error_result "matrix_add" "Matrices must have the same dimensions") ∧
  (_validate_matrix matrix_a "Matrix A" = None →
   _validate_matrix matrix_b "Matrix B" = None →
   length matrix_a = length matrix_b → cols matrix_a = cols matrix_b →
     add_entries matrix_a matrix_b = Some (entrywise_sum matrix_a matrix_b) ∧
     (status r = "ok" ↔
        finite_entries matrix_a ∧ finite_entries matrix_b ∧
        finite_entries (entrywise_sum matrix_a matrix_b)) ∧
     (status r = "ok" →
        payload r = [("matrix_a", matrix_payload matrix_a);
                     ("matrix_b", matrix_payload matrix_b);
                     ("result", matrix_payload (entrywise_sum matrix_a matrix_b))])).
Proof.
  intros r. subst r. unfold matrix_add, matrix_add_body.
  split; [|split; [|split]].
  - intros err ->. reflexivity.
  - intros -> err ->. reflexivity.
  - intros -> -> Hdim.
    assert ((negb (length matrix_a =? length matrix_b)%nat
             || negb (cols matrix_a =? cols matrix_b)%nat) = true) as ->; [|reflexivity].
    apply orb_true_iff. destruct Hdim as [H | H]; [left | right];
      apply negb_true_iff, Nat.eqb_neq, H.
  - intros Ha Hb Hlen Hcols.
    assert (Hsum : add_entries matrix_a matrix_b = Some (entrywise_sum matrix_a matrix_b)).
    { apply add_entries_sum; [apply (validate_rows _ _ Ha)| |exact Hlen].
      rewrite Hcols. apply (validate_rows _ _ Hb). }
    split; [exact Hsum|].
    rewrite Ha, Hb, Hsum.
    rewrite (proj2 (Nat.eqb_eq _ _) Hlen), (proj2 (Nat.eqb_eq _ _) Hcols).
    cbn [negb orb].
    rewrite !(matrix_to_latex_returns L).
    destruct (_matrix_to_latex L matrix_a) as [la|ea];
      [destruct (_matrix_to_latex L matrix_b) as [lb|eb];
       [destruct (_matrix_to_latex L (entrywise_sum matrix_a matrix_b)) as [ls|es]|]|];
      simpl.
    + split; [|reflexivity]. split; [eauto 10|reflexivity].
    + split; [|discriminate]. split; [discriminate|]. intros (_ & _ & [s [=]]).
    + split; [|discriminate]. split; [discriminate|]. intros (_ & [s [=]] & _).
    + split; [|discriminate]. split; [discriminate|]. intros ([s [=]] & _).
Qed.

Lemma float_add_comm (x y : float) : x + y = y + x.
Proof.
  apply Prim2SF_inj. rewrite !add_spec. unfold SF64add, SFadd.
  destruct (Prim2SF x) as [sx|sx| |sx mx ex], (Prim2SF y) as [sy|sy| |sy my ey];
    try reflexivity; try (destruct sx, sy; reflexivity).
  rewrite Z.min_comm, Z.add_comm. reflexivity.
Qed.

Lemma entrywise_sum_comm (matrix_a matrix_b : matrix) :
  entrywise_sum matrix_a matrix_b = entrywise_sum matrix_b matrix_a.
Proof.
  unfold entrywise_sum. revert matrix_b.
  induction matrix_a as [|ra resta IH]; intros [|rb restb]; simpl; try reflexivity.
  f_equal; [|apply IH].
  revert rb. induction ra as [|x ra IHr]; intros [|y rb]; simpl; try reflexivity.
  f_equal; [apply float_add_comm|apply IHr].
Qed.

Lemma validate_name (m : matrix) (name1 name2 : string) :
  _validate_matrix m name1 = None → _validate_matrix m name2 = None.
Proof. rewrite !validate_matrix_None. done. Qed.

(** Status and result of an addition: past the checks they depend on
    the three formattings only. *)
Lemma matrix_add_summary (matrix_a matrix_b : matrix) :
  let r := matrix_add L matrix_a matrix_b in
  (status r, field "result" (payload r)) =
    match _validate_matrix matrix_a "Matrix A", _validate_matrix matrix_b "Matrix B" with
    | None, None =>
        if (length matrix_a =? length matrix_b)%nat && (cols matrix_a =? cols matrix_b)%nat
        then
          match _matrix_to_latex L matrix_a, _matrix_to_latex L matrix_b,
                _matrix_to_latex L (entrywise_sum matrix_a matrix_b) with
          | Return _, Return _, Return _ =>
              ("ok", Some (matrix_payload (entrywise_sum matrix_a matrix_b)))
          | _, _, _ => ("error", None)
          end
        else ("error", None)
    | _, _ => ("error", None)
    end.
Proof.
  intros r. subst r. unfold matrix_add, matrix_add_body.
  destruct (_validate_matrix matrix_a "Matrix A") as [ea|] eqn:Ha; [reflexivity|].
  destruct (_validate_matrix matrix_b "Matrix B") as [eb|] eqn:Hb; [reflexivity|].
  destruct (length matrix_a =? length matrix_b)%nat eqn:Hlen; [|reflexivity].
  destruct (cols matrix_a =? cols matrix_b)%nat eqn:Hcols; [|reflexivity].
  apply Nat.eqb_eq in Hlen, Hcols. cbn [negb orb andb].
  rewrite add_entries_sum;
    [|apply (validate_rows _ _ Ha)|rewrite Hcols; apply (validate_rows _ _ Hb)|exact Hlen].
  destruct (_matrix_to_latex L matrix_a) as [la|ea];
    [destruct (_matrix_to_latex L matrix_b) as [lb|eb];
     [destruct (_matrix_to_latex L (entrywise_sum matrix_a matrix_b)) as [ls|es]|]|];
    reflexivity.
Qed.

(** X11. Matrix addition commutes: [matrix_add] of A and B and of B and
    A have the same status and, when they succeed, the same result,
    entry for entry (binary64 addition is commutative). *)
Theorem matrix_add_commutes (matrix_a matrix_b : matrix) :
  status (matrix_add L matrix_a matrix_b) = status (matrix_add L matrix_b matrix_a) ∧
  field "result" (payload (matrix_add L matrix_a matrix_b))
    = field "result" (payload (matrix_add L matrix_b matrix_a)).
Proof.
  pose proof (matrix_add_summary matrix_a matrix_b) as Hab.
  pose proof (matrix_add_summary matrix_b matrix_a) as Hba.
  cbv zeta in Hab, Hba.
  enough (H : (status (matrix_add L matrix_a matrix_b),
               field "result" (payload (matrix_add L matrix_a matrix_b)))
            = (status (matrix_add L matrix_b matrix_a),
               field "result" (payload (matrix_add L matrix_b matrix_a))))
    by (injection H as -> ->; split; reflexivity).
  rewrite Hab, Hba. clear Hab Hba.
  rewrite (entrywise_sum_comm matrix_b matrix_a).
  rewrite (Nat.eqb_sym (length matrix_b)), (Nat.eqb_sym (cols matrix_b)).
  destruct (_validate_matrix matrix_a "Matrix A") as [ea|] eqn:Ha1;
    destruct (_validate_matrix matrix_b "Matrix B") as [eb|] eqn:Hb1;
    destruct (_validate_matrix matrix_b "Matrix A") as [eb'|] eqn:Hb2;
    destruct (_validate_matrix matrix_a "Matrix B") as [ea'|] eqn:Ha2;
    try reflexivity.
  all: try (rewrite (validate_name _ _ "Matrix A" Ha2) in Ha1; discriminate).
  all: try (rewrite (validate_name _ _ "Matrix B" Ha1) in Ha2; discriminate).
  all: try (rewrite (validate_name _ _ "Matrix A" Hb1) in Hb2; discriminate).
  all: try (rewrite (validate_name _ _ "Matrix B" Hb2) in Hb1; discriminate).
  all: destruct (_ && _); try reflexivity.
  all: destruct (_matrix_to_latex L matrix_a), (_matrix_to_latex L matrix_b),
         (_matrix_to_latex L (entrywise_sum matrix_a matrix_b)); reflexivity.
Qed.
End MatrixAdd.

Section MatrixMultiply.
Context (L : Library) (np_matmul : matrix → matrix → outcome matrix).
Import Matrices.
Local Open Scope float_scope.

(** X12. [matrix_multiply] compares the number of columns of A with the
    number of rows of B before NumPy is called: when they differ the
    answer is the error naming both numbers, whatever NumPy would do.
    An [ok] answer means they agree and carries the product NumPy
    returned. *)
Theorem matrix_multiply_dimension_guard (matrix_a matrix_b : matrix) :
  _validate_matrix matrix_a "Matrix A" = None →
  _validate_matrix matrix_b "Matrix B" = None →
  let r := matrix_multiply L np_matmul matrix_a matrix_b in
  (cols matrix_a ≠ length matrix_b →
     r = create_error_result "matrix_multiply"
           ("Cannot multiply: A has " +:+ pretty (cols matrix_a)
              +:+ " columns but B has " +:+ pretty (length matrix_b) +:+ " rows")) ∧
  (cols matrix_a = length matrix_b →
     ∀ product, np_matmul matrix_a matrix_b = Return product →
       finite_entries matrix_a → finite_entries matrix_b → finite_entries product →
       status r = "ok" ∧
       field "result" (payload r) = Some (matrix_payload product)) ∧
  (status r = "ok" →
     cols matrix_a = length matrix_b ∧
     ∃ product, np_matmul matrix_a matrix_b = Return product ∧
                field "result" (payload r) = Some (matrix_payload product)).
Proof.
  intros Ha Hb r. subst r. unfold matrix_multiply, matrix_multiply_body.
  rewrite Ha, Hb. cbv zeta. split; [|split].
  - intros Hne. apply Nat.eqb_neq in Hne. rewrite Hne. reflexivity.
  - intros Heq product Hp [la Hla]%(matrix_to_latex_returns L)
      [lb Hlb]%(matrix_to_latex_returns L) [lp Hlp]%(matrix_to_latex_returns L).
    apply Nat.eqb_eq in Heq. rewrite Heq, Hp. cbn [negb mbind outcome_bind].
    rewrite Hla, Hlb. cbn [mbind outcome_bind]. rewrite Hlp. split; reflexivity.
  - intros Hok. apply try_except_ok in Hok as (res & Hres & Hok & ->).
    destruct (cols matrix_a =? length matrix_b)%nat eqn:Heq;
      [|injection Hres as <-; discriminate Hok].
    cbn [negb] in Hres. split; [apply Nat.eqb_eq, Heq|].
    bind_inv Hres as product. bind_inv Hres as a_latex. bind_inv Hres as b_latex.
    bind_inv Hres as result_latex. injection Hres as <-. exists product.
    split; reflexivity.
Qed.
End MatrixMultiply.

Section Determinant.
Context (L : Library).
Import Matrices.
Local Open Scope float_scope.

(** In a square matrix of size 2 the four entries exist: the steps of
    [matrix_determinant] never meet an index out of range. *)
Lemma determinant_steps_in_range (m : matrix) (det : float) :
  Forall (λ row, length row = cols m) m → length m = cols m →
  determinant_steps L m (length m) det ≠ Return None.
Proof.
  intros Hrows Hsq. unfold determinant_steps.
  destruct (length m =? 2)%nat eqn:H2.
  - apply Nat.eqb_eq in H2. rewrite H2 in Hsq.
    destruct m as [|r0 [|r1 [|r2 rest]]]; try discriminate H2.
    apply Forall_cons in Hrows as [H0 Hrows]. apply Forall_cons in Hrows as [H1 _].
    rewrite <- Hsq in H0, H1.
    destruct r0 as [|a [|b [|]]]; try discriminate H0.
    destruct r1 as [|c [|d [|]]]; try discriminate H1.
    simpl. destruct (format_latex_number L det); discriminate.
  - destruct (length m =? 3)%nat; destruct (format_latex_number L det); discriminate.
Qed.

(** X13. [matrix_determinant] and [matrix_inverse] agree. A matrix that
    is not well formed or not square is refused by both with the same
    message. When both answer [ok] they report the same determinant,
    the one NumPy returned, and the inverse is present exactly when
    |det| < 1e-10 fails. A matrix whose determinant is reported and
    lies below 1e-10 in absolute value is answered by [matrix_inverse]
    with [invertible] false and no inverse. The steps of
    [matrix_determinant] read the four entries of a 2×2 matrix within
    range. *)
Theorem determinant_and_inverse_agree (m : matrix) :
  let d := matrix_determinant L m in
  let i := matrix_inverse L m in
  (_validate_matrix m "Matrix" ≠ None ∨ length m ≠ cols m →
     status d = "error" ∧ status i = "error" ∧
     payload d = payload i ∧ steps d = steps i) ∧
  (status d = "ok" → status i = "ok" →
     ∃ det, np_linalg_det L m = Return det ∧
            field "determinant" (payload d) = Some (PFloat det) ∧
            field "determinant" (payload i) = Some (PFloat det) ∧
            field "invertible" (payload i) = Some (PBool (negb (abs det <? 1e-10)))) ∧
  (status d = "ok" →
     ∀ det, np_linalg_det L m = Return det → (abs det <? 1e-10) = true →
       status i = "ok" ∧ field "invertible" (payload i) = Some (PBool false) ∧
       field "inverse" (payload i) = None) ∧
  (_validate_matrix m "Matrix" = None → length m = cols m →
     ∀ det, determinant_steps L m (length m) det ≠ Return None).
Proof.
  intros d i. subst d i.
  unfold matrix_determinant, matrix_determinant_body, matrix_inverse, matrix_inverse_body.
  fold (cols m). split; [|split; [|split]];
    [| | |intros Hv Hsq det; apply determinant_steps_in_range;
          [apply (validate_rows _ _ Hv)|exact Hsq]].
  - intros H. destruct (_validate_matrix m "Matrix") as [err|]; [repeat split|].
    destruct H as [H|H]; [done|]. apply Nat.eqb_neq in H. rewrite H. repeat split.
  - intros Hd Hi.
    apply try_except_ok in Hd as (rd & Hrd & Hd & ->).
    apply try_except_ok in Hi as (ri & Hri & Hi & ->).
    destruct (_validate_matrix m "Matrix") as [err|];
      [injection Hrd as <-; discriminate Hd|].
    destruct (length m =? cols m)%nat; [|injection Hrd as <-; discriminate Hd].
    cbn [negb] in Hrd, Hri.
    destruct (np_linalg_det L m) as [det|]; [|discriminate Hrd].
    cbn [mbind outcome_bind] in Hrd, Hri. exists det. split; [reflexivity|].
    bind_inv Hrd as detail. destruct detail as [more|];
      [|injection Hrd as <-; discriminate Hd].
    bind_inv Hrd as m_latex. bind_inv Hrd as det_s. injection Hrd as <-.
    split; [reflexivity|].
    destruct (abs det <? 1e-10).
    + bind_inv Hri as det_s'. bind_inv Hri as m_latex'. injection Hri as <-.
      split; reflexivity.
    + bind_inv Hri as inverse. bind_inv Hri as det_s'. bind_inv Hri as m_latex'.
      bind_inv Hri as inv_latex. injection Hri as <-. split; reflexivity.
  - intros Hd det Hdet Hsmall.
    apply try_except_ok in Hd as (rd & Hrd & Hd & _).
    destruct (_validate_matrix m "Matrix") as [err|];
      [injection Hrd as <-; discriminate Hd|].
    destruct (length m =? cols m)%nat; [|injection Hrd as <-; discriminate Hd].
    cbn [negb] in *. rewrite Hdet in *. cbn [mbind outcome_bind] in *.
    rewrite Hsmall.
    bind_inv Hrd as detail. destruct detail as [more|];
      [|injection Hrd as <-; discriminate Hd].
    bind_inv Hrd as m_latex. bind_inv Hrd as det_s.
    cbn [mbind outcome_bind]. repeat split.
Qed.
End Determinant.

Section MatrixExamples.
Import Matrices.
Local Open Scope float_scope.

(** A row times a column: (1 2) · (3 4)ᵀ = (11). *)
Lemma matrix_multiply_dimension_guard_witness :
  status (matrix_multiply Reference.lib ReferenceOps.matmul [[1; 2]] [[3]; [4]]) = "ok" ∧
  field "result" (payload (matrix_multiply Reference.lib ReferenceOps.matmul
                             [[1; 2]] [[3]; [4]]))
    = Some (matrix_payload [[11]]).
Proof.
  pose proof (matrix_multiply_dimension_guard Reference.lib ReferenceOps.matmul
                [[1; 2]] [[3]; [4]] eq_refl eq_refl) as H.
  cbv zeta in H. destruct H as (_ & H & _).
  apply (H eq_refl [[11]] eq_refl); repeat constructor.
Defined.
End MatrixExamples.

(** ** Loops that may raise *)

Section MapM.
Context {A B : Type} (f : A → outcome B).

Lemma mapM_returns (l : list A) :
  (∀ x, x ∈ l → ∃ y, f x = Return y) →
  ∃ k, mapM f l = Return k ∧ Forall2 (λ x y, f x = Return y) l k.
Proof.
  induction l as [|x l IH]; intros H.
  - exists []. split; [reflexivity|constructor].
  - destruct (H x) as [y Hy]; [left|].
    destruct IH as (k & Hk & HF); [intros x' Hx'; apply H; right; exact Hx'|].
    exists (y :: k). simpl. rewrite Hy. simpl. rewrite Hk. split; [reflexivity|].
    constructor; assumption.
Qed.

Lemma mapM_raises (l : list A) (x : A) (e : exn) :
  x ∈ l → f x = Raise e → ∃ e', mapM f l = Raise e'.
Proof.
  intros Hx He. induction l as [|x' l IH]; [inversion Hx|].
  apply elem_of_cons in Hx as [<- | Hx]; simpl.
  - rewrite He. eauto.
  - destruct (f x') as [y|e']; [|eauto]. simpl.
    destruct (IH Hx) as [e' ->]. eauto.
Qed.
End MapM.

(** ** Arithmetic progressions *)

Section Progressions.
Context (L : Library).
Import Algebra.
Local Open Scope float_scope.

Lemma small_of_int (i : nat) : (i < 10)%nat → ∃ k, PyFloat.of_int (Z.of_nat i) = Return k.
Proof.
  intros H. do 10 (destruct i as [|i]; [eexists; vm_compute; reflexivity|]). lia.
Qed.

(** X14. [ProgressionSolver.arithmetic] answers [ok] for every number
    of terms n within float range, the non-positive ones included. The
    preview lists the first min(n, 10) terms a + i d, none when n ≤ 0,
    and for 1 ≤ n ≤ 10 its last entry is the nth term of the payload,
    bit for bit. *)
Theorem arithmetic_preview (a d : float) (n : Z) (k half_n : float) :
  PyFloat.of_int (n - 1) = Return k →
  PyInt.half n = Return half_n →
  let r := ProgressionSolver_arithmetic L a d n in
  status r = "ok" ∧
  field "nth_term" (payload r) = Some (PFloat (a + k * d)) ∧
  field "sum" (payload r) = Some (PFloat (half_n * (2 * a + k * d))) ∧
  ∃ preview,
    field "series_preview" (payload r) = Some (PList (PFloat <$> preview)) ∧
    length preview = Z.to_nat (Z.min n 10) ∧
    (∀ i t, preview !! i = Some t →
       ∃ ki, PyFloat.of_int (Z.of_nat i) = Return ki ∧ t = a + ki * d) ∧
    ((1 ≤ n ≤ 10)%Z → last preview = Some (a + k * d)).
Proof.
  intros Hk Hhalf r. subst r.
  unfold ProgressionSolver_arithmetic, arithmetic_body, term.
  rewrite Hk, Hhalf. cbn [mbind outcome_bind mret outcome_ret].
  destruct (mapM_returns (λ i, k0 ← PyFloat.of_int i; Return (a + k0 * d))
              (PyInt.range (Z.min n 10))) as (preview & Hp & HF).
  { intros x (i & -> & Hi)%list_elem_of_fmap.
    apply elem_of_seq in Hi. destruct (small_of_int i) as [ki ->]; [lia|].
    simpl. eauto. }
  change (mapM _ (PyInt.range (Z.min n 10))) with
    (mapM (λ i, k0 ← PyFloat.of_int i; Return (a + k0 * d)) (PyInt.range (Z.min n 10))).
  rewrite Hp. cbn [mbind outcome_bind try_except].
  split; [reflexivity|]. split; [reflexivity|]. split; [reflexivity|].
  exists preview. split; [reflexivity|].
  assert (Hlen : length preview = Z.to_nat (Z.min n 10)).
  { rewrite <- (Forall2_length _ _ _ HF). unfold PyInt.range.
    rewrite length_fmap, length_seq. reflexivity. }
  assert (Hat : ∀ i t, preview !! i = Some t →
            ∃ ki, PyFloat.of_int (Z.of_nat i) = Return ki ∧ t = a + ki * d).
  { intros i t Hi.
    destruct (Forall2_lookup_r _ _ _ _ _ HF Hi) as (x & Hx & Hfx).
    unfold PyInt.range in Hx. rewrite list_lookup_fmap in Hx.
    destruct (seq 0 (Z.to_nat (Z.min n 10)) !! i) as [j|] eqn:Hj; [|discriminate].
    apply lookup_seq in Hj as [-> _]. injection Hx as <-. simpl in Hfx.
    destruct (PyFloat.of_int (Z.of_nat i)) as [ki|]; [|discriminate].
    injection Hfx as <-. eauto. }
  split; [exact Hlen|]. split; [exact Hat|].
  intros Hn. rewrite last_lookup, Hlen.
  destruct (preview !! pred (Z.to_nat (Z.min n 10))) as [t|] eqn:Ht.
  - destruct (Hat _ _ Ht) as (ki & Hki & ->).
    replace (Z.of_nat (pred (Z.to_nat (Z.min n 10)))) with (n - 1)%Z in Hki by lia.
    rewrite Hk in Hki. injection Hki as <-. reflexivity.
  - apply lookup_ge_None in Ht. lia.
Qed.
End Progressions.

Section ProgressionExamples.
Import Algebra.
Local Open Scope float_scope.

(** Five terms from 2 by steps of 3: the fifth term is 14, the sum 40. *)
Lemma arithmetic_preview_witness :
  let r := ProgressionSolver_arithmetic Reference.lib 2 3 5 in
  status r = "ok" ∧
  field "nth_term" (payload r) = Some (PFloat 14) ∧
  field "sum" (payload r) = Some (PFloat 40).
Proof.
  pose proof (arithmetic_preview Reference.lib 2 3 5 4 2.5 eq_refl eq_refl) as H.
  cbv zeta in H. destruct H as (H1 & H2 & H3 & _).
  exact (conj H1 (conj H2 H3)).
Defined.
End ProgressionExamples.

(** ** Text with separators *)

Section Separators.
Lemma split_length (c : ascii) (s : string) :
  length (PyStr.split c s) = S (PyStr.count c s).
Proof.
  induction s as [|a rest IH]; [reflexivity|].
  simpl. destruct (Ascii.eqb a c); simpl; [rewrite IH; reflexivity|].
  destruct (PyStr.split c rest) as [|part parts]; [discriminate IH|].
  simpl in *. exact IH.
Qed.

Lemma contains_count (c : ascii) (s : string) :
  PyStr.contains c s = true ↔ (0 < PyStr.count c s)%nat.
Proof.
  induction s as [|a rest IH]; simpl; [split; [discriminate|lia]|].
  destruct (Ascii.eqb a c); simpl; [split; [lia|reflexivity]|exact IH].
Qed.

(** Unpacking into two names a text with two separators or more. *)
Lemma split_many (c : ascii) (s : string) :
  (2 ≤ PyStr.count c s)%nat →
  PyStr.contains c s = true ∧
  ∃ p0 p1 p2 rest, PyStr.split c s = p0 :: p1 :: p2 :: rest.
Proof.
  intros H. split; [apply contains_count; lia|].
  pose proof (split_length c s) as Hl.
  destruct (PyStr.split c s) as [|p0 [|p1 [|p2 rest]]]; simpl in Hl; try lia.
  eauto.
Qed.
End Separators.

(** ** Systems of linear equations *)

Section LinearSystems.
Context (L : Library).
Context (Symbols : Type).
Context (sympy_sub : Expr L → Expr L → outcome (Expr L)).
Context (free_symbols : Expr L → outcome Symbols).
Context (sympy_solve : list (Expr L) → list Symbols → outcome (Algebra.solve_result L)).
Context (unpack_error : nat → nat → string).
Import Algebra.

Local Abbreviation parse := (parse_equation L Symbols sympy_sub free_symbols unpack_error).
Local Abbreviation solve := (solve_system L Symbols sympy_sub free_symbols sympy_solve unpack_error).

Lemma parse_many_equals (eq_str : string) :
  (2 ≤ PyStr.count "=" eq_str)%nat →
  parse eq_str
    = Raise (Exn ValueError (unpack_error 2 (S (PyStr.count "=" eq_str)))).
Proof.
  intros H. unfold parse_equation.
  destruct (split_many "=" eq_str H) as (-> & p0 & p1 & p2 & rest & Hs).
  rewrite <- split_length, Hs. reflexivity.
Qed.

Lemma parse_invalid (eq_str : string) (e : exn) :
  PyStr.contains "=" eq_str = false → sympify L eq_str = Raise e →
  parse eq_str
    = Raise (Exn ValueError
               ("Invalid expression: " +:+ eq_str +:+ " (" +:+ str_exn e +:+ ")")).
Proof. intros Hc He. unfold parse_equation, safe_sympify. rewrite Hc, He. reflexivity. Qed.

(** X15. [solve_system] splits each equation at its [=] signs and
    unpacks two sides: an equation with two signs or more makes the
    whole call fail, with the unpacking error when it is the first
    equation. An equation without [=] is read as an expression equal
    to 0; when SymPy rejects it the message is
    ["Invalid expression: <text> (<SymPy's message>)"]. *)
Theorem solve_system_equals_signs (equations : list string) :
  (∀ eq_str rest, (2 ≤ PyStr.count "=" eq_str)%nat →
     solve (eq_str :: rest)
       = create_error_result "solve_system"
           (unpack_error 2 (S (PyStr.count "=" eq_str)))) ∧
  (∀ eq_str, eq_str ∈ equations → (2 ≤ PyStr.count "=" eq_str)%nat →
     status (solve equations) = "error") ∧
  (∀ eq_str rest e, PyStr.contains "=" eq_str = false → sympify L eq_str = Raise e →
     solve (eq_str :: rest)
       = create_error_result "solve_system"
           ("Invalid expression: " +:+ eq_str +:+ " (" +:+ str_exn e +:+ ")")).
Proof.
  split; [|split].
  - intros eq_str rest H. unfold solve_system, solve_system_body.
    cbn [mapM]. rewrite (parse_many_equals eq_str H). reflexivity.
  - intros eq_str Hin H. unfold solve_system, solve_system_body.
    destruct (mapM_raises parse equations eq_str _ Hin (parse_many_equals eq_str H))
      as [e' ->].
    reflexivity.
  - intros eq_str rest e Hc He. unfold solve_system, solve_system_body.
    cbn [mapM]. rewrite (parse_invalid eq_str e Hc He). reflexivity.
Qed.
End LinearSystems.

(** ** Differential equations *)

Section Replace.
(** Nothing is replaced in a text where the pattern does not occur. *)
Lemma replace2_absent (c1 c2 : ascii) (new s : string) :
  occurs2 c1 c2 s = false → PyStr.replace2 c1 c2 new s = s.
Proof.
  induction s as [|a tl IH]; [reflexivity|].
  intros H. simpl in H. apply orb_false_iff in H as [Hhere Htl].
  destruct tl as [|b rest]; [reflexivity|].
  change (PyStr.replace2 c1 c2 new (String a (String b rest))) with
    (if Ascii.eqb a c1 && Ascii.eqb b c2
     then new +:+ PyStr.replace2 c1 c2 new rest
     else String a (PyStr.replace2 c1 c2 new (String b rest))).
  rewrite Hhere, (IH Htl). reflexivity.
Qed.

(** After [y'] is replaced by [Derivative(y, x)] no [y'] is left, and
    the text starts with an apostrophe only if it did before. *)
Lemma replace_derivative_bound (n : nat) (s : string) :
  (String.length s ≤ n)%nat →
  let t := PyStr.replace2 "y" "'" "Derivative(y, x)" s in
  occurs2 "y" "'" t = false ∧
  (first_char t = Some "'"%char → first_char s = Some "'"%char).
Proof.
  revert s. induction n as [|n IH]; intros s Hn.
  - destruct s; [split; [reflexivity|auto]|simpl in Hn; lia].
  - destruct s as [|a [|b rest]]; [split; [reflexivity|auto]| |].
    + split; [|auto]. simpl. rewrite andb_false_r. reflexivity.
    + cbv zeta.
      change (PyStr.replace2 "y" "'" "Derivative(y, x)" (String a (String b rest))) with
        (if Ascii.eqb a "y" && Ascii.eqb b "'"
         then "Derivative(y, x)" +:+ PyStr.replace2 "y" "'" "Derivative(y, x)" rest
         else String a (PyStr.replace2 "y" "'" "Derivative(y, x)" (String b rest))).
      destruct (Ascii.eqb a "y" && Ascii.eqb b "'") eqn:Hm.
      * destruct (IH rest) as [Hocc _]; [simpl in Hn; lia|]. cbv zeta in Hocc.
        split; [|discriminate].
        change ("Derivative(y, x)" +:+ ?t) with
          (String "D" (String "e" (String "r" (String "i" (String "v" (String "a"
           (String "t" (String "i" (String "v" (String "e" (String "(" (String "y"
           (String "," (String " " (String "x" (String ")" t)))))))))))))))).
        simpl. exact Hocc.
      * destruct (IH (String b rest)) as [Hocc Hfirst]; [simpl in *; lia|].
        cbv zeta in Hocc, Hfirst. split; [|auto].
        cbn [occurs2]. rewrite Hocc, orb_false_r.
        destruct (Ascii.eqb a "y") eqn:Ha; [|reflexivity]. simpl in Hm.
        destruct (PyStr.replace2 "y" "'" "Derivative(y, x)" (String b rest))
          as [|b' rest'] eqn:Hr; [reflexivity|].
        simpl. destruct (Ascii.eqb b' "'") eqn:Hb'; [|reflexivity].
        apply Ascii.eqb_eq in Hb'. subst b'.
        specialize (Hfirst eq_refl). injection Hfirst as ->. discriminate Hm.
Qed.
End Replace.

Section ODE.
Context (L : Library).
Context (Ode : Type).
Context (sympify_ode : string → outcome Ode).
Context (sympy_Eq : Ode → Ode → outcome Ode).
Context (dsolve : Ode → outcome Ode).
Context (ode_latex ode_str : Ode → string).
Context (unpack_error : nat → nat → string).
Import Calculus.

(** X16. [solve_ode] unpacks the two sides of the equation before
    anything else: an equation with two [=] signs or more is answered by
    the error ["Could not solve ODE: "] followed by the unpacking
    error, whatever SymPy would make of it. Every [y'] reaches SymPy as
    [Derivative(y, x)]: the second replacement, by [diff(y, x)], finds
    no [y'] left. *)
Theorem solve_ode_equals_signs (equation : string) :
  ((2 ≤ PyStr.count "=" equation)%nat →
     solve_ode Ode sympify_ode sympy_Eq dsolve ode_latex ode_str unpack_error equation
       = create_error_result "ode"
           ("Could not solve ODE: " +:+ unpack_error 2 (S (PyStr.count "=" equation)))) ∧
  formatted_eq equation = PyStr.replace2 "y" "'" "Derivative(y, x)" equation.
Proof.
  split.
  - intros H. unfold solve_ode, solve_ode_body.
    destruct (split_many "=" equation H) as (-> & p0 & p1 & p2 & rest & Hs).
    rewrite <- split_length, Hs. reflexivity.
  - unfold formatted_eq. apply replace2_absent.
    apply (replace_derivative_bound (String.length equation) equation (le_n _)).
Qed.
End ODE.

(** ** Envelopes of the other entry points *)

(** One step through a body: a bind, a return, a raise or a branch. *)
Ltac through_body :=
  repeat lazymatch goal with
         | |- returns_envelope (mbind _ _) => apply bind_envelope; intros; cbv beta
         | |- returns_envelope (mret (create_error_result _ _)) => apply ret_error
         | |- returns_envelope (mret _) => apply ret_ok; reflexivity
         | |- returns_envelope (Raise _) => apply raise_envelope
         | |- returns_envelope (match ?x with _ => _ end) => destruct x
         | |- returns_envelope (let '(_, _) := ?x in _) => destruct x
         end.

Section MoreEnvelopes.
Context (L : Library).

(** X17. The other entry points embedded return one envelope as
    well: [line_intersection], [tangent_from_point],
    [TriangleProperties.analyze], [QuadrilateralProperties.analyze],
    [GeometricTransformer.transform_2d], [Mensuration.herons_formula],
    [matrix_add], [matrix_multiply], [matrix_determinant],
    [ProgressionSolver.arithmetic], [LinearSystemSolver.solve_system]
    and [solve_ode] answer [ok], or [error] with the payload
    [{error: message}] and the single step ["Error: " message],
    whatever the libraries return or raise. *)
Theorem other_entry_points_return_envelopes :
  (∀ l1 l2, envelope (Geometry.line_intersection L l1 l2)) ∧
  (∀ p c, envelope (Geometry.tangent_from_point L p c)) ∧
  (∀ p1 p2 p3, envelope (Geometry.TriangleProperties_analyze L p1 p2 p3)) ∧
  (∀ p1 p2 p3 p4, envelope (Geometry.QuadrilateralProperties_analyze L p1 p2 p3 p4)) ∧
  (∀ math_radians math_sin math_cos point operation prm,
     envelope (Geometry.transform_2d L math_radians math_sin math_cos point operation
                 prm)) ∧
  (∀ a b c, envelope (Geometry.herons_formula L a b c)) ∧
  (∀ a b, envelope (Matrices.matrix_add L a b)) ∧
  (∀ np_matmul a b, envelope (Matrices.matrix_multiply L np_matmul a b)) ∧
  (∀ m, envelope (Matrices.matrix_determinant L m)) ∧
  (∀ a d n, envelope (Algebra.ProgressionSolver_arithmetic L a d n)) ∧
  (∀ Symbols sympy_sub free_symbols sympy_solve unpack_error equations,
     envelope (Algebra.solve_system L Symbols sympy_sub free_symbols sympy_solve
                 unpack_error equations)) ∧
  (∀ Ode sympify_ode sympy_Eq dsolve ode_latex ode_str unpack_error equation,
     envelope (Calculus.solve_ode Ode sympify_ode sympy_Eq dsolve ode_latex ode_str
                 unpack_error equation)).
Proof.
  repeat split; intros.
  - apply try_except_envelope; [|intros e; apply error_result_envelope].
    unfold Geometry.line_intersection_body. through_body.
  - apply try_except_envelope; [|intros e; apply error_result_envelope].
    unfold Geometry.tangent_from_point_body. through_body.
  - apply try_except_envelope; [|intros e; apply error_result_envelope].
    unfold Geometry.TriangleProperties_analyze_body. through_body.
  - apply try_except_envelope; [|intros e; apply error_result_envelope].
    unfold Geometry.QuadrilateralProperties_analyze_body. through_body.
  - apply try_except_envelope; [|intros e; apply error_result_envelope].
    unfold Geometry.transform_2d_body, Geometry.transformed. through_body.
  - apply try_except_envelope; [|intros e; apply error_result_envelope].
    unfold Geometry.herons_formula_body. through_body.
  - apply try_except_envelope; [|intros e; apply error_result_envelope].
    unfold Matrices.matrix_add_body, Matrices.index_error_result. through_body.
  - apply try_except_envelope; [|intros e; apply error_result_envelope].
    unfold Matrices.matrix_multiply_body. through_body.
  - apply try_except_envelope; [|intros e; apply error_result_envelope].
    unfold Matrices.matrix_determinant_body, Matrices.index_error_result. through_body.
  - apply try_except_envelope; [|intros e; apply error_result_envelope].
    unfold Algebra.arithmetic_body. through_body.
  - apply try_except_envelope; [|intros e; apply error_result_envelope].
    unfold Algebra.solve_system_body. through_body.
  - apply try_except_envelope;
      [|intros e; destruct (is_sympify_error e); apply error_result_envelope].
    unfold Calculus.solve_ode_body. through_body.
Qed.
End MoreEnvelopes.

(** ** The critical points of an expression *)

Section CriticalPointsWrapper.
Context (L : Library).
Import Calculus.

(** X18. [find_critical_points] is [FunctionAnalyzer(expression)
    .critical_points(domain)]: the validity test of the convenience
    function changes nothing, as the method makes the same test and
    names the same operation. When SymPy cannot parse or differentiate
    the expression, the answer is the error carrying the text of its
    exception. *)
Theorem find_critical_points_is_the_method (fuel : nat) (expression : string)
    (domain : option (float * float)) :
  find_critical_points L fuel expression domain
    = critical_points L fuel (new_FunctionAnalyzer L expression) domain ∧
  (∀ e, post_init L expression = Raise e →
     find_critical_points L fuel expression domain
       = Some (create_error_result "critical_points" (str_exn e))).
Proof.
  unfold find_critical_points, critical_points, is_valid, error_message,
    new_FunctionAnalyzer.
  cbn [state Calculus.expression]. split.
  - destruct (try_except (post_init L expression) _); reflexivity.
  - intros e ->. reflexivity.
Qed.
End CriticalPointsWrapper.

(** ** A line without direction and a circle *)

Section DirectionlessLine.
Context (L : Library).
Import Geometry.
Local Open Scope float_scope.

(** X20. For a line without direction, a = b = 0,
    [line_circle_intersection] takes the distance from the centre to be
    the integer 0. When the radius is positive or within 1e-9 of 0 the
    projection of the centre divides by a**2 + b**2 = 0 and the call
    answers the error ["float division by zero"]; for any other radius
    it answers [ok] with [no_intersection], no point and the distance
    0, an [int]. *)
Theorem directionless_line_and_circle (lp : params) (a b c h k r : float) :
  reads L lp ["a"; "b"; "c"] [a; b; c] →
  (a =? 0) = true → (b =? 0) = true →
  let res := line_circle_intersection L lp (circle_hkr h k r) in
  ((abs (0 - r) <? 1e-9) || (0 <? r) = true →
     res = create_error_result "line_circle_intersection" "float division by zero") ∧
  ((abs (0 - r) <? 1e-9) || (0 <? r) = false →
     status res = "ok" ∧
     payload res = [("status", PStr "no_intersection"); ("points", PList []);
                    ("distance", PInt 0)]).
Proof.
  intros Hl Ha Hb res. subst res.
  unfold line_circle_intersection, line_circle_body. use_reads.
  cbn [mbind outcome_bind].
  change (contains (circle_hkr h k r) "h") with true.
  change (contains (circle_hkr h k r) "k") with true.
  change (get (circle_hkr h k r) "h") with (PFloat h).
  change (get (circle_hkr h k r) "k") with (PFloat k).
  change (get (circle_hkr h k r) "r") with (PFloat r).
  cbn [_safe_float float_of mbind outcome_bind].
  rewrite (pow2_zero L a Ha), (pow2_zero L b Hb). cbn [mbind outcome_bind].
  change (PyFloat.math_sqrt (0 + 0)) with (Return (A := float) 0).
  cbn [mbind outcome_bind].
  change (PyFloat.neb 0 0) with false. cbv iota.
  change (PyFloat.div ?x (0 + 0)) with
    (Raise (A := float) (Exn ZeroDivisionError "float division by zero")).
  split.
  - intros [H | H]%orb_true_iff; rewrite H; [reflexivity|].
    destruct (abs (0 - r) <? 1e-9); reflexivity.
  - intros [H1 H2]%orb_false_iff. rewrite H1, H2. split; reflexivity.
Qed.
End DirectionlessLine.

Section DirectionlessLineExamples.
Import Geometry.
Local Open Scope float_scope.

(** No line coefficient is given; the circle is the unit circle. *)
Lemma directionless_line_and_circle_witness :
  line_circle_intersection Reference.lib ∅ (circle_hkr 0 0 1)
    = create_error_result "line_circle_intersection" "float division by zero".
Proof.
  assert (H : reads Reference.lib ∅ ["a"; "b"; "c"] [0; 0; 0]) by (repeat constructor).
  exact (proj1 (directionless_line_and_circle Reference.lib ∅ 0 0 0 0 0 1 H
                  eq_refl eq_refl) eq_refl).
Defined.
End DirectionlessLineExamples.

(** ** The geometry endpoints *)

(** Evaluates the reads of a dictionary written out key by key. *)
Ltac eval_reads :=
  repeat match goal with
         | |- context [Geometry.get ?m ?k] =>
             let v := eval vm_compute in (Geometry.get m k) in
             progress change (Geometry.get m k) with v
         | |- context [Geometry.get0 ?m ?k] =>
             let v := eval vm_compute in (Geometry.get0 m k) in
             progress change (Geometry.get0 m k) with v
         | |- context [Geometry.contains ?m ?k] =>
             let v := eval vm_compute in (Geometry.contains m k) in
             progress change (Geometry.contains m k) with v
         end.

Section Endpoints.
Context (L : Library).
Import Geometry.

(** X21. The endpoints hand the geometry functions dictionaries in
    which every scalar they read is a number of the request, so that
    nothing is defaulted there. A circle is written under the keys
    (x, y, r) and (h, k, r) at once: [line_circle_intersection] and
    [tangent_from_point], which read (h, k, r), and
    [circle_circle_intersection], which reads (x, y, r), all see the
    centre and the radius of the request. *)
Theorem endpoints_pass_every_scalar
    (line : Api.LineModel) (point : Api.PointModel) (circle circle2 : Api.CircleModel) :
  reads L (Api._to_line line) ["a"; "b"; "c"] [Api.A line; Api.B line; Api.C line] ∧
  reads L (Api._to_point point) ["x"; "y"] [Api.x point; Api.y point] ∧
  Api.line_circle_intersect L circle line
    = to_dict (line_circle_intersection L
                 (line_of (Api.A line) (Api.B line) (Api.C line))
                 (circle_hkr (Api.center_x circle) (Api.center_y circle)
                    (Api.radius circle))) ∧
  Api.tangent L circle point
    = to_dict (tangent_from_point L (point_at (Api.x point) (Api.y point))
                 (circle_hkr (Api.center_x circle) (Api.center_y circle)
                    (Api.radius circle))) ∧
  Api.circle_circle_intersect L circle circle2
    = to_dict (circle_circle_intersection L
                 (circle_at (Api.center_x circle) (Api.center_y circle)
                    (Api.radius circle))
                 (circle_at (Api.center_x circle2) (Api.center_y circle2)
                    (Api.radius circle2))).
Proof.
  split; [repeat constructor|]. split; [repeat constructor|].
  split; [|split].
  - unfold Api.line_circle_intersect, line_circle_intersection, line_circle_body.
    eval_reads. reflexivity.
  - unfold Api.tangent, tangent_from_point, tangent_from_point_body.
    eval_reads. reflexivity.
  - unfold Api.circle_circle_intersect, circle_circle_intersection, circle_circle_body.
    eval_reads. reflexivity.
Qed.
End Endpoints.

(** ** The plot of a quadratic *)

Section QuadraticPlot.
Context (L : Library).
Import Algebra.
Local Open Scope float_scope.

(** X22. With D = b**2 − 4ac, when 2a is not zero the plot of
    [QuadraticSolver.solve] holds the curve followed by one point per
    real root: the two roots for D > 0, the repeated root for D = 0, no
    point for D < 0. *)
Theorem quadratic_plot_elements (a b c b2 : float) :
  PyFloat.pow2 (libm_pow L) b = Return b2 →
  (2 * a =? 0) = false →
  let D := b2 - 4 * a * c in
  ∃ curve,
    pe_type curve = "curve" ∧
    plot_elements (QuadraticSolver_solve L a b c) =
      curve ::
      (if 0 <? D then
         [ point_element (float_re (root1 L a b D)) "x1";
           point_element (float_re (root2 L a b D)) "x2" ]
       else if D =? 0 then [ point_element (float_re (root1 L a b D)) "x1" ]
       else []).
Proof.
  intros Hb2 Ha D. pose proof (discriminant_of L a b c b2 Hb2) as HD. fold D in HD.
  rewrite (solve_unfold L a b c D HD). cbv zeta.
  cbn [plot_elements]. unfold try_pass, quadratic_plot, PyFloat.div.
  rewrite Ha. cbn [mbind outcome_bind mret outcome_ret try_except].
  lazymatch goal with |- ex (λ _, _ ∧ ?c :: _ = _) => exists c end.
  split; [reflexivity|]. f_equal.
  unfold PyFloat.geb, PyFloat.gtb.
  destruct (0 <? D) eqn:Hpos.
  - assert ((0 <=? D) = true) as ->; [|reflexivity].
    rewrite leb_spec. rewrite ltb_spec in Hpos. unfold SFleb, SFltb in *.
    destruct (SFcompare (Prim2SF 0) (Prim2SF D)) as [[| |]|]; done.
  - destruct (D =? 0) eqn:Hz.
    + assert ((0 <=? D) = true) as ->; [|reflexivity].
      apply eqb_zero_inv in Hz as [-> | ->]; reflexivity.
    + assert ((0 <=? D) = false) as ->; [|reflexivity].
      rewrite leb_spec. rewrite ltb_spec in Hpos. rewrite FloatAxioms.eqb_spec in Hz.
      unfold SFleb, SFltb, SFeqb in *. rewrite Prim2SF_zero in *.
      destruct (Prim2SF D) as [s|s| |s m e]; simpl in *; try done.
      * destruct s; done.
      * destruct s; done.
Qed.
End QuadraticPlot.

Section QuadraticPlotExamples.
Import Algebra.
Local Open Scope float_scope.

(** x² - 3x + 2 = 0: b**2 = 9 and D = 1, the curve and the roots 2 and
    1. *)
Lemma quadratic_plot_elements_witness :
  ∃ curve,
    plot_elements (QuadraticSolver_solve Reference.lib 1 (-3) 2)
      = [curve; point_element 2 "x1"; point_element 1 "x2"].
Proof.
  destruct (quadratic_plot_elements Reference.lib 1 (-3) 2 9 eq_refl eq_refl)
    as (curve & _ & H).
  exists curve. exact H.
Defined.
End QuadraticPlotExamples.

(** ** Quadrilaterals *)

Section QuadrilateralFacts.
Local Open Scope float_scope.

Lemma float_mul_comm (x y : float) : x * y = y * x.
Proof.
  apply Prim2SF_inj. rewrite !mul_spec. unfold SF64mul, SFmul.
  destruct (Prim2SF x) as [sx|sx| |sx mx ex], (Prim2SF y) as [sy|sy| |sy my ey];
    try reflexivity; try (destruct sx, sy; reflexivity).
  rewrite xorb_comm, Pos.mul_comm, Z.add_comm. reflexivity.
Qed.

(** A finite number minus itself is [+0.0]. *)
Lemma finite_sub_self (x : float) : finite x → x - x = 0.
Proof.
  intros H. apply Prim2SF_inj. rewrite sub_spec, Prim2SF_zero.
  apply finite_spec in H as [[s ->] | (s & m & e & ->)].
  - destruct s; reflexivity.
  - unfold SF64sub, SFsub. rewrite Z.min_id. unfold shl_align.
    rewrite Z.sub_diag. reflexivity.
Qed.
End QuadrilateralFacts.

Section Quadrilaterals.
Context (L : Library).
Import Geometry.
Local Open Scope float_scope.

(** X23. [QuadrilateralProperties.analyze] does not ask the four
    points to differ: four times the same point (four points without
    coordinates, each read as the origin, for instance) is answered
    [ok] as a [Square] of area 0 with sides and diagonals 0, as long
    as the shoelace sum 4xy stays finite. *)
Theorem coincident_points_are_a_square (p1 p2 p3 p4 : params) (x y : float) :
  reads L p1 ["x"; "y"] [x; y] →
  reads L p2 ["x"; "y"] [x; y] →
  reads L p3 ["x"; "y"] [x; y] →
  reads L p4 ["x"; "y"] [x; y] →
  finite x → finite y → finite (x * y + x * y + x * y + x * y) →
  let r := QuadrilateralProperties_analyze L p1 p2 p3 p4 in
  status r = "ok" ∧
  payload r = [ ("area", PFloat 0);
                ("sides", PList [PFloat 0; PFloat 0; PFloat 0; PFloat 0]);
                ("diagonals", PList [PFloat 0; PFloat 0]);
                ("type", PStr "Square") ].
Proof.
  intros H1 H2 H3 H4 Fx Fy Fs r. subst r.
  unfold QuadrilateralProperties_analyze, QuadrilateralProperties_analyze_body.
  use_reads. cbn [mbind outcome_bind].
  unfold side_length, shoelace4.
  rewrite (float_mul_comm y x), (finite_sub_self x Fx), (finite_sub_self y Fy),
    (finite_sub_self _ Fs).
  split; reflexivity.
Qed.
End Quadrilaterals.

Section QuadrilateralExamples.
Import Geometry.
Local Open Scope float_scope.

(** Four points without coordinates. *)
Lemma coincident_points_are_a_square_witness :
  let r := QuadrilateralProperties_analyze Reference.lib ∅ ∅ ∅ ∅ in
  status r = "ok" ∧ field "type" (payload r) = Some (PStr "Square").
Proof.
  assert (H : reads Reference.lib ∅ ["x"; "y"] [0; 0]) by (repeat constructor).
  destruct (coincident_points_are_a_square Reference.lib ∅ ∅ ∅ ∅ 0 0 H H H H
              eq_refl eq_refl eq_refl) as [Hok Hpay].
  intros r. split; [exact Hok|]. subst r. rewrite Hpay. reflexivity.
Defined.
End QuadrilateralExamples.

(** ** Transformations of a point *)

Section Transformations.
Context (L : Library).
Context (math_radians : float → float) (math_sin math_cos : float → outcome float).
Import Geometry.
Local Open Scope float_scope.

Local Abbreviation transform := (transform_2d L math_radians math_sin math_cos).

(** What [transformed] returns is [ok] and has finite coordinates. *)
Lemma transformed_finite (new_x new_y : float) (steps0 : list string)
    (res : ComputationResult) :
  transformed L new_x new_y steps0 = Return res →
  status res = "ok" ∧ payload res = [("point", point_dict new_x new_y)] ∧
  finite new_x ∧ finite new_y.
Proof.
  unfold transformed, format_latex_number. intros H.
  destruct (PyFloat.to_int new_x) as [n|] eqn:Ex; [|discriminate H].
  destruct (PyFloat.to_int new_y) as [n'|] eqn:Ey;
    [|simpl in H; destruct (PyFloat.is_integral new_x); discriminate H].
  assert (finite new_x) by (apply to_int_finite; eauto).
  assert (finite new_y) by (apply to_int_finite; eauto).
  simpl in H.
  destruct (PyFloat.is_integral new_x), (PyFloat.is_integral new_y);
    injection H as <-; auto.
Qed.

(** X24. [transform_2d] refuses an operation other than [rotate],
    [reflect], [translate] and [scale] by name, and a reflection whose
    a**2 + b**2, computed in binary64, equals 0: that is the line
    a = b = 0, and also a line whose coefficients are so small that
    the squares underflow, a = b = 1e-200 for instance, whose square
    [pow] returns as 0. An [ok] answer comes from one of the four
    operations and carries a point with finite coordinates. *)
Theorem transform_2d_refusals (point prm : params) (operation : string) (px py : float) :
  reads L point ["x"; "y"] [px; py] →
  let r := transform point operation prm in
  (operation ∉ ["rotate"; "reflect"; "translate"; "scale"] →
     r = create_error_result "transform_2d" ("Unknown operation: " +:+ operation)) ∧
  (operation = "reflect" →
     ∀ a b c a2 b2, reads L prm ["a"; "b"; "c"] [a; b; c] →
       PyFloat.pow2 (libm_pow L) a = Return a2 →
       PyFloat.pow2 (libm_pow L) b = Return b2 →
       (a2 + b2 =? 0) = true →
       r = create_error_result "transform_2d" "Invalid line (a=b=0)") ∧
  (status r = "ok" →
     operation ∈ ["rotate"; "reflect"; "translate"; "scale"] ∧
     ∃ x y, payload r = [("point", point_dict x y)] ∧ finite x ∧ finite y) ∧
  (libm_pow L 1e-200 2 = 0 →
     transform (point_at 1 1) "reflect" (line_of 1e-200 1e-200 0)
       = create_error_result "transform_2d" "Invalid line (a=b=0)").
Proof.
  intros Hp r. subst r. unfold transform_2d, transform_2d_body. use_reads.
  cbn [mbind outcome_bind]. split; [|split; [|split]].
  - intros Hop.
    destruct (String.eqb_spec operation "rotate") as [->|_]; [destruct Hop; set_solver|].
    destruct (String.eqb_spec operation "reflect") as [->|_]; [destruct Hop; set_solver|].
    destruct (String.eqb_spec operation "translate") as [->|_]; [destruct Hop; set_solver|].
    destruct (String.eqb_spec operation "scale") as [->|_]; [destruct Hop; set_solver|].
    reflexivity.
  - intros -> a b c a2 b2 Hl Ha Hb Hz. simpl String.eqb. cbv iota. use_reads.
    cbn [mbind outcome_bind]. rewrite Ha. cbn [mbind outcome_bind]. rewrite Hb.
    cbn [mbind outcome_bind]. rewrite Hz. reflexivity.
  - intros Hok. apply try_except_ok in Hok as (res & Hres & Hok & ->).
    destruct (String.eqb_spec operation "rotate") as [->|_].
    { split; [set_solver|].
      bind_inv Hres as cx. bind_inv Hres as cy. bind_inv Hres as angle_deg.
      bind_inv Hres as s. bind_inv Hres as c.
      apply transformed_finite in Hres as (_ & Hpay & Hx & Hy). eauto. }
    destruct (String.eqb_spec operation "reflect") as [->|_].
    { split; [set_solver|].
      bind_inv Hres as a. bind_inv Hres as b. bind_inv Hres as c.
      bind_inv Hres as a2. bind_inv Hres as b2.
      destruct (a2 + b2 =? 0); [injection Hres as <-; discriminate Hok|].
      bind_inv Hres as factor.
      apply transformed_finite in Hres as (_ & Hpay & Hx & Hy). eauto. }
    destruct (String.eqb_spec operation "translate") as [->|_].
    { split; [set_solver|].
      bind_inv Hres as dx. bind_inv Hres as dy.
      apply transformed_finite in Hres as (_ & Hpay & Hx & Hy). eauto. }
    destruct (String.eqb_spec operation "scale") as [->|_].
    { split; [set_solver|].
      bind_inv Hres as cx. bind_inv Hres as cy. bind_inv Hres as k.
      apply transformed_finite in Hres as (_ & Hpay & Hx & Hy). eauto. }
    injection Hres as <-. discriminate Hok.
  - intros Hpow. unfold transform_2d, transform_2d_body. simpl String.eqb. cbv iota.
    eval_reads. cbn [_safe_float float_of mbind outcome_bind].
    unfold PyFloat.pow2.
    change (is_nan 1e-200) with false. change (is_infinity 1e-200) with false.
    change (1e-200 =? 0) with false. change (abs 1e-200 =? 1) with false.
    change (abs 1e-200) with 1e-200. cbv iota zeta. rewrite Hpow. reflexivity.
Qed.
End Transformations.

Section TransformationExamples.
Import Geometry.
Local Open Scope float_scope.

(** [math.radians] multiplies by π/180; the reference instance has no
    sine and no cosine. *)
Lemma transform_2d_refusals_witness :
  let transform :=
    transform_2d Reference.lib (λ x, x * (3.141592653589793 / 180))
      (λ _, Raise Reference.unsupported) (λ _, Raise Reference.unsupported) in
  reads Reference.lib (point_at 3 4) ["x"; "y"] [3; 4] ∧
  transform (point_at 3 4) "shear" ∅
    = create_error_result "transform_2d" "Unknown operation: shear" ∧
  libm_pow Reference.lib 1e-200 2 = 0 ∧
  transform (point_at 1 1) "reflect" (line_of 1e-200 1e-200 0)
    = create_error_result "transform_2d" "Invalid line (a=b=0)".
Proof.
  intros transform.
  assert (H : reads Reference.lib (point_at 3 4) ["x"; "y"] [3; 4]) by (repeat constructor).
  destruct (transform_2d_refusals Reference.lib (λ x, x * (3.141592653589793 / 180))
              (λ _, Raise Reference.unsupported) (λ _, Raise Reference.unsupported)
              (point_at 3 4) ∅ "shear" 3 4 H) as (Hunknown & _ & _ & Hsmall).
  split; [exact H|]. split; [|split; [reflexivity | exact (Hsmall eq_refl)]].
  apply Hunknown.
  intros Hin. repeat (apply elem_of_cons in Hin as [Hin|Hin]; [discriminate Hin|]).
  inversion Hin.
Defined.
End TransformationExamples.
